(** * The PyPI metadata client of [av] ([src/av/pypi_crawler.py])

    A shallow embedding of [PackageInfo.from_json], [PyPISearchParser] and
    [PyPICrawler], and the properties of the registry client checked on it;
    then the life of the HTTP client of a crawler, and the command
    [av venv] of [src/av/cli.py] that uses one.

    Conventions of the embedding.
    - Python text is a [string]; the model is exact on ASCII text
      ([\d], [str.strip] and [str.split] are taken on their ASCII range).
    - A value decoded from JSON is a [json]; Python's [None] is [JNull].
      JSON numbers are the integers.
    - A Python exception is a value of [exn]; a call that may raise
      returns a [result].
    - The HTTP client is a function from requests to outcomes. *)

From Stdlib Require Import String Ascii List ZArith Bool Arith Lia.
From Stdlib Require Import Sorted Permutation DecimalString.
Import ListNotations.
Open Scope string_scope.
Open Scope list_scope.
Open Scope nat_scope.

(* ================================================================== *)
(** * Text operations of [str] *)
(* ================================================================== *)

Module Str.

(** Characters [str.isspace] accepts in the ASCII range. *)
Definition is_space (a : ascii) : bool :=
  let n := nat_of_ascii a in
  ((9 <=? n) && (n <=? 13)) || ((28 <=? n) && (n <=? 32)).

Fixpoint lstrip (s : string) : string :=
  match s with
  | String a t => if is_space a then lstrip t else s
  | EmptyString => EmptyString
  end.

(** [rstrip] keeps a character when it is not a space or when something
    is kept after it. *)
Fixpoint rstrip (s : string) : string :=
  match s with
  | String a t =>
      match rstrip t with
      | EmptyString => if is_space a then EmptyString else String a EmptyString
      | t' => String a t'
      end
  | EmptyString => EmptyString
  end.

(** [s.strip()] *)
Definition strip (s : string) : string := rstrip (lstrip s).

(** [s.split()]: the maximal runs of non-space characters.  [cur] is the
    run being read, reversed. *)
Fixpoint split_go (cur : list ascii) (s : string) : list string :=
  let flush rest :=
    match cur with
    | [] => rest
    | _ => string_of_list_ascii (rev cur) :: rest
    end in
  match s with
  | EmptyString => flush []
  | String a t =>
      if is_space a then flush (split_go [] t) else split_go (a :: cur) t
  end.

Definition split (s : string) : list string := split_go [] s.

(** [s.split(sep)[0]] for a one-character [sep]. *)
Fixpoint before (sep : ascii) (s : string) : string :=
  match s with
  | EmptyString => EmptyString
  | String a t => if Ascii.eqb a sep then EmptyString else String a (before sep t)
  end.

(** [s[n:]] *)
Fixpoint drop (n : nat) (s : string) : string :=
  match n, s with
  | O, _ => s
  | S n', String _ t => drop n' t
  | S _, EmptyString => EmptyString
  end.

(** [s[a:b]] for [0 <= a], clamped as Python slices are. *)
Definition slice (a b : nat) (s : string) : string := substring a (b - a) s.

(** [s.endswith(suffix)] *)
Definition endswith (s suffix : string) : bool :=
  (String.length suffix <=? String.length s) &&
  String.eqb (drop (String.length s - String.length suffix) s) suffix.

(** [x in l] on a list of strings. *)
Definition mem (x : string) (l : list string) : bool :=
  existsb (String.eqb x) l.

(** The part of [s] read between [s] and its suffix [rest]. *)
Definition consumed (s rest : string) : string :=
  substring 0 (String.length s - String.length rest) s.

(** Every character of [s] satisfies [p]; no character of [s] is [a]. *)
Fixpoint all (p : ascii -> bool) (s : string) : bool :=
  match s with
  | EmptyString => true
  | String a t => p a && all p t
  end.

Definition lacks (a : ascii) (s : string) : bool :=
  all (fun x => negb (Ascii.eqb x a)) s.

End Str.

(* ================================================================== *)
(** * Regular expressions of [re], by backtracking *)
(* ================================================================== *)

Module Re.

Inductive regex : Type :=
| Eps                                  (* the empty pattern *)
| Chr (a : ascii)                      (* a literal character *)
| Cls (p : ascii -> bool)              (* a class: [[...]], [\d] *)
| NotCls (p : ascii -> bool)           (* a negated class: [[^...]], [.] *)
| Cat (r1 r2 : regex)                  (* r1 r2 *)
| Alt (r1 r2 : regex)                  (* r1|r2 *)
| Star (r : regex)                     (* r*, greedy *)
| StarLazy (r : regex)                 (* r*?, lazy *)
| Group (n : nat) (r : regex).         (* the n-th capturing group *)

Definition Plus (r : regex) : regex := Cat r (Star r).          (* r+ *)
Definition PlusLazy (r : regex) : regex := Cat r (StarLazy r).  (* r+? *)
Definition Opt (r : regex) : regex := Alt r Eps.                (* r? *)

(** A literal string, as [re.escape] produces. *)
Fixpoint Lit (s : string) : regex :=
  match s with
  | EmptyString => Eps
  | String a t => Cat (Chr a) (Lit t)
  end.

(** ** Character classes *)

Definition between (lo hi : nat) (a : ascii) : bool :=
  (lo <=? nat_of_ascii a) && (nat_of_ascii a <=? hi).

Definition digit : ascii -> bool := between 48 57.          (* \d, 0-9 *)
Definition lower : ascii -> bool := between 97 122.         (* a-z *)
Definition upper : ascii -> bool := between 65 90.          (* A-Z *)
Definition alnum (a : ascii) : bool := lower a || upper a || digit a.
Definition hexdigit (a : ascii) : bool :=                   (* a-fA-F0-9 *)
  between 97 102 a || between 65 70 a || digit a.
Definition newline (a : ascii) : bool := Ascii.eqb a "010"%char.
Fixpoint oneof (cs : string) (a : ascii) : bool :=          (* the listed *)
  match cs with
  | EmptyString => false
  | String c t => Ascii.eqb a c || oneof t a
  end.

Definition NoneOf (cs : string) : regex := NotCls (oneof cs).   (* [^cs] *)
Definition Dot : regex := NotCls newline.                       (* . *)

Definition to_lower (a : ascii) : ascii :=
  if upper a then ascii_of_nat (nat_of_ascii a + 32) else a.
Definition to_upper (a : ascii) : ascii :=
  if lower a then ascii_of_nat (nat_of_ascii a - 32) else a.

(** A literal and a class against one character; [ic] is [re.IGNORECASE],
    under which a character is in a class when it or its other case is,
    and in a negated class when it is not in the class so taken. *)
Definition chr_ok (ic : bool) (a x : ascii) : bool :=
  if ic then Ascii.eqb (to_lower a) (to_lower x) else Ascii.eqb a x.
Definition cls_ok (ic : bool) (p : ascii -> bool) (x : ascii) : bool :=
  if ic then p x || p (to_lower x) || p (to_upper x) else p x.

(** ** The matcher

    Captures are kept latest first.  [rmatch ic r s c k] matches [r] at
    the head of [s] and hands the rest of the text and the captures to
    [k]; when [k] fails the next alternative is tried, in the order of
    [re]: the left branch of [|] first, one more iteration of a greedy
    star before leaving it, leaving a lazy star before one more
    iteration.  An iteration of a star must read at least one character,
    so [length s] iterations are all there can be. *)

Definition caps := list (nat * string).

(** The iterations of a star whose body is matched by [step]: greedy
    when [lazy] is [false].  [n] bounds the iterations left. *)
Fixpoint star_loop {A : Type} (lazy : bool)
    (step : string -> caps -> (string -> caps -> option A) -> option A)
    (k : string -> caps -> option A) (n : nat) (s : string) (c : caps)
    {struct n} : option A :=
  match n with
  | O => k s c
  | S n' =>
      let again :=
        step s c (fun s1 c1 =>
          if String.length s1 <? String.length s
          then star_loop lazy step k n' s1 c1 else None) in
      if lazy
      then match k s c with Some x => Some x | None => again end
      else match again with Some x => Some x | None => k s c end
  end.

Fixpoint rmatch {A : Type} (ic : bool) (r : regex) (s : string) (c : caps)
    (k : string -> caps -> option A) {struct r} : option A :=
  match r with
  | Eps => k s c
  | Chr a =>
      match s with
      | String x t => if chr_ok ic a x then k t c else None
      | EmptyString => None
      end
  | Cls p =>
      match s with
      | String x t => if cls_ok ic p x then k t c else None
      | EmptyString => None
      end
  | NotCls p =>
      match s with
      | String x t => if cls_ok ic p x then None else k t c
      | EmptyString => None
      end
  | Cat r1 r2 => rmatch ic r1 s c (fun s1 c1 => rmatch ic r2 s1 c1 k)
  | Alt r1 r2 =>
      match rmatch ic r1 s c k with
      | Some x => Some x
      | None => rmatch ic r2 s c k
      end
  | Star r1 => star_loop false (rmatch ic r1) k (String.length s) s c
  | StarLazy r1 => star_loop true (rmatch ic r1) k (String.length s) s c
  | Group n r1 =>
      rmatch ic r1 s c (fun s1 c1 => k s1 ((n, Str.consumed s s1) :: c1))
  end.

(** ** Match objects *)

Record match_obj : Type := MkMatch {
  m_start : nat;          (* m.start() *)
  m_end : nat;            (* m.end() *)
  m_text : string;        (* m.group(0) *)
  m_caps : caps
}.

Fixpoint lookup (n : nat) (c : caps) : option string :=
  match c with
  | [] => None
  | (i, w) :: t => if Nat.eqb i n then Some w else lookup n t
  end.

(** [m.group(n)], [n >= 1].  Every group of the patterns of this program
    takes part in every match of its pattern, so it is always set. *)
Definition group (n : nat) (m : match_obj) : string :=
  match lookup n (m_caps m) with
  | Some w => w
  | None => EmptyString
  end.

(** The pattern anchored at the head of [s], [s] being at offset [pos]. *)
Definition match_at (ic : bool) (r : regex) (pos : nat) (s : string)
  : option match_obj :=
  rmatch ic r s [] (fun rest c =>
    Some (MkMatch pos (pos + (String.length s - String.length rest))
                  (Str.consumed s rest) c)).

(** [re.search] from offset [pos]: the leftmost match. *)
Fixpoint search_from (ic : bool) (r : regex) (pos : nat) (s : string)
  : option match_obj :=
  match match_at ic r pos s with
  | Some m => Some m
  | None =>
      match s with
      | EmptyString => None
      | String _ t => search_from ic r (S pos) t
      end
  end.

Definition search (ic : bool) (r : regex) (s : string) : option match_obj :=
  search_from ic r 0 s.

(** [re.finditer]: the matches from left to right, each search resuming
    where the previous match ended (one character further after an empty
    match; no pattern of this program matches the empty text).  Each
    round reads at least one character, so [S (length s)] rounds reach
    the end of [s]. *)
Fixpoint finditer_from (fuel : nat) (ic : bool) (r : regex) (pos : nat)
    (s : string) : list match_obj :=
  match fuel with
  | O => []
  | S fuel' =>
      match search_from ic r pos s with
      | None => []
      | Some m =>
          let next := if m_end m =? m_start m then S (m_end m) else m_end m in
          m :: (if String.length s <? next - pos then []
                else finditer_from fuel' ic r next (Str.drop (next - pos) s))
      end
  end.

Definition finditer (ic : bool) (r : regex) (s : string) : list match_obj :=
  finditer_from (S (String.length s)) ic r 0 s.

(** ** The texts a pattern matches

    [Matches ic r w c c']: the text [w] is in the language of [r], and
    matching it turns the captures [c] into [c'].  The matcher only ever
    returns such texts ([rmatch_sound] below). *)
Inductive Matches (ic : bool) : regex -> string -> caps -> caps -> Prop :=
| MEps c : Matches ic Eps "" c c
| MChr a x c : chr_ok ic a x = true -> Matches ic (Chr a) (String x "") c c
| MCls p x c : cls_ok ic p x = true -> Matches ic (Cls p) (String x "") c c
| MNotCls p x c :
    cls_ok ic p x = false -> Matches ic (NotCls p) (String x "") c c
| MCat r1 r2 w1 w2 c c1 c2 :
    Matches ic r1 w1 c c1 -> Matches ic r2 w2 c1 c2 ->
    Matches ic (Cat r1 r2) (w1 ++ w2) c c2
| MAltL r1 r2 w c c1 : Matches ic r1 w c c1 -> Matches ic (Alt r1 r2) w c c1
| MAltR r1 r2 w c c1 : Matches ic r2 w c c1 -> Matches ic (Alt r1 r2) w c c1
| MStarNil r c : Matches ic (Star r) "" c c
| MStarCons r w1 w2 c c1 c2 :
    Matches ic r w1 c c1 -> Matches ic (Star r) w2 c1 c2 ->
    Matches ic (Star r) (w1 ++ w2) c c2
| MLazyNil r c : Matches ic (StarLazy r) "" c c
| MLazyCons r w1 w2 c c1 c2 :
    Matches ic r w1 c c1 -> Matches ic (StarLazy r) w2 c1 c2 ->
    Matches ic (StarLazy r) (w1 ++ w2) c c2
| MGroup n r w c c1 :
    Matches ic r w c c1 -> Matches ic (Group n r) w c ((n, w) :: c1).

End Re.

Import Re.

(* ================================================================== *)
(** * Python values, exceptions and dictionaries *)
(* ================================================================== *)

(** A value as [response.json()] decodes it.  A dictionary keeps its
    keys in insertion order, each key once. *)
#[local] Set Warnings "-register-all".
Inductive json : Type :=
| JNull                                  (* None *)
| JBool (b : bool)
| JNum (z : Z)
| JStr (s : string)
| JArr (l : list json)
| JObj (m : list (string * json)).

(** The exceptions the client meets.  [RuntimeError] and [ValueError]
    carry the exception they were raised [from]. *)
Inductive exn : Type :=
| HTTPStatusError (status : Z)           (* httpx.HTTPStatusError *)
| RequestError (msg : string)            (* httpx.RequestError, str(e) = msg *)
| JSONDecodeError                        (* raised by response.json() *)
| AttributeError (ty attr : string)      (* 'ty' object has no attribute 'attr' *)
| TypeError (msg : string)
| KeyError (msg : string)
| RuntimeError (msg : string) (cause : exn)
| ValueError (msg : string) (cause : exn).

Inductive result (A : Type) : Type :=
| Ok (a : A)
| Raise (e : exn).
Arguments Ok {A} a.
Arguments Raise {A} e.

Definition bind {A B : Type} (x : result A) (f : A -> result B) : result B :=
  match x with
  | Ok a => f a
  | Raise e => Raise e
  end.

Notation "'let*' x ':=' c1 'in' c2" := (bind c1 (fun x => c2))
  (at level 61, x pattern, c1 at next level, right associativity).

(** [for x in l: ...] collecting the values of a body that may raise. *)
Fixpoint mapM {A B : Type} (f : A -> result B) (l : list A) : result (list B) :=
  match l with
  | [] => Ok []
  | x :: t => let* y := f x in let* ys := mapM f t in Ok (y :: ys)
  end.

(** [type(v).__name__] *)
Definition type_name (v : json) : string :=
  match v with
  | JNull => "NoneType"
  | JBool _ => "bool"
  | JNum _ => "int"
  | JStr _ => "str"
  | JArr _ => "list"
  | JObj _ => "dict"
  end.

(** [bool(v)] *)
Definition truthy (v : json) : bool :=
  match v with
  | JNull => false
  | JBool b => b
  | JNum z => negb (Z.eqb z 0)
  | JStr s => negb (String.eqb s "")
  | JArr l => match l with [] => false | _ => true end
  | JObj m => match m with [] => false | _ => true end
  end.

(** [a or b] *)
Definition py_or (a b : json) : json := if truthy a then a else b.

(** [d[k]] when [k in d]. *)
Fixpoint dict_get {V : Type} (m : list (string * V)) (k : string) : option V :=
  match m with
  | [] => None
  | (k', v) :: t => if String.eqb k' k then Some v else dict_get t k
  end.

(** [d.keys()] *)
Definition keys {V : Type} (m : list (string * V)) : list string := map fst m.

(** [v.get(k, default)]: only a dictionary has [get]. *)
Definition py_get (v : json) (k : string) (default : json) : result json :=
  match v with
  | JObj m => Ok (match dict_get m k with Some x => x | None => default end)
  | _ => Raise (AttributeError (type_name v) "get")
  end.

(** The characters of a text, one string each. *)
Fixpoint chars (s : string) : list json :=
  match s with
  | EmptyString => []
  | String a t => JStr (String a EmptyString) :: chars t
  end.

(** [list(v)] and [for x in v]: a list gives its items, a dictionary its
    keys, a text its characters; nothing else is iterable. *)
Definition py_iter (v : json) : result (list json) :=
  match v with
  | JArr l => Ok l
  | JObj m => Ok (map JStr (keys m))
  | JStr s => Ok (chars s)
  | _ => Raise (TypeError ("'" ++ type_name v ++ "' object is not iterable")%string)
  end.

(** [sorted(l, reverse=True)] on strings: a stable sort into descending
    order, strings compared character by character. *)
Fixpoint insert_desc (x : string) (l : list string) : list string :=
  match l with
  | [] => [x]
  | y :: t => if String.leb y x then x :: l else y :: insert_desc x t
  end.

Definition sorted_reverse (l : list string) : list string :=
  fold_right insert_desc [] l.

(** [l[:n]] for an [int] [n]: a negative [n] counts from the end. *)
Definition slice_to {A : Type} (n : Z) (l : list A) : list A :=
  if (n <? 0)%Z then firstn (List.length l - Z.to_nat (- n)) l
  else firstn (Z.to_nat n) l.

(* ================================================================== *)
(** * The data classes *)
(* ================================================================== *)

(** The double quote of the patterns and of HTML attributes. *)
Definition dq : ascii := ascii_of_nat 34.
Definition quote : string := String dq EmptyString.

(** The fields hold what the JSON response holds, unchecked. *)
Record PackageInfo : Type := MkPackageInfo {
  name : json;
  version : json;
  summary : json;
  description : json;
  author : json;
  license : json;
  homepage_url : json;
  project_url : json;
  requires_python : json;
  dependencies : list json
}.

Record SearchResult : Type := MkSearchResult {
  sr_name : string;
  sr_version : string;
  sr_summary : option string;
  sr_score : option Z
}.

Record DistributionFile : Type := MkDistributionFile {
  filename : json;
  url : json;
  packagetype : string;
  size : json;
  upload_time : json;
  df_requires_python : json;
  hashes : json;
  yanked : json;
  yanked_reason : json
}.

Section FromJson.

(** [str(v)] of a value that is not a text, as an f-string formats it. *)
Variable py_str : json -> string.

Definition format_value (v : json) : string :=
  match v with
  | JStr s => s
  | _ => py_str v
  end.

(** [releases.keys()] *)
Definition py_keys (v : json) : result (list string) :=
  match v with
  | JObj m => Ok (keys m)
  | _ => Raise (AttributeError (type_name v) "keys")
  end.

(** [PackageInfo.from_json] *)
Definition from_json (data : json) : result PackageInfo :=
  let* info := py_get data "info" (JObj []) in
  let* releases := py_get data "releases" (JObj []) in
  let* version :=
    if truthy releases then
      let* ks := py_keys releases in
      match sorted_reverse ks with
      | v :: _ => Ok (JStr v)
      | [] => py_get info "version" (JStr "")
      end
    else py_get info "version" (JStr "") in
  let* requires_dist := py_get info "requires_dist" (JArr []) in
  let* dependencies :=
    if truthy requires_dist then py_iter requires_dist else Ok [] in
  let* project_urls0 := py_get info "project_urls" (JObj []) in
  let project_urls := py_or project_urls0 (JObj []) in
  let* homepage := py_get project_urls "Homepage" JNull in
  let* home_page := py_get info "home_page" JNull in
  let homepage_url := py_or homepage home_page in
  let* name := py_get info "name" (JStr "") in
  let* summary := py_get info "summary" JNull in
  let* description := py_get info "description" JNull in
  let* author := py_get info "author" JNull in
  let* license := py_get info "license" JNull in
  let* project_url0 := py_get info "project_url" JNull in
  let* name' := py_get info "name" (JStr "") in
  let project_url :=
    py_or project_url0
      (JStr ("https://pypi.org/project/" ++ format_value name' ++ "/")%string) in
  let* requires_python := py_get info "requires_python" JNull in
  Ok (MkPackageInfo name version summary description author license
        homepage_url project_url requires_python dependencies).

End FromJson.

(* ================================================================== *)
(** * [PyPISearchParser]: the structured extractor *)
(* ================================================================== *)

(** What [HTMLParser.feed] hands to the handlers.  An attribute written
    without a value has the value [None]. *)
Inductive html_event : Type :=
| StartTag (tag : string) (attrs : list (string * option string))
| EndTag (tag : string)
| Data (data : string).

(** The dictionary [current_package]: [name] and [href] are set when it
    is created, [version] and [summary] later, if ever. *)
Record package : Type := MkPackage {
  p_name : string;
  p_href : string;
  p_version : option string;
  p_summary : option string
}.

Record parser : Type := MkParser {
  results : list SearchResult;
  current_package : option package;
  in_package_section : bool;
  current_tag : option string;
  current_data : list string
}.

(** [PyPISearchParser.__init__] *)
Definition new_parser : parser := MkParser [] None false None [].

(** [dict(attrs)[k]]: the last binding of [k] wins. *)
Definition attr (attrs : list (string * option string)) (k : string)
  : option (option string) :=
  dict_get (rev attrs) k.

(** The pattern [/project/([^/]+)/] *)
Definition project_re : regex :=
  Cat (Lit "/project/") (Cat (Group 1 (Plus (NoneOf "/"))) (Chr "/")).

(** The pattern [(\d+\.\d+(?:\.\d+)?(?:[a-zA-Z0-9]+)?)] *)
Definition version_re : regex :=
  Group 1
    (Cat (Plus (Cls digit)) (Cat (Chr ".") (Cat (Plus (Cls digit))
      (Cat (Opt (Cat (Chr ".") (Plus (Cls digit))))
           (Opt (Plus (Cls alnum))))))).

(** [attrs_dict.get('class', '').split()] *)
Definition classes_of (attrs : list (string * option string))
  : result (list string) :=
  match attr attrs "class" with
  | None => Ok (Str.split "")
  | Some (Some v) => Ok (Str.split v)
  | Some None => Raise (AttributeError "NoneType" "split")
  end.

Definition handle_starttag (self : parser) (tag : string)
    (attrs : list (string * option string)) : result parser :=
  let self := MkParser (results self) (current_package self)
                (in_package_section self) (Some tag) (current_data self) in
  let container :=
    if String.eqb tag "a" then
      match attr attrs "class" with
      | Some cls =>
          let classes :=
            match cls with
            | Some v => if String.eqb v "" then [] else Str.split v
            | None => []
            end in
          Str.mem "package-snippet" classes || Str.mem "snippet" classes
      | None => false
      end
    else false in
  if container then
    let* href :=
      match attr attrs "href" with
      | None => Ok ""
      | Some (Some v) => Ok v
      | Some None => Raise (TypeError "expected string or bytes-like object")
      end in
    match search false project_re href with
    | Some m =>
        Ok (MkParser (results self)
              (Some (MkPackage (group 1 m) href None None))
              true (current_tag self) (current_data self))
    | None =>
        Ok (MkParser (results self) (current_package self)
              true (current_tag self) (current_data self))
    end
  else
    let* self :=
      if String.eqb tag "span" && in_package_section self then
        let* classes := classes_of attrs in
        if Str.mem "package-snippet__version" classes || Str.mem "version" classes
        then Ok (MkParser (results self) (current_package self)
                   (in_package_section self) (current_tag self) [])
        else Ok self
      else Ok self in
    if String.eqb tag "p" && in_package_section self then
      let* classes := classes_of attrs in
      if Str.mem "package-snippet__description" classes
         || Str.mem "description" classes
      then Ok (MkParser (results self) (current_package self)
                 (in_package_section self) (current_tag self) [])
      else Ok self
    else Ok self.

Definition tag_is (t : option string) (tag : string) : bool :=
  match t with
  | Some x => String.eqb x tag
  | None => false
  end.

Definition set_package (self : parser) (p : package) : parser :=
  MkParser (results self) (Some p) (in_package_section self)
    (current_tag self) (current_data self).

Definition handle_data (self : parser) (data : string) : parser :=
  if negb (in_package_section self) then self
  else
    let data := Str.strip data in
    if String.eqb data "" then self
    else if tag_is (current_tag self) "span" then
      match search false version_re data, current_package self with
      | Some version_match, Some p =>
          set_package self
            (MkPackage (p_name p) (p_href p) (Some (group 1 version_match))
               (p_summary p))
      | _, _ => self
      end
    else if tag_is (current_tag self) "p" then
      match current_package self with
      | Some p =>
          match p_summary p with
          | None =>
              set_package self
                (MkPackage (p_name p) (p_href p) (p_version p) (Some data))
          | Some _ => self
          end
      | None => self
      end
    else self.

Definition or_empty (o : option string) : string :=
  match o with
  | Some v => v
  | None => ""
  end.

Definition handle_endtag (self : parser) (tag : string) : parser :=
  let self :=
    if String.eqb tag "a" && in_package_section self then
      let self :=
        match current_package self with
        | Some p =>
            let result :=
              MkSearchResult (p_name p) (or_empty (p_version p))
                (p_summary p) None in
            MkParser (results self ++ [result]) None
              (in_package_section self) (current_tag self) (current_data self)
        | None => self
        end in
      MkParser (results self) (current_package self) false
        (current_tag self) (current_data self)
    else self in
  MkParser (results self) (current_package self) (in_package_section self)
    None [].

Definition handle (self : parser) (e : html_event) : result parser :=
  match e with
  | StartTag tag attrs => handle_starttag self tag attrs
  | EndTag tag => Ok (handle_endtag self tag)
  | Data data => Ok (handle_data self data)
  end.

(** [parser.feed]: the handlers run over the events in order. *)
Fixpoint feed (self : parser) (events : list html_event) : result parser :=
  match events with
  | [] => Ok self
  | e :: rest => let* self := handle self e in feed self rest
  end.

(* ================================================================== *)
(** * [PyPICrawler] *)
(* ================================================================== *)

(** A GET request as [client.get] receives it. *)
Record request : Type := MkRequest {
  req_url : string;
  req_params : list (string * string);
  req_headers : list (string * string)
}.

(** What [client.get] does: it returns a response, with its status, its
    text and what [response.json()] decodes from it ([None] when the
    text is not JSON), or it raises an [httpx.RequestError]. *)
Inductive outcome : Type :=
| Responded (status_code : Z) (text : string) (body : option json)
| Failed (msg : string).

(** The instance: [timeout] and the pooled client belong to the
    transport and are not kept here. *)
Record PyPICrawler : Type := MkCrawler {
  base_url : string;
  follow_redirects : bool
}.

Definition BASE_URL : string := "https://pypi.org".
Definition JSON_API_URL (package_name : string) : string :=
  (BASE_URL ++ "/pypi/" ++ package_name ++ "/json")%string.
Definition JSON_API_VERSION_URL (package_name version : string) : string :=
  (BASE_URL ++ "/pypi/" ++ package_name ++ "/" ++ version ++ "/json")%string.
Definition SIMPLE_API_URL (package_name : string) : string :=
  (BASE_URL ++ "/simple/" ++ package_name ++ "/")%string.
Definition SEARCH_API_URL : string := (BASE_URL ++ "/search")%string.

(** [PyPICrawler.__init__]: [base_url or self.BASE_URL]. *)
Definition new_crawler (base_url : option string) (follow_redirects : bool)
  : PyPICrawler :=
  MkCrawler
    (match base_url with
     | Some u => if String.eqb u "" then BASE_URL else u
     | None => BASE_URL
     end)
    follow_redirects.

(** [response.raise_for_status()] *)
Definition raise_for_status (status_code : Z) : result unit :=
  if ((200 <=? status_code) && (status_code <=? 299))%Z then Ok tt
  else Raise (HTTPStatusError status_code).

(** [response.json()] *)
Definition response_json (body : option json) : result json :=
  match body with
  | Some v => Ok v
  | None => Raise JSONDecodeError
  end.

(** [except httpx.HTTPStatusError as e: if 404: return None; raise]:
    [absent] is what [return None] returns. *)
Definition on_status_error {A : Type} (absent : A) (r : result A) : result A :=
  match r with
  | Raise (HTTPStatusError 404) => Ok absent
  | _ => r
  end.

(** [_guess_packagetype] *)
Definition _guess_packagetype (filename : json) : result string :=
  match filename with
  | JStr f =>
      Ok (if Str.endswith f ".whl" then "bdist_wheel"
          else if Str.endswith f ".tar.gz" || Str.endswith f ".zip" then "sdist"
          else if Str.endswith f ".egg" then "bdist_egg"
          else "unknown")
  | _ => Raise (AttributeError (type_name filename) "endswith")
  end.

(** The pattern [<a[^>]*href=Q([^Q]+)Q[^>]*>(.+?)</a>], Q standing for
    the double quote, used with [re.IGNORECASE] *)
Definition anchor_re : regex :=
  Cat (Lit "<a") (Cat (Star (NoneOf ">")) (Cat (Lit "href=") (Cat (Chr dq)
    (Cat (Group 1 (Plus (NoneOf quote))) (Cat (Chr dq)
      (Cat (Star (NoneOf ">")) (Cat (Chr ">")
        (Cat (Group 2 (PlusLazy Dot)) (Lit "</a>"))))))))).

(** The pattern [data-requires-python=Q(G)Q], the group G being [[^Q]*] *)
Definition requires_python_re : regex :=
  Cat (Lit "data-requires-python=") (Cat (Chr dq)
    (Cat (Group 1 (Star (NoneOf quote))) (Chr dq))).

(** The pattern [#(sha256|md5|sha1)=([a-fA-F0-9]+)] *)
Definition hash_re : regex :=
  Cat (Chr "#") (Cat (Group 1 (Alt (Lit "sha256") (Alt (Lit "md5") (Lit "sha1"))))
    (Cat (Chr "=") (Group 2 (Plus (Cls hexdigit))))).

(** The body of the loop of [_parse_html_distributions], for one match
    of [anchor_re]. *)
Definition html_distribution (m : match_obj) : result DistributionFile :=
  let url := group 1 m in
  let filename := Str.strip (group 2 m) in
  let link_tag := m_text m in
  let requires_python :=
    match search false requires_python_re link_tag with
    | Some rm => JStr (group 1 rm)
    | None => JNull
    end in
  let hashes :=
    match search false hash_re url with
    | Some hash_match =>
        let hash_type := group 1 hash_match in
        let hash_value := group 2 hash_match in
        [(hash_type, JStr hash_value)]
    | None => []
    end in
  let* packagetype := _guess_packagetype (JStr filename) in
  Ok (MkDistributionFile (JStr filename) (JStr (Str.before "#" url))
        packagetype (JNum 0) JNull requires_python (JObj hashes)
        (JBool false) JNull).

(** [_parse_html_distributions] *)
Definition _parse_html_distributions (html : string)
  : result (list DistributionFile) :=
  mapM html_distribution (finditer true anchor_re html).

(** The body of the loop of the JSON branch of
    [get_package_distributions], for one entry of ["files"]. *)
Definition json_distribution (file_info : json) : result DistributionFile :=
  let* filename := py_get file_info "filename" (JStr "") in
  let* url := py_get file_info "url" (JStr "") in
  let* filename' := py_get file_info "filename" (JStr "") in
  let* packagetype := _guess_packagetype filename' in
  let* size := py_get file_info "size" (JNum 0) in
  let* upload_time := py_get file_info "upload-time" JNull in
  let* requires_python := py_get file_info "requires-python" JNull in
  let* hashes := py_get file_info "hashes" (JObj []) in
  let* yanked := py_get file_info "yanked" (JBool false) in
  Ok (MkDistributionFile filename url packagetype size upload_time
        requires_python hashes yanked JNull).

(** The pattern [href=Q/project/([^/Q]+)/[^Q]*Q[^>]*>([^<]+)</a>] *)
Definition fallback_re : regex :=
  Cat (Lit "href=") (Cat (Chr dq) (Cat (Lit "/project/")
    (Cat (Group 1 (Plus (NoneOf (String "/" quote)))) (Cat (Chr "/")
      (Cat (Star (NoneOf quote)) (Cat (Chr dq)
        (Cat (Star (NoneOf ">")) (Cat (Chr ">")
          (Cat (Group 2 (Plus (NoneOf "<"))) (Lit "</a>")))))))))).

(** The pattern [{re.escape(package_name)}.*?] followed by the version
    pattern *)
Definition nearby_version_re (package_name : string) : regex :=
  Cat (Lit package_name) (Cat (StarLazy Dot) version_re).

(** The loop of [_fallback_search_parse] over the matches left, with the
    [results] and the names [seen] so far. *)
Fixpoint fallback_loop (html : string) (limit : Z) (matches : list match_obj)
    (results : list SearchResult) (seen : list string) : list SearchResult :=
  match matches with
  | [] => results
  | m :: rest =>
      let package_name := group 1 m in
      let display_name := Str.strip (group 2 m) in
      if Str.mem package_name seen then
        fallback_loop html limit rest results seen
      else
        let seen := package_name :: seen in
        let version :=
          match search false (nearby_version_re package_name)
                  (Str.slice (m_start m) (m_end m + 200) html) with
          | Some version_match => group 1 version_match
          | None => "unknown"
          end in
        let results :=
          results ++ [MkSearchResult package_name version None None] in
        if (Z.of_nat (List.length results) >=? limit)%Z then results
        else fallback_loop html limit rest results seen
  end.

(** [_fallback_search_parse] *)
Definition _fallback_search_parse (html : string) (limit : Z)
  : list SearchResult :=
  fallback_loop html limit (finditer false fallback_re html) [] [].

Section Crawler.

(** [str()] of the values that are not texts. *)
Variable py_str : json -> string.
(** The events [HTMLParser] reads in a page. *)
Variable html_events : string -> list html_event.
(** The registry behind [client.get]. *)
Variable transport : request -> outcome.

(** [get_package_json]; its result is a Python value, [None] included. *)
Definition get_package_json (self : PyPICrawler) (package_name : string)
    (version : option string) : result json :=
  let url :=
    match version with
    | Some v =>
        if String.eqb v "" then JSON_API_URL package_name
        else JSON_API_VERSION_URL package_name v
    | None => JSON_API_URL package_name
    end in
  match transport (MkRequest url [] [("Accept", "application/json")]) with
  | Responded status_code _ body =>
      on_status_error JNull
        (let* _ := raise_for_status status_code in response_json body)
  | Failed e =>
      Raise (RuntimeError
               ("Failed to fetch package info for " ++ package_name ++ ": " ++ e)%string
               (RequestError e))
  end.

(** [except (KeyError, TypeError, ValueError) as e: raise ValueError(...) from e];
    [JSONDecodeError], the one other [ValueError], is raised by
    [response.json()] only, outside this handler. *)
Definition parse_error (package_name : string) (e : exn) : exn :=
  let wrap msg :=
    ValueError ("Failed to parse package info for " ++ package_name ++ ": " ++ msg)%string e in
  match e with
  | KeyError msg => wrap msg
  | TypeError msg => wrap msg
  | ValueError msg _ => wrap msg
  | _ => e
  end.

(** [get_package_info] *)
Definition get_package_info (self : PyPICrawler) (package_name : string)
    (version : option string) : result (option PackageInfo) :=
  let* json_data := get_package_json self package_name version in
  match json_data with
  | JNull => Ok None
  | _ =>
      match from_json py_str json_data with
      | Ok info => Ok (Some info)
      | Raise e => Raise (parse_error package_name e)
      end
  end.

(** [package_exists] *)
Definition package_exists (self : PyPICrawler) (package_name : string)
  : result bool :=
  let* json_data := get_package_json self package_name None in
  Ok (match json_data with JNull => false | _ => true end).

(** [verify_package_name] *)
Definition verify_package_name (self : PyPICrawler) (package_name : string)
  : result bool :=
  package_exists self package_name.

(** [get_package_metadata] *)
Definition get_package_metadata (self : PyPICrawler) (package_name : string)
    (version : option string) : result json :=
  let* json_data := get_package_json self package_name version in
  match json_data with
  | JNull => Ok JNull
  | _ => py_get json_data "info" (JObj [])
  end.

(** [get_package_dependencies] *)
Definition get_package_dependencies (self : PyPICrawler)
    (package_name : string) (version : option string) : result (list json) :=
  let* metadata := get_package_metadata self package_name version in
  match metadata with
  | JNull => Ok []
  | _ =>
      let* requires_dist := py_get metadata "requires_dist" JNull in
      match requires_dist with
      | JArr l => Ok l
      | _ => Ok []
      end
  end.

(** [get_package_versions] *)
Definition get_package_versions (self : PyPICrawler) (package_name : string)
  : result (list string) :=
  let* json_data := get_package_json self package_name None in
  match json_data with
  | JNull => Ok []
  | _ =>
      let* releases := py_get json_data "releases" (JObj []) in
      let* ks := py_keys releases in
      Ok (sorted_reverse ks)
  end.

(** [search_packages] *)
Definition search_packages (self : PyPICrawler) (query : string) (limit : Z)
  : result (list SearchResult) :=
  match transport
          (MkRequest SEARCH_API_URL [("q", query)]
             [("User-Agent", "Mozilla/5.0 (compatible; PyPICrawler/1.0)")]) with
  | Responded status_code text _ =>
      let* _ := raise_for_status status_code in
      let* parser := feed new_parser (html_events text) in
      let results := slice_to limit (results parser) in
      match results with
      | [] => Ok (_fallback_search_parse text limit)
      | _ => Ok results
      end
  | Failed e =>
      Raise (RuntimeError ("Failed to search packages: " ++ e)%string
               (RequestError e))
  end.

(** [get_package_distributions]; [None] is the absent result. *)
Definition get_package_distributions (self : PyPICrawler)
    (package_name : string) (use_json : bool)
  : result (option (list DistributionFile)) :=
  let url := SIMPLE_API_URL package_name in
  let accept :=
    if use_json then "application/vnd.pypi.simple.v1+json"
    else "application/vnd.pypi.simple.v1+html" in
  match transport (MkRequest url [] [("Accept", accept)]) with
  | Responded status_code text body =>
      on_status_error None
        (let* _ := raise_for_status status_code in
         if use_json then
           let* data := response_json body in
           let* files := py_get data "files" (JArr []) in
           let* entries := py_iter files in
           let* files := mapM json_distribution entries in
           Ok (Some files)
         else
           let* files := _parse_html_distributions text in
           Ok (Some files))
  | Failed e =>
      Raise (RuntimeError
               ("Failed to fetch distributions for " ++ package_name ++ ": " ++ e)%string
               (RequestError e))
  end.

End Crawler.

(* ================================================================== *)
(** * Requests, predicates and sample responses *)
(* ================================================================== *)

(** The project-level response of the scenario of the specification. *)
Definition demo_response : json :=
  JObj [("info", JObj [("name", JStr "demo"); ("version", JStr "9.9")]);
        ("releases", JObj [("1.0", JArr []); ("2.0", JArr []); ("10.0", JArr [])])].

(** A registry that answers every request with that response. *)
Definition demo_transport : request -> outcome :=
  fun _ => Responded 200 "" (Some demo_response).

(** The [PackageInfo] of the scenario. *)
Definition demo_info : PackageInfo :=
  MkPackageInfo (JStr "demo") (JStr "2.0") JNull JNull JNull JNull JNull
    (JStr "https://pypi.org/project/demo/") JNull [].

(** A crawler configured for another registry. *)
Definition test_crawler : PyPICrawler :=
  new_crawler (Some "https://test.pypi.org") true.

(** A version-level response that declares two requirements. *)
Definition deps_info : list (string * json) :=
  [("name", JStr "demo");
   ("requires_dist", JArr [JStr "httpx>=0.27"; JStr "rich"])].
Definition deps_data : list (string * json) := [("info", JObj deps_info)].
Definition deps_transport : request -> outcome :=
  fun _ => Responded 200 "" (Some (JObj deps_data)).

(** A registry that knows no package. *)
Definition absent_transport : request -> outcome :=
  fun _ => Responded 404 "" None.

(** The request [get_package_json] sends for a project. *)
Definition project_request (package_name : string) : request :=
  MkRequest (JSON_API_URL package_name) [] [("Accept", "application/json")].

(** The request [get_package_json] sends for one version. *)
Definition version_request (package_name version : string) : request :=
  MkRequest (JSON_API_VERSION_URL package_name version) []
    [("Accept", "application/json")].

(** The request of [get_package_json package_name version]. *)
Definition json_request (package_name : string) (version : option string)
  : request :=
  match version with
  | Some v =>
      if String.eqb v "" then project_request package_name
      else version_request package_name v
  | None => project_request package_name
  end.

(** A status [raise_for_status] accepts. *)
Definition is_success (status_code : Z) : bool :=
  ((200 <=? status_code) && (status_code <=? 299))%Z.

(** Descending order, and descending order without repetition. *)
Definition descending (l : list string) : Prop :=
  Sorted (fun a b => String.leb b a = true) l.
Definition strictly_descending (l : list string) : Prop :=
  Sorted (fun a b => String.ltb b a = true) l.

(** [needle in text] on texts. *)
Definition contains (text needle : string) : Prop :=
  exists before after, text = (before ++ needle ++ after)%string.

(** [v.get(k, default)] on the items of a dictionary. *)
Definition get_default (m : list (string * json)) (k : string) (default : json)
  : json :=
  match dict_get m k with
  | Some x => x
  | None => default
  end.

(** What [from_json] can read: [requires_dist] is false or iterable and
    [project_urls] is false or a dictionary. *)
Definition iterable_or_false (v : json) : bool :=
  match v with
  | JArr _ | JObj _ | JStr _ => true
  | _ => negb (truthy v)
  end.
Definition dict_or_false (v : json) : bool :=
  match v with
  | JObj _ => true
  | _ => negb (truthy v)
  end.
Definition readable_info (info : list (string * json)) : bool :=
  iterable_or_false (get_default info "requires_dist" (JArr [])) &&
  dict_or_false (get_default info "project_urls" (JObj [])).

(** The requests of the file index and of the search page. *)
Definition simple_request (package_name : string) (use_json : bool) : request :=
  MkRequest (SIMPLE_API_URL package_name) []
    [("Accept", if use_json then "application/vnd.pypi.simple.v1+json"
                else "application/vnd.pypi.simple.v1+html")].

Definition search_request (query : string) : request :=
  MkRequest SEARCH_API_URL [("q", query)]
    [("User-Agent", "Mozilla/5.0 (compatible; PyPICrawler/1.0)")].

(** The hashes [html_distribution] reads in the fragment of a URL. *)
Definition hashes_of_url (url : string) : list (string * json) :=
  match search false hash_re url with
  | Some hash_match => [(group 1 hash_match, JStr (group 2 hash_match))]
  | None => []
  end.

(** A file index in HTML with one anchor, its match and its file. *)
Definition sha_page : string :=
  "<a href=" ++ quote ++ "https://x/f.whl#sha256=abCD12" ++ quote ++ ">f.whl</a>".
Definition sha_match : match_obj :=
  MkMatch 0 49 sha_page [(2, "f.whl"); (1, "https://x/f.whl#sha256=abCD12")].
Definition sha_file : DistributionFile :=
  MkDistributionFile (JStr "f.whl") (JStr "https://x/f.whl") "bdist_wheel"
    (JNum 0) JNull JNull (JObj [("sha256", JStr "abCD12")]) (JBool false) JNull.

Definition sha_transport : request -> outcome :=
  fun _ => Responded 200 sha_page None.


Definition is_some {X : Type} (o : option X) : bool :=
  match o with Some _ => true | None => false end.

(** No element inside a container bears a version: no anchor opens or
    closes, and no text read while the current tag is [span] contains a
    version.  [cur] is the current tag. *)
Fixpoint no_version_inside (cur : option string) (events : list html_event)
  : bool :=
  match events with
  | [] => true
  | StartTag tag _ :: rest =>
      negb (String.eqb tag "a") && no_version_inside (Some tag) rest
  | EndTag tag :: rest =>
      negb (String.eqb tag "a") && no_version_inside None rest
  | Data data :: rest =>
      negb (tag_is cur "span"
            && is_some (search false version_re (Str.strip data)))
      && no_version_inside cur rest
  end.

(** No version read so far is the placeholder of the fallback. *)
Definition versions_known (self : parser) : Prop :=
  Forall (fun r => sr_version r <> "unknown") (results self) /\
  forall p v, current_package self = Some p -> p_version p = Some v ->
              v <> "unknown".

(** A search page with one container, described but without version. *)
Definition snippet_attrs : list (string * option string) :=
  [("class", Some "package-snippet"); ("href", Some "/project/foo/")].
Definition snippet_match : match_obj :=
  MkMatch 0 13 "/project/foo/" [(1, "foo")].
Definition snippet_inside : list html_event :=
  [StartTag "h3" [("class", Some "package-snippet__title")];
   Data "foo"; EndTag "h3";
   StartTag "p" [("class", Some "package-snippet__description")];
   Data "A foo"; EndTag "p"].
Definition snippet_parsed : parser :=
  MkParser [MkSearchResult "foo" "" (Some "A foo") None] None false None [].

(** A search page with one plain project link. *)
Definition link_page : string :=
  "<a href=" ++ quote ++ "/project/foo/" ++ quote ++ ">foo</a>".
Definition link_events : list html_event :=
  [StartTag "a" [("href", Some "/project/foo/")]; Data "foo"; EndTag "a"].
Definition link_transport : request -> outcome :=
  fun _ => Responded 200 link_page None.

(** What a sound matcher of the texts [M] does with a continuation: the
    text it hands over is what is left after a text of [M]. *)
Definition sound_step {A : Type} (M : string -> caps -> caps -> Prop)
    (step : string -> caps -> (string -> caps -> option A) -> option A) : Prop :=
  forall s c k x,
    step s c k = Some x ->
    exists w s' c', s = (w ++ s')%string /\ M w c c' /\ k s' c' = Some x.

(* ================================================================== *)
(** * Further responses, pages and predicates *)
(* ================================================================== *)

(** The responses [from_json] reads without raising: the info is a
    dictionary (or missing), the release map is a dictionary or false,
    and the info is readable. *)
Definition dict_or_false_releases (data : list (string * json)) : bool :=
  dict_or_false (get_default data "releases" (JObj [])).
Definition readable_response (data : list (string * json)) : bool :=
  match get_default data "info" (JObj []) with
  | JObj info => dict_or_false_releases data && readable_info info
  | _ => false
  end.

(** A [requires_dist] that is a list, null or missing. *)
Definition list_or_null (v : json) : bool :=
  match v with
  | JArr _ | JNull => true
  | _ => false
  end.

(** A version-level response and its [PackageInfo]. *)
Definition release_data : list (string * json) :=
  [("info", JObj [("name", JStr "demo"); ("version", JStr "1.0");
                  ("home_page", JStr "https://old.example");
                  ("project_urls", JObj [("Homepage", JStr "https://demo.example")]);
                  ("requires_dist", JArr [JStr "httpx>=0.27"; JStr "rich"])]);
   ("urls", JArr [])].
Definition release_transport : request -> outcome :=
  fun _ => Responded 200 "" (Some (JObj release_data)).
Definition release_info : PackageInfo :=
  MkPackageInfo (JStr "demo") (JStr "1.0") JNull JNull JNull JNull
    (JStr "https://demo.example") (JStr "https://pypi.org/project/demo/") JNull
    [JStr "httpx>=0.27"; JStr "rich"].
(** The exceptions reading a response can raise: a value without the
    method called on it, or a value that cannot be iterated. *)
Definition read_error (e : exn) : Prop :=
  (exists ty attr, e = AttributeError ty attr) \/
  (exists v, e = TypeError ("'" ++ type_name v ++ "' object is not iterable")).

(** A response whose [requires_dist] is a number. *)
Definition bad_requires_transport : request -> outcome :=
  fun _ => Responded 200 ""
             (Some (JObj [("info", JObj [("requires_dist", JNum 5)])])).

(** The names a pattern of the crawler captures: not empty, without a
    slash. *)
Definition name_ok (n : string) : Prop :=
  n <> "" /\ Str.lacks "/" n = true.

(** The names read so far are well formed. *)
Definition names_ok (self : parser) : Prop :=
  Forall (fun r => name_ok (sr_name r)) (results self) /\
  forall p, current_package self = Some p -> name_ok (p_name p).

(** The closing anchor tags among the events. *)
Fixpoint count_end_anchors (events : list html_event) : nat :=
  match events with
  | [] => 0
  | EndTag tag :: rest =>
      (if String.eqb tag "a" then 1 else 0) + count_end_anchors rest
  | _ :: rest => count_end_anchors rest
  end.

(** No anchor opens or closes among the events. *)
Fixpoint no_anchor (events : list html_event) : bool :=
  match events with
  | [] => true
  | StartTag tag _ :: rest => negb (String.eqb tag "a") && no_anchor rest
  | EndTag tag :: rest => negb (String.eqb tag "a") && no_anchor rest
  | Data _ :: rest => no_anchor rest
  end.

(** A search page with two links to the same project and one to
    another, a version after the first. *)
Definition links_page : string :=
  "<a href=" ++ quote ++ "/project/foo/" ++ quote ++ ">foo</a> 1.2.3 " ++
  "<a href=" ++ quote ++ "/project/foo/" ++ quote ++ ">foo again</a>" ++
  "<a href=" ++ quote ++ "/project/bar/" ++ quote ++ ">bar</a>".
Definition links_transport : request -> outcome :=
  fun _ => Responded 200 links_page None.
Definition links_first : match_obj :=
  MkMatch 3 31 ("href=" ++ quote ++ "/project/foo/" ++ quote ++ ">foo</a>")
    [(2, "foo"); (1, "foo")].
Definition links_events : list html_event :=
  [StartTag "a" [("href", Some "/project/foo/")]; Data "foo"; EndTag "a";
   Data " 1.2.3 ";
   StartTag "a" [("href", Some "/project/foo/")]; Data "foo again"; EndTag "a";
   StartTag "a" [("href", Some "/project/bar/")]; Data "bar"; EndTag "a"].

(** A container with a version and two paragraphs, and its result. *)
Definition two_paragraphs : list html_event :=
  [StartTag "a" [("class", Some "package-snippet"); ("href", Some "/project/foo/")];
   StartTag "span" [("class", Some "package-snippet__version")];
   Data "1.0"; EndTag "span";
   StartTag "p" [("class", Some "package-snippet__description")];
   Data " first "; EndTag "p";
   StartTag "p" []; Data "second"; EndTag "p";
   EndTag "a"].
Definition after_first_paragraph : parser :=
  MkParser [] (Some (MkPackage "foo" "/project/foo/" (Some "1.0") (Some "first")))
    true (Some "p") [].
Definition two_paragraphs_parsed : parser :=
  MkParser [MkSearchResult "foo" "1.0" (Some "first") None] None false None [].

(** Every attribute of every start tag among the events has a value. *)
Definition all_valued (events : list html_event) : bool :=
  forallb (fun e =>
             match e with
             | StartTag _ attrs => forallb (fun kv => is_some (snd kv)) attrs
             | _ => true
             end) events.

(** A container whose version element has a class attribute without a
    value. *)
Definition valueless_page : list html_event :=
  [StartTag "a" snippet_attrs; StartTag "span" [("class", None)];
   Data "1.0"; EndTag "span"; EndTag "a"].
Definition inside_snippet : parser :=
  MkParser [] (Some (MkPackage "foo" "/project/foo/" None None)) true
    (Some "a") [].
Definition blank_transport : request -> outcome :=
  fun _ => Responded 200 "" None.

(** The last character of a text. *)
Fixpoint last_char (s : string) : option ascii :=
  match s with
  | EmptyString => None
  | String a EmptyString => Some a
  | String _ t => last_char t
  end.

(** An entry of the file index the JSON branch can read: a dictionary
    whose filename is a text, or missing. *)
Definition entry_ok (file_info : json) : bool :=
  match file_info with
  | JObj m =>
      match get_default m "filename" (JStr "") with
      | JStr _ => true
      | _ => false
      end
  | _ => false
  end.

(** A file index in JSON with a wheel and a source archive. *)
Definition two_files : list json :=
  [JObj [("filename", JStr "demo-1.0-py3-none-any.whl");
         ("url", JStr "https://x/demo.whl"); ("size", JNum 100)];
   JObj [("filename", JStr "demo-1.0.tar.gz"); ("yanked", JBool true)]].
Definition two_files_transport : request -> outcome :=
  fun _ => Responded 200 "" (Some (JObj [("files", JArr two_files)])).
Definition two_files_parsed : list DistributionFile :=
  [MkDistributionFile (JStr "demo-1.0-py3-none-any.whl")
     (JStr "https://x/demo.whl") "bdist_wheel" (JNum 100) JNull JNull
     (JObj []) (JBool false) JNull;
   MkDistributionFile (JStr "demo-1.0.tar.gz") (JStr "") "sdist" (JNum 0)
     JNull JNull (JObj []) (JBool true) JNull].





(** A file index whose anchor has, after its href with a sha256
    fragment, another attribute whose name ends in href. *)
Definition shadowed_page : string :=
  "<a href=" ++ quote ++ "https://x/f.whl#sha256=abcd" ++ quote ++
  " data-href=" ++ quote ++ "zzz" ++ quote ++ ">f.whl</a>".
Definition shadowed_transport : request -> outcome :=
  fun _ => Responded 200 shadowed_page None.
Definition shadowed_file : DistributionFile :=
  MkDistributionFile (JStr "f.whl") (JStr "zzz") "bdist_wheel"
    (JNum 0) JNull JNull (JObj []) (JBool false) JNull.

(** A search page with one container whose only element is the name of
    the project, a name with a dotted number in it. *)
Definition named_page : string :=
  "<a class=" ++ quote ++ "package-snippet" ++ quote ++
  " href=" ++ quote ++ "/project/oauth2.0-client/" ++ quote ++ ">" ++
  "<span class=" ++ quote ++ "package-snippet__name" ++ quote ++ ">" ++
  "oauth2.0-client</span></a>".
Definition named_events : list html_event :=
  [StartTag "a" [("class", Some "package-snippet");
                 ("href", Some "/project/oauth2.0-client/")];
   StartTag "span" [("class", Some "package-snippet__name")];
   Data "oauth2.0-client"; EndTag "span"; EndTag "a"].
Definition named_transport : request -> outcome :=
  fun _ => Responded 200 named_page None.

(* ================================================================== *)
(** * The HTTP client of a crawler *)
(* ================================================================== *)

(** The [httpx.Client] objects are numbered in the order of their
    construction.  [opened] counts the clients constructed so far and
    [closed] lists those [close()] was called on; [_client] is the field
    of the crawler, [None] or the client it holds. *)
Record session : Type := MkSession {
  _client : option nat;
  opened : nat;
  closed : list nat
}.

(** [PyPICrawler.__init__]: no client yet. *)
Definition new_session : session := MkSession None 0 [].

(** [__enter__]: a new client, whatever the field held. *)
Definition __enter__ (s : session) : session :=
  MkSession (Some (opened s)) (S (opened s)) (closed s).

(** [__exit__]: the client held, if any, is closed and forgotten. *)
Definition __exit__ (s : session) : session :=
  match _client s with
  | Some c => MkSession None (opened s) (c :: closed s)
  | None => s
  end.

(** [_get_client]: the client held, a new one when there is none. *)
Definition _get_client (s : session) : nat * session :=
  match _client s with
  | None => (opened s, MkSession (Some (opened s)) (S (opened s)) (closed s))
  | Some c => (c, s)
  end.

(** What is done with a crawler: entering and leaving a [with] block,
    and the requests, each of which starts with [_get_client]. *)
Inductive action : Type := Enter | Leave | Request.

(** The session after the actions, and the clients the requests used. *)
Fixpoint run (s : session) (actions : list action) : session * list nat :=
  match actions with
  | [] => (s, [])
  | Enter :: rest => run (__enter__ s) rest
  | Leave :: rest => run (__exit__ s) rest
  | Request :: rest =>
      let (c, s') := _get_client s in
      let (s'', used) := run s' rest in
      (s'', c :: used)
  end.

(** The clients are well accounted for: the one held and the closed ones
    were constructed, the one held is not closed, none is closed twice. *)
Definition accounted (s : session) : Prop :=
  (forall c, _client s = Some c -> c < opened s /\ ~ In c (closed s)) /\
  (forall c, In c (closed s) -> c < opened s) /\
  NoDup (closed s).

(* ================================================================== *)
(** * The command [av venv] ([src/av/cli.py]) *)
(* ================================================================== *)

Module Cli.

(** What the command meets outside itself: the file system as [pathlib]
    reads it, the platform, the answers of the user to the two
    questions, the exit codes of the two [uv] commands, and the plan the
    planner returns. *)
Record world : Type := MkWorld {
  cwd : string;                         (* Path.cwd() *)
  resolve : string -> string;           (* Path.resolve() *)
  is_absolute : string -> bool;
  join : string -> string -> string;    (* the operator / of paths *)
  exists_ : string -> bool;             (* Path.exists() *)
  is_dir : string -> bool;
  platform : string;                    (* sys.platform *)
  confirm_clear : bool;                 (* the answer to the first question *)
  confirm_install : bool;               (* the answer to the second *)
  venv_code : Z;                        (* exit code of uv venv *)
  install_code : Z;                     (* exit code of uv pip install *)
  plan : list string * string           (* refine_plan_with_langchain *)
}.

(** What the command does that can be seen, in order.  A [Run] is a
    call of [run_command]; what the planner starts of its own is inside
    [Plan], not a [Run].  [run_command], the two questions and the
    planner are taken to return: an exception out of one of them is not
    part of this model. *)
Inductive event : Type :=
| Print (message : string)              (* console.print *)
| Ask (question : string) (default : bool)   (* Confirm.ask *)
| Run (command : list string)           (* run_command *)
| Plan (project_path : string)          (* the planner, in its with block *)
| ShowPlan (rows : list (string * string)).  (* the rows of the table printed *)

(** How the command ends when all it calls returns: it returns, or it
    raises [typer.Exit]. *)
Inductive ending : Type :=
| Returned
| Exit (code : Z).

(** [sep.join(parts)] *)
Fixpoint join_with (sep : string) (parts : list string) : string :=
  match parts with
  | [] => ""
  | [x] => x
  | x :: rest => x ++ sep ++ join_with sep rest
  end.

Definition line_break : string := String (ascii_of_nat 10) "".

(** [str(n)] of an [int] *)
Definition str_int (n : Z) : string := NilZero.string_of_int (Z.to_int n).

(** [show_plan] *)
Definition show_plan (deps : list string) (note : string) : event :=
  ShowPlan [("LangChain", note);
            ("Dependencies",
             match deps with
             | [] => "<empty>"
             | _ => join_with line_break deps
             end)].

(** [venv]; [venv_path] and [project_path] are the texts of the paths
    given, [None] when not given. *)
Definition venv (w : world) (venv_path project_path : option string)
    (yes dry_run : bool) : list event * ending :=
  let venv_path := match venv_path with None => ".venv" | Some p => p end in
  let project_path :=
    match project_path with None => cwd w | Some p => resolve w p end in
  if negb (exists_ w project_path) then
    ([Print ("[red]Error: Project path does not exist: " ++ project_path ++ "[/red]")],
     Exit 1)
  else if negb (is_dir w project_path) then
    ([Print ("[red]Error: Project path is not a directory: " ++ project_path ++ "[/red]")],
     Exit 1)
  else
    let venv_abs_path :=
      if is_absolute w venv_path then resolve w venv_path
      else resolve w (join w project_path venv_path) in
    let venv_relative := venv_path in
    let venv_exists := exists_ w venv_abs_path in
    let ask_clear := venv_exists && negb dry_run && negb yes in
    let asked :=
      if ask_clear then
        [Ask ("Virtual environment already exists at " ++ venv_abs_path
              ++ ". Clear and recreate?") false]
      else [] in
    let skip_create :=
      if venv_exists then
        if dry_run then true
        else if negb yes then negb (confirm_clear w) else false
      else false in
    let venv_command :=
      ["uv"; "venv"; venv_relative] ++ (if venv_exists then ["--clear"] else []) in
    let created :=
      if skip_create then [Print "[green]Using existing virtual environment.[/green]"]
      else
        [Print ("[cyan]Creating virtual environment at: " ++ venv_abs_path ++ "[/cyan]");
         Run venv_command] in
    if negb skip_create && negb (Z.eqb (venv_code w) 0) then
      (asked ++ created
       ++ [Print ("[red]Failed to create virtual environment with exit code "
                  ++ str_int (venv_code w) ++ "[/red]")],
       Exit (venv_code w))
    else
      let created :=
        if skip_create then created
        else created ++ [Print "[green]Virtual environment created successfully.[/green]"] in
      let (deps, note) := plan w in
      let planned :=
        [Print ("[cyan]Analyzing project at: " ++ project_path ++ "[/cyan]");
         Plan project_path; show_plan deps note] in
      let before := asked ++ created ++ planned in
      match deps with
      | [] =>
          (before ++ [Print "[yellow]No dependencies detected; nothing to install.[/yellow]"],
           Exit 0)
      | _ =>
          if dry_run then
            (before ++ [Print "[yellow]Dry run mode: skipping installation.[/yellow]"],
             Exit 0)
          else
            let asked_install :=
              if yes then []
              else [Ask "Install dependencies into virtual environment?" true] in
            let proceed := yes || confirm_install w in
            if negb proceed then (before ++ asked_install, Exit 0)
            else
              let python_exe :=
                if String.eqb (platform w) "win32"
                then join w (join w venv_abs_path "Scripts") "python.exe"
                else join w (join w venv_abs_path "bin") "python" in
              let command :=
                ["uv"; "pip"; "install"; "--python"; python_exe] ++ deps in
              let ran :=
                before ++ asked_install
                ++ [Print ("[bold]Running:[/bold] " ++ join_with " " command);
                    Run command] in
              if negb (Z.eqb (install_code w) 0) then
                (ran ++ [Print ("[red]uv install failed with exit code "
                                ++ str_int (install_code w) ++ "[/red]")],
                 Exit (install_code w))
              else
                (ran ++ [Print ("[green]Dependencies installed successfully into "
                                ++ venv_abs_path ++ ".[/green]")],
                 Returned)
      end.

End Cli.

Import Cli.

(** The commands run and the questions asked among the events. *)
Fixpoint runs (events : list event) : list (list string) :=
  match events with
  | [] => []
  | Run command :: rest => command :: runs rest
  | _ :: rest => runs rest
  end.

Fixpoint questions (events : list event) : list string :=
  match events with
  | [] => []
  | Ask question _ :: rest => question :: questions rest
  | _ :: rest => questions rest
  end.

Fixpoint plans (events : list event) : nat :=
  match events with
  | [] => 0
  | Plan _ :: rest => S (plans rest)
  | _ :: rest => plans rest
  end.

(** The command that creates the environment at [path], clearing an
    existing one or not. *)
Definition uv_venv (path : string) (clear : bool) : list string :=
  ["uv"; "venv"; path] ++ (if clear then ["--clear"] else []).

(** A world for the examples: a project with an environment already
    there, a user who answers no, and a plan of two packages. *)
Definition sample_world : world :=
  MkWorld "/work" (fun p => p)
    (fun p => match p with String "/" _ => true | _ => false end)
    (fun a b => (a ++ "/" ++ b)%string)
    (fun _ => true) (fun _ => true) "linux" false false 0 0
    (["httpx"; "rich"], "two packages").
(** The same project where [uv venv] fails with the exit code 2, and a
    world where no path exists. *)
Definition failing_world : world :=
  MkWorld "/work" (fun p => p)
    (fun p => match p with String "/" _ => true | _ => false end)
    (fun a b => (a ++ "/" ++ b)%string)
    (fun _ => true) (fun _ => true) "linux" false false 2 0
    (["httpx"; "rich"], "two packages").

Definition empty_world : world :=
  MkWorld "/work" (fun p => p)
    (fun p => match p with String "/" _ => true | _ => false end)
    (fun a b => (a ++ "/" ++ b)%string)
    (fun _ => false) (fun _ => false) "linux" false false 0 0
    (["httpx"; "rich"], "two packages").

(** The installation command of [venv] for the interpreter [python_exe]. *)
Definition uv_pip_install (python_exe : string) (deps : list string)
  : list string :=
  ["uv"; "pip"; "install"; "--python"; python_exe] ++ deps.

(** The path of the environment as given, the project directory, and
    the absolute path of the environment, as [venv] computes them. *)
Definition given_venv_path (venv_path : option string) : string :=
  match venv_path with None => ".venv" | Some p => p end.
Definition project_dir (w : world) (project_path : option string) : string :=
  match project_path with None => cwd w | Some p => resolve w p end.
Definition venv_abs_path (w : world) (venv_path project_path : option string)
  : string :=
  if is_absolute w (given_venv_path venv_path)
  then resolve w (given_venv_path venv_path)
  else resolve w (join w (project_dir w project_path) (given_venv_path venv_path)).


(* ================================================================== *)
(** * The sort *)
(* ================================================================== *)

Lemma insert_desc_perm x l : Permutation (x :: l) (insert_desc x l).
Proof.
  induction l as [|y t IH]; simpl.
  - apply Permutation_refl.
  - destruct (String.leb y x).
    + apply Permutation_refl.
    + eapply perm_trans; [apply perm_swap|]. now apply perm_skip.
Qed.

Lemma sorted_reverse_perm l : Permutation l (sorted_reverse l).
Proof.
  induction l as [|x t IH]; simpl.
  - constructor.
  - eapply perm_trans; [apply perm_skip, IH|]. apply insert_desc_perm.
Qed.

Lemma insert_desc_hd x y l :
  String.leb x y = true ->
  HdRel (fun a b => String.leb b a = true) y l ->
  HdRel (fun a b => String.leb b a = true) y (insert_desc x l).
Proof.
  intros Hxy Hl. destruct l as [|z t]; simpl.
  - now constructor.
  - destruct (String.leb z x); constructor; trivial.
    now inversion Hl.
Qed.

Lemma insert_desc_sorted x l : descending l -> descending (insert_desc x l).
Proof.
  unfold descending. induction l as [|y t IH]; simpl; intros Hs.
  - repeat constructor.
  - destruct (String.leb y x) eqn:E.
    + constructor; [exact Hs|]. now constructor.
    + inversion Hs as [|? ? Ht Hhd]; subst. constructor.
      * now apply IH.
      * apply insert_desc_hd; trivial.
        destruct (String.leb_total x y) as [H|H]; [exact H|congruence].
Qed.

Lemma sorted_reverse_descending l : descending (sorted_reverse l).
Proof.
  induction l as [|x t IH]; simpl.
  - constructor.
  - now apply insert_desc_sorted.
Qed.

Lemma leb_neq_ltb a b : String.leb b a = true -> a <> b -> String.ltb b a = true.
Proof.
  unfold String.leb, String.ltb. intros H Hne.
  destruct (String.compare b a) eqn:E; trivial; try discriminate.
  apply String.compare_eq_iff in E. congruence.
Qed.

Lemma descending_nodup_strict l :
  descending l -> NoDup l -> strictly_descending l.
Proof.
  unfold descending, strictly_descending.
  induction 1 as [|a l Hs IH Hhd]; intros Hnd.
  - constructor.
  - inversion Hnd as [|? ? Hnotin Hnd']; subst. constructor; [now apply IH|].
    destruct Hhd as [|b l' Hba]; constructor.
    apply leb_neq_ltb; trivial. intros ->. apply Hnotin. now left.
Qed.

Lemma sorted_reverse_strict l : NoDup l -> strictly_descending (sorted_reverse l).
Proof.
  intros Hnd. apply descending_nodup_strict.
  - apply sorted_reverse_descending.
  - eapply Permutation_NoDup; [apply sorted_reverse_perm|exact Hnd].
Qed.

Lemma sorted_reverse_nonempty l : l <> [] -> sorted_reverse l <> [].
Proof.
  intros Hne Hnil. apply Hne.
  apply Permutation_nil. rewrite <- Hnil. apply Permutation_sym, sorted_reverse_perm.
Qed.

(* ================================================================== *)
(** * Fetching the JSON of a package *)
(* ================================================================== *)

Section Fetch.

Variable py_str : json -> string.
Variable transport : request -> outcome.
Variable self : PyPICrawler.

Lemma get_package_json_request package_name version :
  get_package_json transport self package_name version =
  match transport (json_request package_name version) with
  | Responded status_code _ body =>
      on_status_error JNull
        (let* _ := raise_for_status status_code in response_json body)
  | Failed e =>
      Raise (RuntimeError
               ("Failed to fetch package info for " ++ package_name ++ ": " ++ e)%string
               (RequestError e))
  end.
Proof.
  unfold get_package_json, json_request, project_request, version_request.
  destruct version as [v|]; [destruct (String.eqb v "")|]; reflexivity.
Qed.

Lemma raise_for_status_success status_code :
  is_success status_code = true -> raise_for_status status_code = Ok tt.
Proof. unfold raise_for_status, is_success. now intros ->. Qed.

Lemma raise_for_status_failure status_code :
  is_success status_code = false ->
  raise_for_status status_code = Raise (HTTPStatusError status_code).
Proof. unfold raise_for_status, is_success. now intros ->. Qed.

Lemma get_package_json_success package_name version status_code text data :
  transport (json_request package_name version)
    = Responded status_code text (Some data) ->
  is_success status_code = true ->
  get_package_json transport self package_name version = Ok data.
Proof.
  intros Ht Hs. rewrite get_package_json_request, Ht.
  now rewrite (raise_for_status_success _ Hs).
Qed.

Lemma get_package_json_404 package_name version text body :
  transport (json_request package_name version) = Responded 404 text body ->
  get_package_json transport self package_name version = Ok JNull.
Proof. intros Ht. now rewrite get_package_json_request, Ht. Qed.

Lemma on_status_error_other {A : Type} (absent : A) status_code :
  status_code <> 404%Z ->
  on_status_error absent (Raise (HTTPStatusError status_code))
    = Raise (HTTPStatusError status_code).
Proof.
  intros Hne. unfold on_status_error.
  destruct status_code as [|q|q]; trivial.
  do 9 (destruct q as [q|q|]; trivial). congruence.
Qed.

Lemma contains_middle (a b c : string) : contains (a ++ b ++ c)%string b.
Proof. now exists a, c. Qed.

Lemma append_assoc (a b c : string) : ((a ++ b) ++ c = a ++ (b ++ c))%string.
Proof. induction a as [|x a IH]; simpl; [reflexivity|now rewrite IH]. Qed.

Lemma append_nil_r (a : string) : (a ++ "")%string = a.
Proof. induction a as [|x a IH]; simpl; [reflexivity|now rewrite IH]. Qed.

Lemma contains_end (a b : string) : contains (a ++ b)%string b.
Proof. exists a, ""%string. now rewrite append_nil_r. Qed.

End Fetch.

(** C4.  [get_package_json] classifies what the transport did: a 404 is
    the absent result [None] and is not raised; a success hands over
    what [response.json()] gives; any other status is raised as the
    [HTTPStatusError] carrying that status; a failure of the network is
    raised as a [RuntimeError] from the underlying [RequestError], with
    a message that contains the package name and the cause. *)
Theorem get_package_json_classifies transport self package_name version :
  match transport (json_request package_name version) with
  | Responded status_code _ body =>
      if (status_code =? 404)%Z then
        get_package_json transport self package_name version = Ok JNull
      else if is_success status_code then
        get_package_json transport self package_name version
          = response_json body
      else
        get_package_json transport self package_name version
          = Raise (HTTPStatusError status_code)
  | Failed cause =>
      exists msg,
        get_package_json transport self package_name version
          = Raise (RuntimeError msg (RequestError cause)) /\
        contains msg package_name /\ contains msg cause
  end.
Proof.
  rewrite get_package_json_request.
  destruct (transport (json_request package_name version))
    as [status_code text body|cause].
  - destruct (status_code =? 404)%Z eqn:E404.
    + apply Z.eqb_eq in E404. now subst.
    + apply Z.eqb_neq in E404. destruct (is_success status_code) eqn:Es.
      * rewrite (raise_for_status_success _ Es). simpl.
        now destruct body.
      * rewrite (raise_for_status_failure _ Es). simpl.
        now apply on_status_error_other.
  - eexists. split; [reflexivity|]. split.
    + apply contains_middle.
    + rewrite <- !append_assoc. apply contains_end.
Qed.

(** C1.  On the project response of the scenario, whose release map has
    the keys 1.0, 2.0 and 10.0, [get_package_versions] returns 2.0, 10.0,
    1.0: the keys in descending order of their characters, not of their
    numbers. *)
Theorem get_package_versions_demo transport self status_code text :
  transport (project_request "demo")
    = Responded status_code text (Some demo_response) ->
  is_success status_code = true ->
  get_package_versions transport self "demo" = Ok ["2.0"; "10.0"; "1.0"].
Proof.
  intros Ht Hs. unfold get_package_versions.
  rewrite (get_package_json_success transport self "demo" None _ _ _ Ht Hs).
  reflexivity.
Qed.

Lemma get_package_versions_demo_witness :
  demo_transport (project_request "demo") = Responded 200 "" (Some demo_response) /\
  is_success 200 = true /\
  get_package_versions demo_transport (new_crawler None true) "demo"
    = Ok ["2.0"; "10.0"; "1.0"].
Proof.
  split; [reflexivity|]. split; [reflexivity|].
  apply (get_package_versions_demo demo_transport _ 200%Z ""); reflexivity.
Defined.

(* ================================================================== *)
(** * [PackageInfo.from_json] *)
(* ================================================================== *)

Ltac bind_inv H :=
  repeat match type of H with
  | bind ?x _ = Ok _ =>
      let E := fresh "E" in
      destruct x eqn:E; simpl in H; [|discriminate H]
  end.

Lemma py_get_obj m k d : py_get (JObj m) k d = Ok (get_default m k d).
Proof. reflexivity. Qed.

Lemma truthy_obj m : m <> [] -> truthy (JObj m) = true.
Proof. now destruct m. Qed.

Lemma keys_nonempty {V : Type} (m : list (string * V)) : m <> [] -> keys m <> [].
Proof. now destruct m. Qed.

(** The version [from_json] chooses when the release map is not empty:
    the head of the sorted keys. *)
Lemma from_json_version py_str data rel p :
  dict_get data "releases" = Some (JObj rel) ->
  rel <> [] ->
  from_json py_str (JObj data) = Ok p ->
  exists v rest, sorted_reverse (keys rel) = v :: rest /\ version p = JStr v.
Proof.
  intros Hrel Hne H. unfold from_json in H.
  rewrite !py_get_obj in H. cbn [bind] in H.
  assert (Hr : get_default data "releases" (JObj []) = JObj rel)
    by (unfold get_default; now rewrite Hrel).
  rewrite Hr, (truthy_obj _ Hne) in H. cbn [py_keys bind] in H.
  destruct (sorted_reverse (keys rel)) as [|v rest] eqn:Es.
  - exfalso. now apply (sorted_reverse_nonempty (keys rel)); [apply keys_nonempty|].
  - cbn [bind] in H. bind_inv H.  injection H as <-. now exists v, rest.
Qed.

Lemma from_json_project_url py_str data info p :
  get_default data "info" (JObj []) = JObj info ->
  from_json py_str (JObj data) = Ok p ->
  project_url p =
    py_or (get_default info "project_url" JNull)
      (JStr ("https://pypi.org/project/"
             ++ format_value py_str (get_default info "name" (JStr "")) ++ "/")).
Proof.
  intros Hi H. unfold from_json in H.
  rewrite !py_get_obj in H. cbn [bind] in H. rewrite Hi in H.
  rewrite !py_get_obj in H. bind_inv H.
  injection H as <-. reflexivity.
Qed.

Lemma iterable_or_false_iter v :
  iterable_or_false v = true ->
  exists l, (if truthy v then py_iter v else Ok []) = Ok l.
Proof.
  destruct v as [|b|z|s|l|m]; simpl; intros H; eauto.
  - destruct b; [discriminate|eauto].
  - destruct (negb (z =? 0)%Z); [discriminate|eauto].
  - destruct (negb (s =? "")%string); eauto.
  - destruct l; eauto.
  - destruct m; eauto.
Qed.

Lemma dict_or_false_get v k d :
  dict_or_false v = true -> exists x, py_get (py_or v (JObj [])) k d = Ok x.
Proof.
  unfold py_or. destruct v as [|b|z|s|l|m]; simpl; intros H; eauto.
  - destruct b; [discriminate|simpl; eauto].
  - destruct (negb (z =? 0)%Z); [discriminate|simpl; eauto].
  - destruct (negb (s =? "")%string); [discriminate|simpl; eauto].
  - destruct l; [simpl; eauto|discriminate].
  - destruct m; simpl; eauto.
Qed.

Lemma from_json_readable py_str data info rel :
  get_default data "info" (JObj []) = JObj info ->
  get_default data "releases" (JObj []) = JObj rel ->
  readable_info info = true ->
  exists p, from_json py_str (JObj data) = Ok p.
Proof.
  intros Hi Hr Hok. apply andb_prop in Hok as [Hdeps Hurls].
  destruct (iterable_or_false_iter _ Hdeps) as [deps Edeps].
  destruct (dict_or_false_get _ "Homepage" JNull Hurls) as [home Ehome].
  unfold from_json. rewrite !py_get_obj. cbn [bind]. rewrite Hi, Hr.
  rewrite !py_get_obj. cbn [py_keys bind].
  rewrite Edeps. cbn [bind]. rewrite Ehome. cbn [bind].
  destruct (truthy (JObj rel)); [destruct (sorted_reverse (keys rel))|];
    cbn [bind]; eauto.
Qed.

Lemma get_package_info_success py_str transport self package_name version
    status_code text data :
  transport (json_request package_name version)
    = Responded status_code text (Some (JObj data)) ->
  is_success status_code = true ->
  get_package_info py_str transport self package_name version =
  match from_json py_str (JObj data) with
  | Ok info => Ok (Some info)
  | Raise e => Raise (parse_error package_name e)
  end.
Proof.
  intros Ht Hs. unfold get_package_info.
  now rewrite (get_package_json_success _ _ _ _ _ _ _ Ht Hs).
Qed.

(** C2.  When the release map of a project response is not empty,
    [get_package_versions] returns a non-empty list in descending order
    (without repetition, as the keys of a dictionary are), and its head
    is the version of the [PackageInfo] that [get_package_info] builds
    from the same response without a version argument; it builds one as
    soon as the info substructure is readable. *)
Theorem versions_sorted_head_is_latest py_str transport self package_name
    status_code text data rel :
  transport (project_request package_name)
    = Responded status_code text (Some (JObj data)) ->
  is_success status_code = true ->
  dict_get data "releases" = Some (JObj rel) ->
  rel <> [] ->
  exists v rest,
    get_package_versions transport self package_name = Ok (v :: rest) /\
    descending (v :: rest) /\
    (NoDup (keys rel) -> strictly_descending (v :: rest)) /\
    (forall p,
       get_package_info py_str transport self package_name None = Ok (Some p) ->
       version p = JStr v) /\
    (forall info,
       get_default data "info" (JObj []) = JObj info ->
       readable_info info = true ->
       exists p,
         get_package_info py_str transport self package_name None = Ok (Some p)).
Proof.
  intros Ht Hs Hrel Hne.
  assert (Hr : get_default data "releases" (JObj []) = JObj rel)
    by (unfold get_default; now rewrite Hrel).
  assert (Hv : get_package_versions transport self package_name
               = Ok (sorted_reverse (keys rel))).
  { unfold get_package_versions.
    rewrite (get_package_json_success transport self package_name None _ _ _ Ht Hs).
    cbn [bind]. rewrite py_get_obj, Hr. reflexivity. }
  pose proof (get_package_info_success py_str transport self package_name None
                _ _ _ Ht Hs) as Hinfo.
  destruct (sorted_reverse (keys rel)) as [|v rest] eqn:Es.
  { exfalso. now apply (sorted_reverse_nonempty (keys rel)); [apply keys_nonempty|]. }
  exists v, rest. repeat split.
  - exact Hv.
  - rewrite <- Es. apply sorted_reverse_descending.
  - intros Hnd. rewrite <- Es. now apply sorted_reverse_strict.
  - intros p Hp. rewrite Hinfo in Hp.
    destruct (from_json py_str (JObj data)) as [q|e] eqn:Eq; [|discriminate Hp].
    injection Hp as ->.
    destruct (from_json_version _ _ _ _ Hrel Hne Eq) as (v' & rest' & Es' & Hver).
    rewrite Es in Es'. now injection Es' as -> _.
  - intros info Hi Hok.
    destruct (from_json_readable py_str _ _ _ Hi Hr Hok) as [p Hp].
    exists p. now rewrite Hinfo, Hp.
Qed.

Lemma versions_sorted_head_is_latest_witness :
  is_success 200 = true /\
  exists v rest,
    get_package_versions demo_transport (new_crawler None true) "demo"
      = Ok (v :: rest) /\
    descending (v :: rest) /\
    (forall p,
       get_package_info (fun _ => "") demo_transport (new_crawler None true)
         "demo" None = Ok (Some p) ->
       version p = JStr v).
Proof.
  split; [reflexivity|].
  destruct (versions_sorted_head_is_latest (fun _ => "") demo_transport
              (new_crawler None true) "demo" 200%Z ""
              [("info", JObj [("name", JStr "demo"); ("version", JStr "9.9")]);
               ("releases", JObj [("1.0", JArr []); ("2.0", JArr []); ("10.0", JArr [])])]
              [("1.0", JArr []); ("2.0", JArr []); ("10.0", JArr [])]
              eq_refl eq_refl eq_refl ltac:(discriminate))
    as (v & rest & Hv & Hd & _ & Hp & _).
  exists v, rest. repeat split; assumption.
Defined.

(** C5, at the response whose info is a text: the [AttributeError] of
    [info.get] is not among the exceptions [get_package_info] catches,
    so it leaves as it is, without the package name. *)
Theorem get_package_info_info_not_object py_str self text :
  get_package_info py_str
    (fun _ => Responded 200 text (Some (JObj [("info", JStr "abc")])))
    self "demo" None
  = Raise (AttributeError "str" "get").
Proof. reflexivity. Qed.

(** The same for every info that is not a dictionary, in a response
    without release map: the first [info.get] raises. *)
Lemma get_package_info_attribute_error py_str transport self package_name
    version status_code text data info :
  transport (json_request package_name version)
    = Responded status_code text (Some (JObj data)) ->
  is_success status_code = true ->
  dict_get data "info" = Some info ->
  dict_get data "releases" = None ->
  match info with
  | JObj _ => True
  | _ =>
      get_package_info py_str transport self package_name version
      = Raise (AttributeError (type_name info) "get")
  end.
Proof.
  intros Ht Hs Hi Hr.
  rewrite (get_package_info_success _ _ _ _ _ _ _ _ Ht Hs).
  unfold from_json. rewrite !py_get_obj. unfold get_default. rewrite Hi, Hr.
  now destruct info.
Qed.

(** What [get_package_info] does catch: a [requires_dist] that cannot be
    iterated is a [TypeError], raised again as a [ValueError] with the
    package name, from the [TypeError]. *)
Lemma get_package_info_requires_dist_number py_str self text :
  get_package_info py_str
    (fun _ => Responded 200 text
                (Some (JObj [("info", JObj [("requires_dist", JNum 5)])])))
    self "demo" None
  = Raise (ValueError
             "Failed to parse package info for demo: 'int' object is not iterable"
             (TypeError "'int' object is not iterable")).
Proof. reflexivity. Qed.

(** The synthesized URL does not follow the configured base URL: with
    the registry configured as test.pypi.org it is still under
    pypi.org. *)
Lemma project_url_not_from_base_url :
  ~ (forall py_str transport self package_name status_code text data info p,
       transport (project_request package_name)
         = Responded status_code text (Some (JObj data)) ->
       is_success status_code = true ->
       dict_get data "info" = Some (JObj info) ->
       dict_get info "project_url" = None ->
       get_package_info py_str transport self package_name None = Ok (Some p) ->
       project_url p
         = JStr (base_url self ++ "/project/" ++ package_name ++ "/")).
Proof.
  intros H.
  specialize (H (fun _ => "") demo_transport test_crawler "demo" 200%Z ""
                _ _ _ eq_refl eq_refl eq_refl eq_refl eq_refl).
  discriminate H.
Qed.

(** C6.  What the code does instead: when the info substructure has no
    [project_url] field, the [project_url] of the [PackageInfo] is
    https://pypi.org/project/{name}/, [name] being the name field of
    the info (empty when missing), whatever base URL the crawler was
    configured with.  [__init__] stores [base_url] and nothing reads
    it. *)
Theorem project_url_synthesized py_str transport self package_name version
    status_code text data info p :
  transport (json_request package_name version)
    = Responded status_code text (Some (JObj data)) ->
  is_success status_code = true ->
  dict_get data "info" = Some (JObj info) ->
  dict_get info "project_url" = None ->
  get_package_info py_str transport self package_name version = Ok (Some p) ->
  project_url p
    = JStr ("https://pypi.org/project/"
            ++ format_value py_str (get_default info "name" (JStr "")) ++ "/").
Proof.
  intros Ht Hs Hi Hpu Hp.
  rewrite (get_package_info_success _ _ _ _ _ _ _ _ Ht Hs) in Hp.
  destruct (from_json py_str (JObj data)) as [q|e] eqn:Eq; [|discriminate Hp].
  injection Hp as ->.
  assert (Hi' : get_default data "info" (JObj []) = JObj info)
    by (unfold get_default; now rewrite Hi).
  rewrite (from_json_project_url _ _ _ _ Hi' Eq).
  unfold get_default at 1. now rewrite Hpu.
Qed.

Lemma project_url_synthesized_witness :
  get_package_info (fun _ => "") demo_transport test_crawler "demo" None
    = Ok (Some demo_info) /\
  base_url test_crawler = "https://test.pypi.org" /\
  project_url demo_info = JStr "https://pypi.org/project/demo/".
Proof.
  split; [reflexivity|]. split; [reflexivity|].
  exact (project_url_synthesized (fun _ => "") demo_transport test_crawler
           "demo" None 200%Z "" _ _ demo_info
           eq_refl eq_refl eq_refl eq_refl eq_refl).
Defined.

(* ================================================================== *)
(** * Dependencies *)
(* ================================================================== *)

(** C8.  [get_package_dependencies] returns the [requires_dist] list of
    the metadata map when the package is present, and the empty list,
    not the absent result, when the package is absent (404) or when
    [requires_dist] is missing or null. *)
Theorem get_package_dependencies_spec transport self package_name version :
  (forall text body,
     transport (json_request package_name version) = Responded 404 text body ->
     get_package_dependencies transport self package_name version = Ok []) /\
  (forall status_code text data info,
     transport (json_request package_name version)
       = Responded status_code text (Some (JObj data)) ->
     is_success status_code = true ->
     get_default data "info" (JObj []) = JObj info ->
     (forall l, dict_get info "requires_dist" = Some (JArr l) ->
        get_package_dependencies transport self package_name version = Ok l) /\
     (dict_get info "requires_dist" = None ->
        get_package_dependencies transport self package_name version = Ok []) /\
     (dict_get info "requires_dist" = Some JNull ->
        get_package_dependencies transport self package_name version = Ok [])).
Proof.
  split.
  - intros text body Ht.
    unfold get_package_dependencies, get_package_metadata.
    now rewrite (get_package_json_404 _ _ _ _ _ _ Ht).
  - intros status_code text data info Ht Hs Hi.
    assert (H : get_package_dependencies transport self package_name version
                = match get_default info "requires_dist" JNull with
                  | JArr l => Ok l
                  | _ => Ok []
                  end).
    { unfold get_package_dependencies, get_package_metadata.
      rewrite (get_package_json_success _ _ _ _ _ _ _ Ht Hs).
      cbn [bind]. rewrite py_get_obj, Hi. reflexivity. }
    rewrite H. unfold get_default.
    repeat split; [intros l Hl|intros Hl|intros Hl]; now rewrite Hl.
Qed.

Lemma get_package_dependencies_spec_witness :
  get_package_dependencies absent_transport (new_crawler None true) "demo" None
    = Ok [] /\
  get_package_dependencies deps_transport (new_crawler None true) "demo"
    (Some "1.0") = Ok [JStr "httpx>=0.27"; JStr "rich"] /\
  get_package_dependencies demo_transport (new_crawler None true) "demo" None
    = Ok [].
Proof.
  split; [|split].
  - exact (proj1 (get_package_dependencies_spec absent_transport
                    (new_crawler None true) "demo" None) "" None eq_refl).
  - exact (proj1 (proj2 (get_package_dependencies_spec deps_transport
                           (new_crawler None true) "demo" (Some "1.0"))
                    200%Z "" deps_data deps_info eq_refl eq_refl eq_refl)
             _ eq_refl).
  - exact (proj1 (proj2 (proj2 (get_package_dependencies_spec demo_transport
                                  (new_crawler None true) "demo" None)
                           200%Z ""
                           [("info", JObj [("name", JStr "demo"); ("version", JStr "9.9")]);
                            ("releases", JObj [("1.0", JArr []); ("2.0", JArr []); ("10.0", JArr [])])]
                           [("name", JStr "demo"); ("version", JStr "9.9")]
                           eq_refl eq_refl eq_refl))
             eq_refl).
Defined.

(* ================================================================== *)
(** * The matcher returns matches *)
(* ================================================================== *)

Lemma length_append (a b : string) :
  String.length (a ++ b) = String.length a + String.length b.
Proof. induction a as [|x a IH]; simpl; [reflexivity|now rewrite IH]. Qed.

Lemma substring_prefix (w s : string) :
  substring 0 (String.length w) (w ++ s) = w.
Proof.
  induction w as [|x w IH]; simpl.
  - now destruct s.
  - now rewrite IH.
Qed.

Lemma consumed_append (w s : string) : Str.consumed (w ++ s) s = w.
Proof.
  unfold Str.consumed. rewrite length_append.
  replace (String.length w + String.length s - String.length s)
    with (String.length w) by lia.
  apply substring_prefix.
Qed.

Section Soundness.

Variable A : Type.
Variable ic : bool.

Lemma star_loop_sound lazy r step :
  @sound_step A (Matches ic r) step ->
  forall k n s c x,
    star_loop lazy step k n s c = Some x ->
    exists w s' c',
      s = (w ++ s')%string /\
      (Matches ic (Star r) w c c' /\ Matches ic (StarLazy r) w c c') /\
      k s' c' = Some x.
Proof.
  intros Hstep k n. induction n as [|n IH]; intros s c x H.
  - exists ""%string, s, c. repeat split; trivial; constructor.
  - assert (Hstop : k s c = Some x ->
              exists w s' c', s = (w ++ s')%string /\
                (Matches ic (Star r) w c c' /\ Matches ic (StarLazy r) w c c') /\
                k s' c' = Some x).
    { intros Hk. exists ""%string, s, c. repeat split; trivial; constructor. }
    assert (Hagain :
              step s c (fun s1 c1 =>
                if String.length s1 <? String.length s
                then star_loop lazy step k n s1 c1 else None) = Some x ->
              exists w s' c', s = (w ++ s')%string /\
                (Matches ic (Star r) w c c' /\ Matches ic (StarLazy r) w c c') /\
                k s' c' = Some x).
    { intros Hs. apply Hstep in Hs as (w1 & s1 & c1 & -> & Hm1 & Hk1).
      destruct (String.length s1 <? String.length (w1 ++ s1)); [|discriminate].
      apply IH in Hk1 as (w2 & s2 & c2 & -> & [Hm2 Hm2'] & Hk2).
      exists (w1 ++ w2)%string, s2, c2. rewrite append_assoc.
      repeat split; trivial; econstructor; eassumption. }
    simpl in H. destruct lazy.
    + destruct (k s c) eqn:Ek; [injection H as ->; now apply Hstop|now apply Hagain].
    + match type of H with
      | match ?e with _ => _ end = _ => destruct e eqn:Ee
      end; [injection H as ->; now apply Hagain|now apply Hstop].
Qed.

Lemma rmatch_sound r : @sound_step A (Matches ic r) (rmatch ic r).
Proof.
  induction r as [|a|p|p|r1 IH1 r2 IH2|r1 IH1 r2 IH2|r1 IH1|r1 IH1|n r1 IH1];
    intros s c k x H; simpl in H.
  - exists ""%string, s, c. repeat split; trivial; constructor.
  - destruct s as [|y t]; [discriminate|].
    destruct (chr_ok ic a y) eqn:E; [|discriminate].
    exists (String y ""), t, c. repeat split; trivial. now constructor.
  - destruct s as [|y t]; [discriminate|].
    destruct (cls_ok ic p y) eqn:E; [|discriminate].
    exists (String y ""), t, c. repeat split; trivial. now constructor.
  - destruct s as [|y t]; [discriminate|].
    destruct (cls_ok ic p y) eqn:E; [discriminate|].
    exists (String y ""), t, c. repeat split; trivial. now constructor.
  - apply IH1 in H as (w1 & s1 & c1 & -> & Hm1 & H).
    apply IH2 in H as (w2 & s2 & c2 & -> & Hm2 & H).
    exists (w1 ++ w2)%string, s2, c2. rewrite append_assoc.
    repeat split; trivial. econstructor; eassumption.
  - destruct (rmatch ic r1 s c k) eqn:E1.
    + injection H as ->. apply IH1 in E1 as (w & s' & c' & -> & Hm & Hk).
      exists w, s', c'. repeat split; trivial. now apply MAltL.
    + apply IH2 in H as (w & s' & c' & -> & Hm & Hk).
      exists w, s', c'. repeat split; trivial. now apply MAltR.
  - apply (star_loop_sound false r1 _ IH1) in H as (w & s' & c' & -> & [Hm _] & Hk).
    now exists w, s', c'.
  - apply (star_loop_sound true r1 _ IH1) in H as (w & s' & c' & -> & [_ Hm] & Hk).
    now exists w, s', c'.
  - apply IH1 in H as (w & s' & c' & -> & Hm & Hk).
    rewrite consumed_append in Hk.
    exists w, s', ((n, w) :: c'). repeat split; trivial. now constructor.
Qed.

End Soundness.

Lemma match_at_sound ic r pos s m :
  match_at ic r pos s = Some m ->
  exists w rest,
    s = (w ++ rest)%string /\ Matches ic r w [] (m_caps m) /\
    m_text m = w /\ m_start m = pos /\ m_end m = pos + String.length w.
Proof.
  unfold match_at. intros H.
  apply rmatch_sound in H as (w & rest & c & -> & Hm & Hk).
  injection Hk as <-. simpl. exists w, rest.
  rewrite consumed_append, length_append.
  repeat split; trivial. lia.
Qed.

Lemma search_from_sound ic r s : forall pos m,
  search_from ic r pos s = Some m ->
  exists pre w rest,
    s = (pre ++ w ++ rest)%string /\ Matches ic r w [] (m_caps m) /\
    m_text m = w /\ m_start m = pos + String.length pre /\
    m_end m = m_start m + String.length w.
Proof.
  induction s as [|x t IH]; intros pos m H; simpl in H.
  - destruct (match_at ic r pos "") eqn:E; [|discriminate].
    injection H as ->. apply match_at_sound in E as (w & rest & Hs & Hm & Ht & Hst & He).
    exists ""%string, w, rest. simpl. repeat split; trivial; lia.
  - destruct (match_at ic r pos (String x t)) eqn:E.
    + injection H as ->. apply match_at_sound in E as (w & rest & Hs & Hm & Ht & Hst & He).
      exists ""%string, w, rest. simpl. repeat split; trivial; lia.
    + apply IH in H as (pre & w & rest & -> & Hm & Ht & Hst & He).
      exists (String x pre), w, rest. simpl. repeat split; trivial; lia.
Qed.

(** Captures of patterns without groups. *)
Lemma matches_lit_exact s w c c' : Matches false (Lit s) w c c' -> c' = c /\ w = s.
Proof.
  revert w c c'. induction s as [|a t IH]; simpl; intros w c c' H.
  - inversion H; subst. now split.
  - inversion H as [| | | |? ? w1 w2 ? c1 ? H1 H2| | | | | | |]; subst.
    inversion H1 as [|? ? ? Hc| | | | | | | | | |]; subst. apply IH in H2 as [-> ->].
    simpl in Hc. apply Ascii.eqb_eq in Hc. now subst.
Qed.

Lemma matches_star_cls ic p w c c' :
  Matches ic (Star (Cls p)) w c c' -> c' = c /\ Str.all (cls_ok ic p) w = true.
Proof.
  intros H. remember (Star (Cls p)) as r eqn:Er.
  induction H; try discriminate.
  - now split.
  - injection Er as ->. inversion H; subst.
    destruct (IHMatches2 eq_refl) as [-> Hall]. split; trivial.
    simpl. now rewrite H2, Hall.
Qed.

Lemma matches_plus_cls ic p w c c' :
  Matches ic (Plus (Cls p)) w c c' ->
  c' = c /\
  exists x t,
    w = String x t /\ cls_ok ic p x = true /\ Str.all (cls_ok ic p) t = true.
Proof.
  intros H. inversion H as [| | | |? ? w1 w2 ? c1 ? H1 H2| | | | | | |]; subst.
  inversion H1; subst. apply matches_star_cls in H2 as [-> Hall].
  split; trivial. now exists x, w2.
Qed.

(* ================================================================== *)
(** * What the patterns of the crawler capture *)
(* ================================================================== *)

Ltac inv_cat H H1 H2 :=
  inversion H as [| | | |? ? ? ? ? ? ? H1 H2| | | | | | |]; subst; clear H.

Ltac inv_chr H := inversion H; subst; clear H.

Ltac inv_group H H1 :=
  inversion H as [| | | | | | | | | | |? ? ? ? ? H1]; subst; clear H.

Ltac inv_alt H H1 :=
  inversion H as [| | | | |? ? ? ? ? H1|? ? ? ? ? H1| | | | |]; subst; clear H.

(** The captures of a match of [hash_re]: the algorithm is one of the
    three the pattern names, the digest is not empty and hexadecimal. *)
Lemma alg_matches w c c' :
  Matches false (Alt (Lit "sha256") (Alt (Lit "md5") (Lit "sha1"))) w c c' ->
  c' = c /\ (w = "sha256" \/ w = "md5" \/ w = "sha1").
Proof.
  intros H. inv_alt H H1.
  - apply (matches_lit_exact "sha256") in H1 as [-> ->]. auto.
  - inv_alt H1 H2;
      [apply (matches_lit_exact "md5") in H2 as [-> ->]
      |apply (matches_lit_exact "sha1") in H2 as [-> ->]]; auto.
Qed.

Lemma hash_re_matches w c :
  Matches false hash_re w [] c ->
  exists alg digest,
    c = [(2, digest); (1, alg)] /\
    (alg = "sha256" \/ alg = "md5" \/ alg = "sha1") /\
    digest <> "" /\ Str.all hexdigit digest = true.
Proof.
  unfold hash_re. intros H.
  inv_cat H Hsharp R1. inv_chr Hsharp.
  inv_cat R1 Hg R2. inv_group Hg Halg.
  apply alg_matches in Halg as [-> Halg].
  inv_cat R2 Heq R3. inv_chr Heq.
  inv_group R3 Hhex. apply matches_plus_cls in Hhex as [-> (h0 & t0 & -> & Hx & Ht)].
  do 2 eexists. split; [reflexivity|]. repeat split; trivial; [discriminate|].
  change (hexdigit h0 = true) in Hx. change (Str.all hexdigit t0 = true) in Ht.
  cbn [Str.all]. now rewrite Hx, Ht.
Qed.

Lemma hash_re_search url m :
  search false hash_re url = Some m ->
  exists digest,
    m_caps m = [(2, digest); (1, group 1 m)] /\
    group 2 m = digest /\
    (group 1 m = "sha256" \/ group 1 m = "md5" \/ group 1 m = "sha1") /\
    digest <> "" /\ Str.all hexdigit digest = true.
Proof.
  intros H. apply search_from_sound in H as (pre & w & rest & _ & Hm & _).
  apply hash_re_matches in Hm as (alg & digest & Hc & Halg & Hne & Hhex).
  exists digest. unfold group. rewrite Hc. simpl. auto.
Qed.

(** A match of [version_re] captures a text that starts with a digit. *)
Lemma opt_dot_digits_caps w c c' :
  Matches false (Opt (Cat (Chr ".") (Plus (Cls digit)))) w c c' -> c' = c.
Proof.
  intros H. inv_alt H H1.
  - inv_cat H1 Hdot H2. inv_chr Hdot. now apply matches_plus_cls in H2 as [-> _].
  - now inversion H1.
Qed.

Lemma opt_alnum_caps w c c' :
  Matches false (Opt (Plus (Cls alnum))) w c c' -> c' = c.
Proof.
  intros H. inv_alt H H1.
  - now apply matches_plus_cls in H1 as [-> _].
  - now inversion H1.
Qed.

Lemma version_re_matches w c c' :
  Matches false version_re w c c' ->
  exists d t, c' = (1, String d t) :: c /\ digit d = true.
Proof.
  unfold version_re. intros H. inv_group H R0.
  inv_cat R0 Hmajor R1.
  apply matches_plus_cls in Hmajor as [-> (d0 & t0 & -> & Hx & _)].
  inv_cat R1 Hdot R2. inv_chr Hdot.
  inv_cat R2 Hminor R3. apply matches_plus_cls in Hminor as [-> _].
  inv_cat R3 Hpatch Hsuffix.
  apply opt_dot_digits_caps in Hpatch as ->.
  apply opt_alnum_caps in Hsuffix as ->.
  exists d0. eexists. split; [reflexivity|exact Hx].
Qed.

Lemma version_re_search data m :
  search false version_re data = Some m ->
  exists d t, group 1 m = String d t /\ digit d = true.
Proof.
  intros H. apply search_from_sound in H as (pre & w & rest & _ & Hm & _).
  apply version_re_matches in Hm as (d & t & Hc & Hd).
  exists d, t. unfold group. now rewrite Hc.
Qed.

Lemma version_re_not_unknown data m :
  search false version_re data = Some m -> group 1 m <> "unknown".
Proof.
  intros H Hu. apply version_re_search in H as (d & t & Hg & Hd).
  rewrite Hu in Hg. injection Hg as <- _. discriminate Hd.
Qed.

(* ================================================================== *)
(** * Matching a text known in advance *)
(* ================================================================== *)

Section Forward.

Variable A : Type.

Lemma rmatch_lit w : forall s c (k : string -> caps -> option A),
  rmatch false (Lit w) (w ++ s) c k = k s c.
Proof.
  induction w as [|a w IH]; intros s c k; simpl; [reflexivity|].
  unfold chr_ok. now rewrite Ascii.eqb_refl, IH.
Qed.

Lemma rmatch_alt_left r1 r2 s c (k : string -> caps -> option A) x :
  rmatch false r1 s c k = Some x -> rmatch false (Alt r1 r2) s c k = Some x.
Proof. intros H. simpl. now rewrite H. Qed.

(** A greedy star of a class reads a text of the class to its end, when
    the continuation accepts the end. *)
Lemma star_greedy_all p (k : string -> caps -> option A) c x :
  k "" c = Some x ->
  forall s n,
    Str.all p s = true -> String.length s <= n ->
    star_loop false (rmatch false (Cls p)) k n s c = Some x.
Proof.
  intros Hk. set (step := rmatch false (Cls p)).
  assert (Hstep : forall a t K, p a = true -> step (String a t) c K = K t c).
  { intros a t K Ha. unfold step. cbn [rmatch]. unfold cls_ok. now rewrite Ha. }
  assert (Hnil : forall K, step ""%string c K = None) by reflexivity.
  clearbody step.
  induction s as [|a t IH]; intros n Hall Hn.
  - destruct n; cbn [star_loop]; [exact Hk|now rewrite Hnil].
  - simpl in Hall. apply andb_prop in Hall as [Ha Ht].
    destruct n as [|n]; [simpl in Hn; lia|].
    cbn [star_loop]. rewrite (Hstep _ _ _ Ha).
    replace (String.length t <? String.length (String a t)) with true
      by (symmetry; apply Nat.ltb_lt; simpl; lia).
    rewrite (IH n Ht); [reflexivity|simpl in Hn; lia].
Qed.

Lemma plus_greedy_all p (k : string -> caps -> option A) c x a t :
  k "" c = Some x ->
  Str.all p (String a t) = true ->
  rmatch false (Plus (Cls p)) (String a t) c k = Some x.
Proof.
  intros Hk Hall. simpl in Hall. apply andb_prop in Hall as [Ha Ht].
  unfold Plus. cbn [rmatch]. unfold cls_ok. rewrite Ha.
  now apply star_greedy_all.
Qed.

End Forward.

Lemma consumed_all (w : string) : Str.consumed w "" = w.
Proof.
  rewrite <- (append_nil_r w) at 1. apply consumed_append.
Qed.

Lemma before_lacks a base rest :
  Str.lacks a base = true -> Str.before a (base ++ String a rest) = base.
Proof.
  unfold Str.lacks. induction base as [|x t IH]; simpl; intros H.
  - now rewrite Ascii.eqb_refl.
  - apply andb_prop in H as [Hx Ht]. apply negb_true_iff in Hx.
    now rewrite Hx, IH.
Qed.

Lemma match_at_chr_mismatch a r pos x t :
  Ascii.eqb a x = false -> match_at false (Cat (Chr a) r) pos (String x t) = None.
Proof. intros H. unfold match_at. simpl. unfold chr_ok. now rewrite H. Qed.

Lemma search_from_skip a r base rest : forall pos,
  Str.lacks a base = true ->
  search_from false (Cat (Chr a) r) pos (base ++ rest)
  = search_from false (Cat (Chr a) r) (pos + String.length base) rest.
Proof.
  unfold Str.lacks. induction base as [|x t IH]; intros pos H.
  - simpl. now rewrite Nat.add_0_r.
  - simpl in H. apply andb_prop in H as [Hx Ht]. apply negb_true_iff in Hx.
    change (String x t ++ rest)%string with (String x (t ++ rest)).
    cbn [search_from]. rewrite match_at_chr_mismatch by (now rewrite Ascii.eqb_sym).
    rewrite IH by exact Ht. simpl. f_equal. lia.
Qed.

(** [hash_re] at a fragment [#sha256=digest] that ends the text. *)
Lemma match_at_sha256 pos digest :
  digest <> "" -> Str.all hexdigit digest = true ->
  exists m,
    match_at false hash_re pos (String "#" ("sha256" ++ String "=" digest)) = Some m /\
    m_caps m = [(2, digest); (1, "sha256")].
Proof.
  intros Hne Hhex. destruct digest as [|h t]; [congruence|].
  eexists. split.
  - unfold match_at, hash_re. cbn [rmatch]. unfold chr_ok at 1. rewrite Ascii.eqb_refl.
    apply rmatch_alt_left. rewrite rmatch_lit. cbn [rmatch].
    unfold chr_ok at 1. rewrite Ascii.eqb_refl.
    apply plus_greedy_all; [reflexivity|exact Hhex].
  - cbn [m_caps]. now rewrite consumed_append, consumed_all.
Qed.

Lemma search_sha256 base digest :
  Str.lacks "#" base = true -> digest <> "" -> Str.all hexdigit digest = true ->
  exists m,
    search false hash_re (base ++ "#sha256=" ++ digest) = Some m /\
    group 1 m = "sha256" /\ group 2 m = digest.
Proof.
  intros Hb Hne Hhex.
  destruct (match_at_sha256 (0 + String.length base) digest Hne Hhex) as (m & Hm & Hc).
  exists m. split.
  - unfold search. unfold hash_re at 1. rewrite search_from_skip by exact Hb.
    change ("#sha256=" ++ digest)%string
      with (String "#" ("sha256" ++ String "=" digest)).
    cbn [search_from]. fold hash_re. now rewrite Hm.
  - unfold group. now rewrite Hc.
Qed.

Lemma length_drop n : forall s, String.length (Str.drop n s) = String.length s - n.
Proof.
  induction n as [|n IH]; intros [|a t]; simpl; trivial; lia.
Qed.

(** The search resumes at least one character further. *)
Lemma search_from_advances ic r pos s m :
  search_from ic r pos s = Some m ->
  1 <= (if m_end m =? m_start m then S (m_end m) else m_end m) - pos.
Proof.
  intros H. apply search_from_sound in H as (pre & w & rest & _ & _ & _ & Hs & He).
  destruct (m_end m =? m_start m) eqn:E.
  - lia.
  - apply Nat.eqb_neq in E. lia.
Qed.

(** [finditer] never runs out of rounds: more rounds than
    [S (length s)] find the same matches. *)
Lemma finditer_from_fuel ic r n1 : forall n2 pos s,
  String.length s < n1 -> String.length s < n2 ->
  finditer_from n1 ic r pos s = finditer_from n2 ic r pos s.
Proof.
  induction n1 as [|n1 IH]; intros n2 pos s H1 H2; [lia|].
  destruct n2 as [|n2]; [lia|]. cbn [finditer_from].
  destruct (search_from ic r pos s) as [m|] eqn:Em; [|reflexivity].
  f_equal. pose proof (search_from_advances _ _ _ _ _ Em) as Hadv. cbv zeta.
  set (next := if m_end m =? m_start m then S (m_end m) else m_end m) in *.
  destruct (String.length s <? next - pos) eqn:El; [reflexivity|].
  apply Nat.ltb_ge in El.
  apply IH; rewrite length_drop; lia.
Qed.

Lemma finditer_fuel ic r s extra :
  finditer_from (S (String.length s) + extra) ic r 0 s = finditer ic r s.
Proof. unfold finditer. apply finditer_from_fuel; lia. Qed.

(* ================================================================== *)
(** * Distribution files *)
(* ================================================================== *)

Section MapM.
Variables (X Y : Type) (f : X -> result Y).

Lemma mapM_forall2 l : forall ys,
  mapM f l = Ok ys -> Forall2 (fun x y => f x = Ok y) l ys.
Proof.
  induction l as [|x t IH]; simpl; intros ys H.
  - injection H as <-. constructor.
  - destruct (f x) as [y|e] eqn:Ef; simpl in H; [|discriminate].
    destruct (mapM f t) as [ys'|e] eqn:Et; simpl in H; [|discriminate].
    injection H as <-. constructor; auto.
Qed.

Lemma mapM_total l :
  (forall x, In x l -> exists y, f x = Ok y) -> exists ys, mapM f l = Ok ys.
Proof.
  induction l as [|x t IH]; simpl; intros H.
  - now exists [].
  - destruct (H x (or_introl eq_refl)) as [y Hy].
    destruct IH as [ys Hys]; [intros z Hz; apply H; now right|].
    exists (y :: ys). now rewrite Hy, Hys.
Qed.

Lemma forall2_in_r (R : X -> Y -> Prop) l ys y :
  Forall2 R l ys -> In y ys -> exists x, In x l /\ R x y.
Proof.
  induction 1 as [|x y' l ys Hxy HF IH]; intros Hin; [contradiction|].
  destruct Hin as [->|Hin].
  - exists x. split; [now left|assumption].
  - destruct (IH Hin) as (x' & Hx' & HR). exists x'. split; [now right|assumption].
Qed.

Lemma forall2_in_l (R : X -> Y -> Prop) l ys x :
  Forall2 R l ys -> In x l -> exists y, In y ys /\ R x y.
Proof.
  induction 1 as [|x' y l ys Hxy HF IH]; intros Hin; [contradiction|].
  destruct Hin as [->|Hin].
  - exists y. split; [now left|assumption].
  - destruct (IH Hin) as (y' & Hy' & HR). exists y'. split; [now right|assumption].
Qed.

End MapM.

Lemma html_distribution_fields m :
  exists d,
    html_distribution m = Ok d /\
    hashes d = JObj (hashes_of_url (group 1 m)) /\
    url d = JStr (Str.before "#" (group 1 m)) /\
    filename d = JStr (Str.strip (group 2 m)).
Proof.
  unfold html_distribution, hashes_of_url. cbn [_guess_packagetype bind].
  eexists. split; [reflexivity|]. cbn. auto.
Qed.

Lemma hashes_of_url_shape url :
  hashes_of_url url = [] \/
  exists alg digest,
    hashes_of_url url = [(alg, JStr digest)] /\
    (alg = "sha256" \/ alg = "md5" \/ alg = "sha1") /\
    digest <> "" /\ Str.all hexdigit digest = true.
Proof.
  unfold hashes_of_url. destruct (search false hash_re url) as [m|] eqn:E; [|now left].
  right. apply hash_re_search in E as (digest & _ & Hg2 & Halg & Hne & Hhex).
  exists (group 1 m), digest. rewrite Hg2. auto.
Qed.

Lemma on_status_error_some {X : Type} (r : result (option X)) v :
  on_status_error None r = Ok (Some v) -> r = Ok (Some v).
Proof.
  unfold on_status_error. destruct r as [a|e]; trivial.
  destruct e; trivial. destruct status as [|q|q]; trivial.
  do 9 (destruct q as [q|q|]; trivial). discriminate.
Qed.

Lemma get_package_distributions_request transport self package_name use_json :
  get_package_distributions transport self package_name use_json =
  match transport (simple_request package_name use_json) with
  | Responded status_code text body =>
      on_status_error None
        (let* _ := raise_for_status status_code in
         if use_json then
           let* data := response_json body in
           let* files := py_get data "files" (JArr []) in
           let* entries := py_iter files in
           let* files := mapM json_distribution entries in
           Ok (Some files)
         else
           let* files := _parse_html_distributions text in
           Ok (Some files))
  | Failed e =>
      Raise (RuntimeError
               ("Failed to fetch distributions for " ++ package_name ++ ": " ++ e)%string
               (RequestError e))
  end.
Proof. reflexivity. Qed.


(** A match of the anchor pattern whose captured url is a URL followed
    by the fragment #sha256=digest, the digest hexadecimal and not
    empty, gives a [DistributionFile] whose hashes are exactly the
    mapping of sha256 to the digest and whose url is the captured url
    without the fragment. *)
Theorem html_sha256_fragment html m base digest :
  In m (finditer true anchor_re html) ->
  group 1 m = (base ++ "#sha256=" ++ digest)%string ->
  Str.lacks "#" base = true ->
  digest <> "" ->
  Str.all hexdigit digest = true ->
  exists files d,
    _parse_html_distributions html = Ok files /\
    In d files /\
    html_distribution m = Ok d /\
    hashes d = JObj [("sha256", JStr digest)] /\
    url d = JStr base.
Proof.
  intros Hin Hurl Hbase Hne Hhex.
  destruct (mapM_total _ _ html_distribution (finditer true anchor_re html))
    as [files Hfiles].
  { intros x _. destruct (html_distribution_fields x) as (d & Hd & _). now exists d. }
  pose proof (mapM_forall2 _ _ _ _ _ Hfiles) as HF.
  destruct (forall2_in_l _ _ _ _ _ _ HF Hin) as (d & Hd & Hmd).
  exists files, d. repeat split; trivial.
  - destruct (html_distribution_fields m) as (d' & Hd' & Hh & _).
    rewrite Hmd in Hd'. injection Hd' as <-. rewrite Hh, Hurl.
    unfold hashes_of_url.
    destruct (search_sha256 base digest Hbase Hne Hhex) as (hm & -> & -> & ->).
    reflexivity.
  - destruct (html_distribution_fields m) as (d' & Hd' & _ & Hu & _).
    rewrite Hmd in Hd'. injection Hd' as <-. rewrite Hu, Hurl.
    change ("#sha256=" ++ digest)%string with (String "#" ("sha256=" ++ digest)).
    now rewrite before_lacks.
Qed.

Lemma html_sha256_fragment_witness :
  In sha_match (finditer true anchor_re sha_page) /\
  group 1 sha_match = ("https://x/f.whl" ++ "#sha256=" ++ "abCD12")%string /\
  Str.lacks "#" "https://x/f.whl" = true /\
  Str.all hexdigit "abCD12" = true /\
  exists files d,
    _parse_html_distributions sha_page = Ok files /\
    In d files /\
    html_distribution sha_match = Ok d /\
    hashes d = JObj [("sha256", JStr "abCD12")] /\
    url d = JStr "https://x/f.whl".
Proof.
  assert (Hin : In sha_match (finditer true anchor_re sha_page))
    by (vm_compute; left; reflexivity).
  repeat (split; [first [exact Hin|reflexivity]|]).
  apply (html_sha256_fragment sha_page sha_match "https://x/f.whl" "abCD12");
    [exact Hin|reflexivity|reflexivity|discriminate|reflexivity].
Defined.

(** C7 at an anchor whose href ends in a sha256 fragment and which has
    a later attribute data-href: the anchor pattern captures the value
    of the later attribute, and the file has that value as its url and
    no hashes. *)
Theorem html_href_shadowed :
  _parse_html_distributions shadowed_page = Ok [shadowed_file] /\
  get_package_distributions shadowed_transport (new_crawler None true) "f" false
    = Ok (Some [shadowed_file]).
Proof. split; vm_compute; reflexivity. Qed.

(** ** The hashes of a url, exactly *)





Section Run.

Variable A : Type.



End Run.








Lemma append_length_inj (a b a' b' : string) :
  (a ++ b = a' ++ b')%string -> String.length a = String.length a' ->
  a = a' /\ b = b'.
Proof.
  revert a'. induction a as [|x t IH]; intros [|y t']; simpl;
    intros H Hl; try discriminate Hl; [now split|].
  injection H as -> H. injection Hl as Hl.
  destruct (IH _ H Hl) as [-> ->]. now split.
Qed.





(* ================================================================== *)
(** * The structured extractor and the fallback *)
(* ================================================================== *)

(** What a start tag may change. *)
Lemma handle_starttag_effect self tag attrs self' :
  handle_starttag self tag attrs = Ok self' ->
  results self' = results self /\
  current_tag self' = Some tag /\
  (current_package self' = current_package self /\
   (tag <> "a" -> in_package_section self' = in_package_section self)
   \/ (tag = "a" /\ in_package_section self' = true /\
       exists name href, current_package self' = Some (MkPackage name href None None))).
Proof.
  unfold handle_starttag. intros H.
  match type of H with
  | (if ?b then _ else _) = _ => destruct b eqn:Econt
  end.
  - assert (Ha : tag = "a").
    { destruct (String.eqb tag "a") eqn:E; [now apply String.eqb_eq in E|discriminate]. }
    match type of H with
    | bind ?x _ = _ => destruct x as [href|e]; [|discriminate H]
    end.
    cbn [bind] in H.
    destruct (search false project_re href) as [m|]; injection H as <-; cbn.
    + repeat split; trivial. right. repeat split; trivial. now do 2 eexists.
    + repeat split; trivial. left. split; trivial. intros Hne. contradiction.
  - assert (Hp : forall st : parser,
                (if String.eqb tag "p" && in_package_section st
                 then
                   let* classes := classes_of attrs in
                   if Str.mem "package-snippet__description" classes
                      || Str.mem "description" classes
                   then Ok (MkParser (results st) (current_package st)
                              (in_package_section st) (current_tag st) [])
                   else Ok st
                 else Ok st) = Ok self' ->
                results self' = results st /\
                current_tag self' = current_tag st /\
                current_package self' = current_package st /\
                in_package_section self' = in_package_section st).
    { intros st Hst. destruct (String.eqb tag "p" && in_package_section st).
      - destruct (classes_of attrs) as [cl|e]; cbn [bind] in Hst; [|discriminate Hst].
        destruct (Str.mem "package-snippet__description" cl || Str.mem "description" cl);
          injection Hst as <-; cbn; auto.
      - injection Hst as <-. auto. }
    match type of H with
    | bind ?x _ = _ => destruct x as [st|e] eqn:Est; cbn [bind] in H; [|discriminate H]
    end.
    apply Hp in H as (Hr & Ht & Hc & Hs). rewrite Hr, Ht, Hc, Hs. clear Hp Hr Ht Hc Hs.
    cbn [results current_package in_package_section current_tag current_data] in Est.
    destruct (String.eqb tag "span" && in_package_section self).
    + destruct (classes_of attrs) as [cl|e]; cbn [bind] in Est; [|discriminate Est].
      destruct (Str.mem "package-snippet__version" cl || Str.mem "version" cl);
        injection Est as <-; cbn; auto.
    + injection Est as <-; cbn; auto.
Qed.

(** What a text may change: the version, when the current tag is [span]
    and the text contains one, or the summary. *)
Lemma handle_data_effect self data :
  let self' := handle_data self data in
  results self' = results self /\
  in_package_section self' = in_package_section self /\
  current_tag self' = current_tag self /\
  (current_package self' = current_package self
   \/ (exists m p,
         tag_is (current_tag self) "span" = true /\
         search false version_re (Str.strip data) = Some m /\
         current_package self = Some p /\
         current_package self'
           = Some (MkPackage (p_name p) (p_href p) (Some (group 1 m)) (p_summary p)))
   \/ (exists p text,
         current_package self = Some p /\
         current_package self'
           = Some (MkPackage (p_name p) (p_href p) (p_version p) (Some text)))).
Proof.
  unfold handle_data.
  destruct (negb (in_package_section self)); [cbn; auto|].
  destruct (String.eqb (Str.strip data) ""); [cbn; auto|].
  destruct (tag_is (current_tag self) "span") eqn:Espan.
  - destruct (search false version_re (Str.strip data)) as [m|] eqn:Em; [|cbn; auto].
    destruct (current_package self) as [p|] eqn:Ep; [|cbn; rewrite Ep; auto].
    cbn. repeat split; trivial. right. left. now exists m, p.
  - destruct (tag_is (current_tag self) "p"); [|cbn; auto].
    destruct (current_package self) as [p|] eqn:Ep; [|cbn; rewrite Ep; auto].
    destruct (p_summary p); [cbn; rewrite Ep; auto|].
    cbn. repeat split; trivial. right. right. now exists p, (Str.strip data).
Qed.

Lemma handle_data_known self data :
  versions_known self -> versions_known (handle_data self data).
Proof.
  intros [Hres Hcur].
  destruct (handle_data_effect self data) as (Hr & _ & _ & Hp).
  split; [now rewrite Hr|].
  intros p v Hp' Hv.
  destruct Hp as [Hsame|[(m & q & _ & Hm & Hq & Hnew)|(q & text & Hq & Hnew)]].
  - rewrite Hsame in Hp'. eauto.
  - rewrite Hnew in Hp'. injection Hp' as <-. cbn in Hv. injection Hv as <-.
    eapply version_re_not_unknown; eassumption.
  - rewrite Hnew in Hp'. injection Hp' as <-. cbn in Hv. eauto.
Qed.

Lemma handle_starttag_known self tag attrs self' :
  versions_known self -> handle_starttag self tag attrs = Ok self' ->
  versions_known self'.
Proof.
  intros [Hres Hcur] H.
  apply handle_starttag_effect in H as (Hr & _ & Hp).
  split; [now rewrite Hr|].
  intros p v Hp' Hv.
  destruct Hp as [[Hsame _]|(_ & _ & name & href & Hnew)].
  - rewrite Hsame in Hp'. eauto.
  - rewrite Hnew in Hp'. injection Hp' as <-. discriminate Hv.
Qed.

(** What an end tag does: the end of an anchor inside a container emits
    the package being read, with the empty text for a version never set. *)
Lemma handle_endtag_results self tag :
  results (handle_endtag self tag) =
  if String.eqb tag "a" && in_package_section self then
    match current_package self with
    | Some p =>
        results self
        ++ [MkSearchResult (p_name p) (or_empty (p_version p)) (p_summary p) None]
    | None => results self
    end
  else results self.
Proof.
  unfold handle_endtag.
  destruct (String.eqb tag "a" && in_package_section self); [|reflexivity].
  now destruct (current_package self).
Qed.

Lemma handle_endtag_package self tag :
  current_package (handle_endtag self tag) =
  if String.eqb tag "a" && in_package_section self then None
  else current_package self.
Proof.
  unfold handle_endtag.
  destruct (String.eqb tag "a" && in_package_section self); [|reflexivity].
  destruct (current_package self) eqn:E; cbn; trivial.
Qed.

Lemma handle_endtag_known self tag :
  versions_known self -> versions_known (handle_endtag self tag).
Proof.
  intros [Hres Hcur]. split.
  - rewrite handle_endtag_results.
    destruct (String.eqb tag "a" && in_package_section self); trivial.
    destruct (current_package self) as [p|] eqn:Ep; trivial.
    apply Forall_app. split; trivial. constructor; [|constructor]. cbn.
    destruct (p_version p) as [v|] eqn:Ev; cbn; [eauto|discriminate].
  - rewrite handle_endtag_package.
    destruct (String.eqb tag "a" && in_package_section self); [discriminate|exact Hcur].
Qed.

Lemma feed_known events : forall self self',
  versions_known self -> feed self events = Ok self' -> versions_known self'.
Proof.
  induction events as [|e rest IH]; intros self self' Hk H; cbn [feed] in H.
  - now injection H as <-.
  - destruct (handle self e) as [s1|err] eqn:E1; cbn [bind] in H; [|discriminate H].
    apply (IH s1); trivial.
    destruct e as [tag attrs|tag|data]; cbn [handle] in E1.
    + eapply handle_starttag_known; eassumption.
    + injection E1 as <-. now apply handle_endtag_known.
    + injection E1 as <-. now apply handle_data_known.
Qed.

Lemma new_parser_known : versions_known new_parser.
Proof. split; [constructor|discriminate]. Qed.

Lemma feed_app l1 : forall l2 self,
  feed self (l1 ++ l2) = let* s := feed self l1 in feed s l2.
Proof.
  induction l1 as [|e l1 IH]; intros l2 self; cbn [feed app bind]; [reflexivity|].
  destruct (handle self e); cbn [bind]; [apply IH|reflexivity].
Qed.

Lemma handle_endtag_section self tag :
  in_package_section (handle_endtag self tag) =
  if String.eqb tag "a" && in_package_section self then false
  else in_package_section self.
Proof.
  unfold handle_endtag.
  destruct (String.eqb tag "a" && in_package_section self); reflexivity.
Qed.

Lemma handle_endtag_tag self tag : current_tag (handle_endtag self tag) = None.
Proof. reflexivity. Qed.

(** Inside a container whose package has no version yet, events that
    bear no version leave the results alone and the version unset. *)
Lemma inside_container mid : forall self self' p,
  feed self mid = Ok self' ->
  no_version_inside (current_tag self) mid = true ->
  in_package_section self = true ->
  current_package self = Some p ->
  p_version p = None ->
  results self' = results self /\
  in_package_section self' = true /\
  exists p', current_package self' = Some p' /\
             p_name p' = p_name p /\ p_version p' = None.
Proof.
  induction mid as [|e rest IH]; intros self self' p H Hno Hsec Hp Hv.
  - injection H as <-. repeat split; trivial. now exists p.
  - cbn [feed] in H.
    destruct (handle self e) as [s1|err] eqn:E1; cbn [bind] in H; [|discriminate H].
    destruct e as [tag attrs|tag|data]; cbn [handle] in E1;
      cbn [no_version_inside] in Hno; apply andb_prop in Hno as [Hhere Hrest].
    + apply negb_true_iff in Hhere.
      assert (Hne : tag <> "a") by (intros ->; discriminate Hhere).
      apply handle_starttag_effect in E1 as (Hr & Ht & Hc).
      destruct Hc as [[Hc Hs]|(Ha & _)]; [|contradiction].
      rewrite <- Ht in Hrest.
      destruct (IH s1 self' p H Hrest) as (Hr' & Hs' & Hp').
      * rewrite (Hs Hne). exact Hsec.
      * now rewrite Hc.
      * exact Hv.
      * rewrite Hr in Hr'. auto.
    + injection E1 as <-. apply negb_true_iff in Hhere.
      rewrite <- (handle_endtag_tag self tag) in Hrest.
      destruct (IH _ self' p H Hrest) as (Hr' & Hs' & Hp').
      * rewrite handle_endtag_section, Hhere. exact Hsec.
      * rewrite handle_endtag_package, Hhere. exact Hp.
      * exact Hv.
      * rewrite handle_endtag_results, Hhere in Hr'. auto.
    + injection E1 as <-.
      destruct (handle_data_effect self data) as (Hr & Hs & Ht & Hc).
      rewrite <- Ht in Hrest.
      destruct Hc as [Hsame|[(m & q & Hspan & Hm & _)|(q & text & Hq & Hnew)]].
      * destruct (IH _ self' p H Hrest) as (Hr' & Hs' & Hp'); try congruence.
        repeat split; trivial. congruence.
      * rewrite Hspan, Hm in Hhere. discriminate Hhere.
      * rewrite Hp in Hq. injection Hq as <-.
        destruct (IH _ self'
                    (MkPackage (p_name p) (p_href p) (p_version p) (Some text))
                    H Hrest) as (Hr' & Hs' & Hp');
          [congruence|exact Hnew|exact Hv|].
        repeat split; trivial. congruence.
Qed.

(** The start tag of a container opens a fresh package. *)
Lemma handle_starttag_container self attrs cls href m :
  attr attrs "class" = Some (Some cls) ->
  Str.mem "package-snippet" (Str.split cls) || Str.mem "snippet" (Str.split cls)
    = true ->
  attr attrs "href" = Some (Some href) ->
  search false project_re href = Some m ->
  handle_starttag self "a" attrs
  = Ok (MkParser (results self) (Some (MkPackage (group 1 m) href None None))
          true (Some "a") (current_data self)).
Proof.
  intros Hcls Hmem Hhref Hm. unfold handle_starttag.
  rewrite Hcls. cbn [String.eqb Ascii.eqb Bool.eqb].
  assert (Hc : (if String.eqb cls "" then [] else Str.split cls) = Str.split cls).
  { destruct (String.eqb cls "") eqn:E; [|reflexivity].
    apply String.eqb_eq in E. now subst. }
  rewrite Hc, Hmem, Hhref. cbn [bind]. now rewrite Hm.
Qed.

Lemma firstn_in {X : Type} n (l : list X) x : In x (firstn n l) -> In x l.
Proof.
  revert l. induction n as [|n IH]; intros [|y t]; simpl; try contradiction.
  intros [->|H]; [now left|right; auto].
Qed.

Lemma slice_to_in {X : Type} n (l : list X) x : In x (slice_to n l) -> In x l.
Proof. unfold slice_to. destruct (n <? 0)%Z; apply firstn_in. Qed.

(** The structured extractor never emits the placeholder unknown: a
    container it recognizes, inside which no text of a span holds a
    match of the version pattern, is emitted with the empty text as its
    version, every version it does emit is a match of the version
    pattern, and a result of [search_packages] whose version is unknown
    comes from the fallback extractor. *)
Theorem structured_version_empty_not_unknown :
  (forall self attrs cls href m mid self',
     attr attrs "class" = Some (Some cls) ->
     Str.mem "package-snippet" (Str.split cls) || Str.mem "snippet" (Str.split cls)
       = true ->
     attr attrs "href" = Some (Some href) ->
     search false project_re href = Some m ->
     no_version_inside (Some "a") mid = true ->
     feed self (StartTag "a" attrs :: mid ++ [EndTag "a"]) = Ok self' ->
     exists summary,
       results self'
       = results self ++ [MkSearchResult (group 1 m) "" summary None]) /\
  (forall events self,
     feed new_parser events = Ok self ->
     Forall (fun r => sr_version r <> "unknown") (results self)) /\
  (forall html_events transport self query limit found r,
     search_packages html_events transport self query limit = Ok found ->
     In r found ->
     sr_version r = "unknown" ->
     exists status_code text body,
       transport (search_request query) = Responded status_code text body /\
       found = _fallback_search_parse text limit).
Proof.
  split; [|split].
  - intros self attrs cls href m mid self' Hcls Hmem Hhref Hm Hno H.
    cbn [feed handle] in H.
    rewrite (handle_starttag_container self attrs cls href m Hcls Hmem Hhref Hm) in H.
    cbn [bind] in H. rewrite feed_app in H.
    match type of H with
    | bind (feed ?s mid) _ = _ =>
        destruct (feed s mid) as [s2|err] eqn:E2; cbn [bind] in H; [|discriminate H];
        destruct (inside_container mid s _ _ E2 Hno eq_refl eq_refl eq_refl)
          as (Hr & Hs & p' & Hp' & Hn & Hv)
    end.
    cbn [feed handle bind] in H. injection H as <-.
    exists (p_summary p').
    rewrite handle_endtag_results, Hs, Hp', Hr, Hn, Hv. reflexivity.
  - intros events self H.
    now destruct (feed_known events _ _ new_parser_known H).
  - intros html_events transport self query limit found r H Hin Hu.
    unfold search_packages in H. fold (search_request query) in H.
    destruct (transport (search_request query)) as [status_code text body|e];
      [|discriminate H].
    destruct (raise_for_status status_code); cbn [bind] in H; [|discriminate H].
    destruct (feed new_parser (html_events text)) as [p|err] eqn:Ef;
      cbn [bind] in H; [|discriminate H].
    destruct (slice_to limit (results p)) as [|r0 rs] eqn:Es; injection H as <-.
    + now exists status_code, text, body.
    + exfalso. rewrite <- Es in Hin. apply slice_to_in in Hin.
      destruct (feed_known _ _ _ new_parser_known Ef) as [Hall _].
      rewrite Forall_forall in Hall. exact (Hall r Hin Hu).
Qed.

Lemma structured_version_empty_not_unknown_witness :
  feed new_parser (StartTag "a" snippet_attrs :: snippet_inside ++ [EndTag "a"])
    = Ok snippet_parsed /\
  exists summary,
    results snippet_parsed
    = results new_parser ++ [MkSearchResult "foo" "" summary None].
Proof.
  assert (H : feed new_parser
                (StartTag "a" snippet_attrs :: snippet_inside ++ [EndTag "a"])
              = Ok snippet_parsed) by (vm_compute; reflexivity).
  split; [exact H|].
  exact (proj1 structured_version_empty_not_unknown new_parser snippet_attrs
           "package-snippet" "/project/foo/" snippet_match snippet_inside
           snippet_parsed eq_refl eq_refl eq_refl eq_refl eq_refl H).
Defined.

(** C10 at a container with no version element, whose one element is
    the name of the project: the dotted number in the name is emitted as
    the version. *)
Theorem version_taken_from_name html_events self query :
  html_events named_page = named_events ->
  search_packages html_events named_transport self query 20
  = Ok [MkSearchResult "oauth2.0-client" "2.0" None None].
Proof.
  intros H. unfold search_packages, named_transport. cbn [raise_for_status].
  cbn [bind Z.leb Z.compare Pos.compare Pos.compare_cont andb].
  rewrite H. vm_compute. reflexivity.
Qed.

Lemma version_taken_from_name_witness :
  feed new_parser named_events
    = Ok (MkParser [MkSearchResult "oauth2.0-client" "2.0" None None]
            None false None []) /\
  search_packages (fun _ => named_events) named_transport (new_crawler None true)
    "oauth" 20
  = Ok [MkSearchResult "oauth2.0-client" "2.0" None None].
Proof.
  split; [vm_compute; reflexivity|].
  exact (version_taken_from_name (fun _ => named_events) (new_crawler None true)
           "oauth" eq_refl).
Defined.

(** With a limit of 0 or less the fallback returns the first link it
    finds, whatever the page. *)
Lemma fallback_limit_zero html limit m rest :
  finditer false fallback_re html = m :: rest ->
  (limit <= 0)%Z ->
  exists r, _fallback_search_parse html limit = [r] /\ sr_name r = group 1 m.
Proof.
  intros Hm Hl. unfold _fallback_search_parse. rewrite Hm.
  cbn [fallback_loop Str.mem existsb app List.length].
  replace (Z.of_nat 1 >=? limit)%Z with true
    by (symmetry; apply Z.geb_le; lia).
  eexists. split; reflexivity.
Qed.

(** C3, at a page with one project link and the limit 0: the slice of
    the structured results is empty, the fallback runs, and its loop
    tests the limit only after it has added a result; one result is
    returned, not none. *)
Theorem search_limit_zero_returns_one html_events self query p :
  feed new_parser (html_events link_page) = Ok p ->
  search_packages html_events link_transport self query 0
  = Ok [MkSearchResult "foo" "unknown" None None].
Proof.
  intros H. unfold search_packages, link_transport. cbn [raise_for_status].
  cbn [bind Z.leb Z.compare Pos.compare Pos.compare_cont andb].
  rewrite H. cbn [bind]. unfold slice_to. cbn [Z.ltb Z.compare Z.to_nat firstn].
  vm_compute. reflexivity.
Qed.

Lemma search_limit_zero_returns_one_witness :
  feed new_parser link_events = Ok (MkParser [] None false None []) /\
  search_packages (fun _ => link_events) link_transport (new_crawler None true)
    "foo" 0
  = Ok [MkSearchResult "foo" "unknown" None None].
Proof.
  split; [reflexivity|].
  exact (search_limit_zero_returns_one (fun _ => link_events)
           (new_crawler None true) "foo" _ eq_refl).
Defined.

(* ================================================================== *)
(** * Reading a project: absence, errors and fields *)
(* ================================================================== *)

Lemma package_exists_false transport self package_name :
  package_exists transport self package_name = Ok false <->
  get_package_json transport self package_name None = Ok JNull.
Proof.
  unfold package_exists.
  destruct (get_package_json transport self package_name None) as [v|e];
    cbn [bind]; split; intros H; try discriminate H.
  - destruct v; try discriminate H. reflexivity.
  - now injection H as ->.
Qed.

(** X1: Absence is reported alike by every read of a project: when
    [package_exists] answers [False], and only then,
    [get_package_info] returns [None]; and then [verify_package_name]
    answers [False], [get_package_metadata] returns [None], and
    [get_package_dependencies] and [get_package_versions] return the
    empty list. *)
Theorem absent_is_consistent py_str transport self package_name :
  (package_exists transport self package_name = Ok false <->
   get_package_info py_str transport self package_name None = Ok None) /\
  (package_exists transport self package_name = Ok false ->
   verify_package_name transport self package_name = Ok false /\
   get_package_metadata transport self package_name None = Ok JNull /\
   get_package_dependencies transport self package_name None = Ok [] /\
   get_package_versions transport self package_name = Ok []).
Proof.
  split; [split|]; intros H.
  - apply package_exists_false in H. unfold get_package_info. now rewrite H.
  - apply package_exists_false. unfold get_package_info in H.
    destruct (get_package_json transport self package_name None) as [v|e];
      cbn [bind] in H; [|discriminate H].
    destruct v; trivial;
      match type of H with
      | match ?x with _ => _ end = _ => destruct x; discriminate H
      end.
  - pose proof H as Hj. apply package_exists_false in Hj.
    unfold verify_package_name, get_package_dependencies, get_package_metadata,
      get_package_versions.
    rewrite Hj. cbn [bind]. auto.
Qed.

Lemma absent_is_consistent_witness :
  package_exists absent_transport (new_crawler None true) "nope" = Ok false /\
  get_package_info (fun _ => "") absent_transport (new_crawler None true) "nope" None
    = Ok None /\
  get_package_versions absent_transport (new_crawler None true) "nope" = Ok [].
Proof.
  assert (H : package_exists absent_transport (new_crawler None true) "nope"
              = Ok false) by reflexivity.
  destruct (absent_is_consistent (fun _ => "") absent_transport
              (new_crawler None true) "nope") as [[H1 _] H2].
  split; [exact H|]. split; [exact (H1 H)|]. exact (proj2 (proj2 (proj2 (H2 H)))).
Defined.

(** [from_json] on a response whose info is a dictionary, its reads of
    the info done. *)
Lemma from_json_obj py_str data info :
  get_default data "info" (JObj []) = JObj info ->
  from_json py_str (JObj data) =
  let releases := get_default data "releases" (JObj []) in
  let requires_dist := get_default info "requires_dist" (JArr []) in
  let* version :=
    if truthy releases then
      let* ks := py_keys releases in
      match sorted_reverse ks with
      | v :: _ => Ok (JStr v)
      | [] => Ok (get_default info "version" (JStr ""))
      end
    else Ok (get_default info "version" (JStr "")) in
  let* dependencies :=
    if truthy requires_dist then py_iter requires_dist else Ok [] in
  let* homepage :=
    py_get (py_or (get_default info "project_urls" (JObj [])) (JObj []))
      "Homepage" JNull in
  Ok (MkPackageInfo (get_default info "name" (JStr "")) version
        (get_default info "summary" JNull)
        (get_default info "description" JNull)
        (get_default info "author" JNull)
        (get_default info "license" JNull)
        (py_or homepage (get_default info "home_page" JNull))
        (py_or (get_default info "project_url" JNull)
           (JStr ("https://pypi.org/project/"
                  ++ format_value py_str (get_default info "name" (JStr "")) ++ "/")))
        (get_default info "requires_python" JNull) dependencies).
Proof.
  intros Hi. unfold from_json. rewrite !py_get_obj. cbn [bind]. rewrite Hi.
  rewrite !py_get_obj. cbn [bind]. cbv zeta.
  destruct (truthy (get_default data "releases" (JObj []))).
  - destruct (py_keys (get_default data "releases" (JObj []))) as [ks|e];
      cbn [bind]; [|reflexivity].
    destruct (sorted_reverse ks); reflexivity.
  - reflexivity.
Qed.

Lemma from_json_info_not_dict py_str data :
  match get_default data "info" (JObj []) with
  | JObj _ => True
  | _ => forall p, from_json py_str (JObj data) <> Ok p
  end.
Proof.
  destruct (get_default data "info" (JObj [])) as [|b|z|s|l|m] eqn:Hi; trivial;
    intros p H; unfold from_json in H; rewrite !py_get_obj in H;
    cbn [bind] in H; rewrite Hi in H;
    (destruct (truthy (get_default data "releases" (JObj [])));
     [destruct (py_keys (get_default data "releases" (JObj []))) as [ks|e];
      cbn [bind] in H; [destruct (sorted_reverse ks)|]|]);
    cbn [py_get bind] in H; discriminate H.
Qed.

Lemma iterable_or_false_iter_iff v :
  (exists l, (if truthy v then py_iter v else Ok []) = Ok l) <->
  iterable_or_false v = true.
Proof.
  split; [|apply iterable_or_false_iter].
  intros [l H]. destruct v as [|b|z|s|l'|m]; trivial; simpl in *.
  - destruct b; [discriminate H|reflexivity].
  - destruct (negb (z =? 0)%Z); [discriminate H|reflexivity].
Qed.

Lemma dict_or_false_get_iff v k d :
  (exists x, py_get (py_or v (JObj [])) k d = Ok x) <-> dict_or_false v = true.
Proof.
  split; [|apply dict_or_false_get].
  intros [x H]. unfold py_or in H.
  destruct v as [|b|z|s|l|m]; trivial; simpl in *.
  - destruct b; [discriminate H|reflexivity].
  - destruct (negb (z =? 0)%Z); [discriminate H|reflexivity].
  - destruct (negb (s =? "")%string); [discriminate H|reflexivity].
  - destruct l; [reflexivity|discriminate H].
Qed.

Lemma version_choice_ok info releases :
  (exists v,
     (if truthy releases then
        let* ks := py_keys releases in
        match sorted_reverse ks with
        | v :: _ => Ok (JStr v)
        | [] => Ok (get_default info "version" (JStr ""))
        end
      else Ok (get_default info "version" (JStr ""))) = Ok v) <->
  dict_or_false releases = true.
Proof.
  split.
  - intros [v H].
    destruct releases as [|b|z|s|l|m]; trivial; simpl in *.
    + destruct b; [discriminate H|reflexivity].
    + destruct (negb (z =? 0)%Z); [discriminate H|reflexivity].
    + destruct (negb (s =? "")%string); [discriminate H|reflexivity].
    + destruct l; [reflexivity|discriminate H].
  - intros H.
    destruct releases as [|b|z|s|l|m]; simpl in *; eauto.
    + destruct b; [discriminate H|eauto].
    + destruct (negb (z =? 0)%Z); [discriminate H|eauto].
    + destruct (negb (s =? "")%string); [discriminate H|eauto].
    + destruct l; [eauto|discriminate H].
    + destruct m as [|kv m]; [eauto|]. cbn [bind].
      destruct (sorted_reverse (keys (kv :: m))); eauto.
Qed.

(** X2: [from_json] returns a [PackageInfo] for exactly the responses whose
    info is a dictionary (or missing), whose release map is a dictionary
    or false, whose [requires_dist] is iterable or false and whose
    [project_urls] is a dictionary or false; on every other response it
    raises. *)
Theorem from_json_succeeds_iff py_str data :
  (exists p, from_json py_str (JObj data) = Ok p) <->
  readable_response data = true.
Proof.
  unfold readable_response, dict_or_false_releases, readable_info.
  pose proof (from_json_info_not_dict py_str data) as Hnot.
  destruct (get_default data "info" (JObj [])) as [|b|z|s|l|info] eqn:Hi;
    try (split; [intros [p Hp]; now apply Hnot in Hp|discriminate]).
  clear Hnot. rewrite (from_json_obj py_str data info Hi). cbv zeta.
  rewrite !andb_true_iff.
  rewrite <- (version_choice_ok info), <- iterable_or_false_iter_iff,
    <- (dict_or_false_get_iff _ "Homepage" JNull).
  split.
  - intros [p H].
    match type of H with
    | bind ?x _ = _ => destruct x as [v|e] eqn:Ev; cbn [bind] in H; [|discriminate H]
    end.
    match type of H with
    | bind ?x _ = _ => destruct x as [ds|e] eqn:Ed; cbn [bind] in H; [|discriminate H]
    end.
    match type of H with
    | bind ?x _ = _ => destruct x as [h|e] eqn:Eh; cbn [bind] in H; [|discriminate H]
    end.
    repeat split; eauto.
  - intros [[v Hv] [[ds Hd] [h Hh]]]. rewrite Hv, Hd, Hh. cbn [bind]. eauto.
Qed.

Lemma py_get_raise v k d e : py_get v k d = Raise e -> read_error e.
Proof.
  destruct v; simpl; intros H; try discriminate H;
    injection H as <-; left; eauto.
Qed.

Lemma py_keys_raise v e : py_keys v = Raise e -> read_error e.
Proof.
  destruct v; simpl; intros H; try discriminate H;
    injection H as <-; left; eauto.
Qed.

Lemma py_iter_raise v e : py_iter v = Raise e -> read_error e.
Proof.
  intros H. right. exists v.
  destruct v; cbn [py_iter] in H; try discriminate H; now injection H as <-.
Qed.

Lemma bind_raise {X Y : Type} (x : result X) (f : X -> result Y) e :
  bind x f = Raise e -> x = Raise e \/ exists a, x = Ok a /\ f a = Raise e.
Proof.
  destruct x as [a|e']; cbn [bind]; intros H; [right; eauto|].
  left. now injection H as ->.
Qed.

Ltac raise_inv H :=
  repeat (apply bind_raise in H as [H|(? & _ & H)]);
  try discriminate H;
  first [ now apply py_get_raise in H
        | now apply py_keys_raise in H
        | now apply py_iter_raise in H
        | idtac ].

(** [from_json] raises nothing but the errors of reading a value. *)
Lemma from_json_raise py_str data e :
  from_json py_str data = Raise e -> read_error e.
Proof.
  unfold from_json. intros H.
  apply bind_raise in H as [H|(info & _ & H)]; [now apply py_get_raise in H|].
  apply bind_raise in H as [H|(releases & _ & H)]; [now apply py_get_raise in H|].
  apply bind_raise in H as [H|(version & _ & H)].
  { destruct (truthy releases); [|now apply py_get_raise in H].
    apply bind_raise in H as [H|(ks & _ & H)]; [now apply py_keys_raise in H|].
    destruct (sorted_reverse ks); [now apply py_get_raise in H|discriminate H]. }
  apply bind_raise in H as [H|(rd & _ & H)]; [now apply py_get_raise in H|].
  apply bind_raise in H as [H|(deps & _ & H)].
  { destruct (truthy rd); [now apply py_iter_raise in H|discriminate H]. }
  repeat (apply bind_raise in H as [H|(? & _ & H)]; [now apply py_get_raise in H|]).
  discriminate H.
Qed.

Lemma contains_append_r (a x m : string) :
  contains x m -> contains (a ++ x)%string m.
Proof.
  intros (p & q & ->). exists (a ++ p)%string, q. now rewrite append_assoc.
Qed.

(** X3: What [get_package_info] does with each outcome of its request.
    A [RequestError] is raised as a [RuntimeError] from it, whose
    message names the package.  A status that is not a success gives
    [None] when it is 404 and is raised as its [HTTPStatusError]
    otherwise.  A success whose body [response.json()] rejects with a
    [JSONDecodeError] raises that error as it is.  On a success with a
    JSON body the only errors are an [AttributeError], as it was
    raised, and a [ValueError] raised from a [TypeError], whose message
    names the package and ends with the message of the [TypeError]. *)
Theorem get_package_info_errors py_str transport self package_name version :
  match transport (json_request package_name version) with
  | Responded status_code text body =>
      if is_success status_code then
        match body with
        | None =>
            get_package_info py_str transport self package_name version
            = Raise JSONDecodeError
        | Some data =>
            forall e,
              get_package_info py_str transport self package_name version
              = Raise e ->
              (exists ty attr, e = AttributeError ty attr) \/
              (exists msg cause,
                 e = ValueError msg (TypeError cause) /\
                 contains msg package_name /\ contains msg cause)
        end
      else if (status_code =? 404)%Z then
        get_package_info py_str transport self package_name version = Ok None
      else
        get_package_info py_str transport self package_name version
        = Raise (HTTPStatusError status_code)
  | Failed cause =>
      exists msg,
        get_package_info py_str transport self package_name version
        = Raise (RuntimeError msg (RequestError cause)) /\
        contains msg package_name
  end.
Proof.
  unfold get_package_info. rewrite get_package_json_request.
  destruct (transport (json_request package_name version))
    as [status_code text body|cause].
  - destruct (is_success status_code) eqn:Es.
    + rewrite (raise_for_status_success _ Es). cbn [bind].
      destruct body as [data|]; [|reflexivity].
      cbn [response_json on_status_error bind]. intros e H.
      assert (Hp : match from_json py_str data with
                   | Ok info => Ok (Some info)
                   | Raise e0 => Raise (parse_error package_name e0)
                   end = Raise e) by (destruct data; trivial; discriminate H).
      clear H. destruct (from_json py_str data) as [p|e0] eqn:Ef;
        [discriminate Hp|].
      injection Hp as <-.
      apply from_json_raise in Ef as [(ty & attr & ->)|(v & ->)].
      * cbn [parse_error]. left. eauto.
      * cbn [parse_error]. right. do 2 eexists. split; [reflexivity|]. split.
        -- apply contains_middle.
        -- do 2 apply contains_append_r. apply contains_end.
    + rewrite (raise_for_status_failure _ Es). cbn [bind].
      destruct (Z.eqb_spec status_code 404) as [->|Hne]; [reflexivity|].
      now rewrite on_status_error_other.
  - eexists. split; [reflexivity|].
    exists "Failed to fetch package info for "%string, (": " ++ cause)%string.
    reflexivity.
Qed.

Lemma get_package_info_errors_witness :
  exists msg cause,
    get_package_info (fun _ => "") bad_requires_transport (new_crawler None true)
      "demo" None = Raise (ValueError msg (TypeError cause)) /\
    contains msg "demo" /\ contains msg cause.
Proof.
  destruct (get_package_info_errors (fun _ => "") bad_requires_transport
              (new_crawler None true) "demo" None _ eq_refl)
    as [(ty & attr & He)|(msg & cause & He & Hn & Hc)]; [discriminate He|].
  injection He as <- <-.
  do 2 eexists. split; [reflexivity|]. split; assumption.
Defined.

Lemma from_json_ok_inv py_str data p :
  from_json py_str (JObj data) = Ok p ->
  exists info, get_default data "info" (JObj []) = JObj info.
Proof.
  intros H. pose proof (from_json_info_not_dict py_str data) as Hn.
  destruct (get_default data "info" (JObj [])) as [| | | | |info];
    try (now apply Hn in H). now exists info.
Qed.

Ltac from_json_fields H Hi :=
  rewrite (from_json_obj _ _ _ Hi) in H; cbv zeta in H;
  repeat match type of H with
  | bind ?x _ = Ok _ =>
      let E := fresh "E" in
      destruct x eqn:E; cbn [bind] in H; [|discriminate H]
  end;
  injection H as <-.

(** X4: The dependencies of a [PackageInfo] and the result of
    [get_package_dependencies] agree on a response whose [requires_dist]
    is a list, null or missing: both are that list, in its order and
    with its repetitions, or both are empty. *)
Theorem dependencies_agree py_str transport self package_name version
    status_code text data info p :
  transport (json_request package_name version)
    = Responded status_code text (Some (JObj data)) ->
  is_success status_code = true ->
  get_default data "info" (JObj []) = JObj info ->
  list_or_null (get_default info "requires_dist" JNull) = true ->
  get_package_info py_str transport self package_name version = Ok (Some p) ->
  get_package_dependencies transport self package_name version
    = Ok (dependencies p) /\
  dependencies p
    = match dict_get info "requires_dist" with
      | Some (JArr l) => l
      | _ => []
      end.
Proof.
  intros Ht Hs Hi Hl Hp.
  rewrite (get_package_info_success _ _ _ _ _ _ _ _ Ht Hs) in Hp.
  destruct (from_json py_str (JObj data)) as [q|e] eqn:Eq; [|discriminate Hp].
  injection Hp as ->.
  assert (Hd : get_package_dependencies transport self package_name version
               = match get_default info "requires_dist" JNull with
                 | JArr l => Ok l
                 | _ => Ok []
                 end).
  { unfold get_package_dependencies, get_package_metadata.
    rewrite (get_package_json_success _ _ _ _ _ _ _ Ht Hs).
    cbn [bind]. rewrite py_get_obj, Hi. reflexivity. }
  rewrite Hd. from_json_fields Eq Hi. cbn [dependencies].
  unfold get_default in *.
  destruct (dict_get info "requires_dist") as [[| | | |l|]|];
    try discriminate Hl; cbn in E0.
  - injection E0 as <-. auto.
  - destruct l; injection E0 as <-; auto.
  - injection E0 as <-. auto.
Qed.

Lemma dependencies_agree_witness :
  get_package_info (fun _ => "") release_transport (new_crawler None true)
    "demo" (Some "1.0") = Ok (Some release_info) /\
  get_package_dependencies release_transport (new_crawler None true)
    "demo" (Some "1.0") = Ok (dependencies release_info) /\
  dependencies release_info = [JStr "httpx>=0.27"; JStr "rich"].
Proof.
  split; [reflexivity|].
  exact (dependencies_agree (fun _ => "") release_transport
           (new_crawler None true) "demo" (Some "1.0") 200%Z "" release_data _
           release_info eq_refl eq_refl eq_refl eq_refl eq_refl).
Defined.

(** X5: The homepage of a [PackageInfo]: the Homepage entry of
    [project_urls] when [project_urls] is a dictionary and the entry is
    true, whatever [home_page] says; else the [home_page] field, [None]
    when it is missing. *)
Theorem homepage_precedence py_str data info p :
  get_default data "info" (JObj []) = JObj info ->
  from_json py_str (JObj data) = Ok p ->
  (forall urls h,
     dict_get info "project_urls" = Some (JObj urls) ->
     dict_get urls "Homepage" = Some h -> truthy h = true ->
     homepage_url p = h) /\
  (forall urls,
     dict_get info "project_urls" = Some (JObj urls) ->
     truthy (get_default urls "Homepage" JNull) = false ->
     homepage_url p = get_default info "home_page" JNull) /\
  (truthy (get_default info "project_urls" (JObj [])) = false ->
   homepage_url p = get_default info "home_page" JNull).
Proof.
  intros Hi H. from_json_fields H Hi. cbn [homepage_url].
  repeat split.
  - intros urls h Hu Hh Ht. unfold get_default in E1 at 1. rewrite Hu in E1.
    unfold py_or in E1 at 1.
    destruct (truthy (JObj urls)) eqn:Etu.
    + rewrite py_get_obj in E1. injection E1 as <-.
      unfold get_default at 1. rewrite Hh. unfold py_or. now rewrite Ht.
    + destruct urls; [discriminate Hh|discriminate Etu].
  - intros urls Hu Hf. unfold get_default in E1 at 1. rewrite Hu in E1.
    unfold py_or in E1 at 1.
    destruct (truthy (JObj urls)) eqn:Etu.
    + rewrite py_get_obj in E1. injection E1 as <-.
      unfold py_or. now rewrite Hf.
    + rewrite py_get_obj in E1. injection E1 as <-. reflexivity.
  - intros Hf. unfold py_or in E1 at 1. rewrite Hf in E1.
    rewrite py_get_obj in E1. injection E1 as <-. reflexivity.
Qed.

Lemma homepage_precedence_witness :
  from_json (fun _ => "") (JObj release_data) = Ok release_info /\
  homepage_url release_info = JStr "https://demo.example".
Proof.
  split; [reflexivity|].
  exact (proj1 (homepage_precedence (fun _ => "") release_data _ release_info
                  eq_refl eq_refl)
           [("Homepage", JStr "https://demo.example")] _ eq_refl eq_refl eq_refl).
Defined.

(** X6: Without a release map, or with an empty one, the version of a
    [PackageInfo] is the version the info declares (the empty text when
    it declares none): for a version-level response it is what the
    registry answered, not what was asked for. *)
Theorem version_without_releases py_str transport self package_name asked
    status_code text data info p :
  transport (json_request package_name asked)
    = Responded status_code text (Some (JObj data)) ->
  is_success status_code = true ->
  get_default data "info" (JObj []) = JObj info ->
  truthy (get_default data "releases" (JObj [])) = false ->
  get_package_info py_str transport self package_name asked = Ok (Some p) ->
  version p = get_default info "version" (JStr "").
Proof.
  intros Ht Hs Hi Hr Hp.
  rewrite (get_package_info_success _ _ _ _ _ _ _ _ Ht Hs) in Hp.
  destruct (from_json py_str (JObj data)) as [q|e] eqn:Eq; [|discriminate Hp].
  injection Hp as ->.
  rewrite (from_json_obj _ _ _ Hi) in Eq. cbv zeta in Eq. rewrite Hr in Eq.
  cbn [bind] in Eq.
  repeat match type of Eq with
  | bind ?x _ = Ok _ =>
      let E := fresh "E" in
      destruct x eqn:E; cbn [bind] in Eq; [|discriminate Eq]
  end.
  now injection Eq as <-.
Qed.

Lemma version_without_releases_witness :
  get_package_info (fun _ => "") release_transport (new_crawler None true)
    "demo" (Some "0.9") = Ok (Some release_info) /\
  version release_info = JStr "1.0".
Proof.
  split; [reflexivity|].
  exact (version_without_releases (fun _ => "") release_transport
           (new_crawler None true) "demo" (Some "0.9") 200%Z "" release_data _
           release_info eq_refl eq_refl eq_refl eq_refl eq_refl).
Defined.

(** X7: [get_package_versions] returns the keys of the release map and
    nothing else, each as often as it is a key; a response without
    release map gives the empty list. *)
Theorem versions_are_the_release_keys transport self package_name
    status_code text data :
  transport (project_request package_name)
    = Responded status_code text (Some (JObj data)) ->
  is_success status_code = true ->
  (forall rel,
     dict_get data "releases" = Some (JObj rel) ->
     exists vs,
       get_package_versions transport self package_name = Ok vs /\
       Permutation (keys rel) vs) /\
  (dict_get data "releases" = None ->
   get_package_versions transport self package_name = Ok []).
Proof.
  intros Ht Hs.
  assert (H : get_package_versions transport self package_name
              = let* ks := py_keys (get_default data "releases" (JObj [])) in
                Ok (sorted_reverse ks)).
  { unfold get_package_versions.
    rewrite (get_package_json_success transport self package_name None _ _ _ Ht Hs).
    cbn [bind]. now rewrite py_get_obj. }
  rewrite H. unfold get_default. split.
  - intros rel ->. eexists. split; [reflexivity|]. apply sorted_reverse_perm.
  - now intros ->.
Qed.

Lemma versions_are_the_release_keys_witness :
  exists vs,
    get_package_versions demo_transport (new_crawler None true) "demo" = Ok vs /\
    Permutation ["1.0"; "2.0"; "10.0"] vs.
Proof.
  exact (proj1 (versions_are_the_release_keys demo_transport
                  (new_crawler None true) "demo" 200%Z ""
                  [("info", JObj [("name", JStr "demo"); ("version", JStr "9.9")]);
                   ("releases", JObj [("1.0", JArr []); ("2.0", JArr []); ("10.0", JArr [])])]
                  eq_refl eq_refl)
           [("1.0", JArr []); ("2.0", JArr []); ("10.0", JArr [])] eq_refl).
Defined.

(* ================================================================== *)
(** * Searching: what the extractors return *)
(* ================================================================== *)

(** ** The fallback loop *)

Lemma mem_false_not_in x l : Str.mem x l = false -> ~ In x l.
Proof.
  unfold Str.mem. intros H Hin.
  assert (existsb (String.eqb x) l = true); [|congruence].
  apply existsb_exists. exists x. split; [exact Hin|apply String.eqb_refl].
Qed.

Lemma fallback_loop_length html limit ms : forall results seen,
  (Z.of_nat (List.length results) < limit)%Z ->
  (Z.of_nat (List.length (fallback_loop html limit ms results seen)) <= limit)%Z.
Proof.
  induction ms as [|m rest IH]; intros results seen Hlt; cbn [fallback_loop].
  - lia.
  - destruct (Str.mem (group 1 m) seen); [now apply IH|].
    match goal with
    | |- context [if (?a >=? limit)%Z then _ else _] =>
        destruct (a >=? limit)%Z eqn:E
    end.
    + rewrite length_app in *. cbn [List.length] in *. lia.
    + apply IH. rewrite Z.geb_leb in E. apply Z.leb_gt in E. exact E.
Qed.

Lemma fallback_loop_nodup html limit ms : forall results seen,
  NoDup (map sr_name results) ->
  (forall n, In n (map sr_name results) -> In n seen) ->
  NoDup (map sr_name (fallback_loop html limit ms results seen)).
Proof.
  induction ms as [|m rest IH]; intros results seen Hnd Hseen;
    cbn [fallback_loop]; trivial.
  destruct (Str.mem (group 1 m) seen) eqn:Em; [now apply IH|].
  apply mem_false_not_in in Em.
  match goal with
  | |- context [results ++ [?r]] => set (r0 := r)
  end.
  assert (Hnd' : NoDup (map sr_name (results ++ [r0]))).
  { rewrite map_app. cbn [map]. apply NoDup_app; trivial.
    - repeat constructor. intros [].
    - intros n Hn [<-|[]]. apply Em, Hseen, Hn. }
  destruct (Z.of_nat (List.length (results ++ [r0])) >=? limit)%Z; trivial.
  apply IH; trivial.
  intros n Hn. rewrite map_app in Hn. apply in_app_or in Hn as [Hn|[<-|[]]].
  - right. now apply Hseen.
  - now left.
Qed.

Lemma fallback_loop_from html limit ms : forall results seen r,
  In r (fallback_loop html limit ms results seen) ->
  In r results \/
  exists m, In m ms /\ sr_name r = group 1 m /\
            sr_summary r = None /\ sr_score r = None.
Proof.
  induction ms as [|m rest IH]; intros results seen r Hin;
    cbn [fallback_loop] in Hin; [now left|].
  assert (Hrest : forall results' seen',
            In r (fallback_loop html limit rest results' seen') ->
            (In r results' ->
             In r results \/
             exists m0, In m0 (m :: rest) /\ sr_name r = group 1 m0 /\
                        sr_summary r = None /\ sr_score r = None) ->
            In r results \/
            exists m0, In m0 (m :: rest) /\ sr_name r = group 1 m0 /\
                       sr_summary r = None /\ sr_score r = None).
  { intros results' seen' H Hres. apply IH in H as [H|(m0 & Hm0 & Hrest)]; auto.
    right. exists m0. split; [now right|exact Hrest]. }
  destruct (Str.mem (group 1 m) seen); [apply (Hrest _ _ Hin); auto|].
  match type of Hin with
  | context [results ++ [?r]] => set (r0 := r) in *
  end.
  assert (Hnew : In r (results ++ [r0]) ->
            In r results \/
            exists m0, In m0 (m :: rest) /\ sr_name r = group 1 m0 /\
                       sr_summary r = None /\ sr_score r = None).
  { intros H. apply in_app_or in H as [H|[<-|[]]]; auto.
    right. exists m. repeat split. now left. }
  destruct (Z.of_nat (List.length (results ++ [r0])) >=? limit)%Z; auto.
  now apply (Hrest _ _ Hin).
Qed.

Lemma fallback_loop_first html limit m rest :
  exists r rs,
    fallback_loop html limit (m :: rest) [] [] = r :: rs /\
    sr_name r = group 1 m.
Proof.
  cbn [fallback_loop Str.mem existsb app].
  match goal with
  | |- context [if ?b then _ else _] => destruct b
  end.
  - do 2 eexists. split; reflexivity.
  - assert (H : forall ms results seen r0 rs0,
              results = r0 :: rs0 ->
              exists rs, fallback_loop html limit ms results seen = r0 :: rs).
    { induction ms as [|m' ms IH]; intros results seen r0 rs0 ->;
        cbn [fallback_loop]; [eauto|].
      destruct (Str.mem (group 1 m') seen); [eapply IH; reflexivity|].
      match goal with
      | |- context [if ?b then _ else _] => destruct b
      end; [eexists; reflexivity|eapply IH; reflexivity]. }
    match goal with
    | |- context [fallback_loop html limit rest [?r0] ?seen] =>
        destruct (H rest [r0] seen r0 [] eq_refl) as [rs Hrs];
        exists r0, rs; split; [exact Hrs|reflexivity]
    end.
Qed.

(** ** What the link patterns capture *)

Lemma matches_star_notcls ic p w c c' :
  Matches ic (Star (NotCls p)) w c c' ->
  c' = c /\ Str.all (fun x => negb (cls_ok ic p x)) w = true.
Proof.
  intros H. remember (Star (NotCls p)) as r eqn:Er.
  induction H; try discriminate.
  - now split.
  - injection Er as ->. inversion H; subst.
    destruct (IHMatches2 eq_refl) as [-> Hall]. split; trivial.
    simpl. match goal with Hx : cls_ok _ _ _ = false |- _ => rewrite Hx end.
    exact Hall.
Qed.

Lemma matches_plus_notcls ic p w c c' :
  Matches ic (Plus (NotCls p)) w c c' ->
  c' = c /\ w <> "" /\ Str.all (fun x => negb (cls_ok ic p x)) w = true.
Proof.
  intros H. inv_cat H H1 H2. inversion H1; subst.
  apply matches_star_notcls in H2 as [-> Hall].
  split; trivial. split; [discriminate|].
  simpl. match goal with Hx : cls_ok _ _ _ = false |- _ => rewrite Hx end.
  exact Hall.
Qed.

Lemma all_impl (p q : ascii -> bool) s :
  (forall x, p x = true -> q x = true) -> Str.all p s = true -> Str.all q s = true.
Proof.
  intros Hpq. induction s as [|a t IH]; simpl; trivial.
  intros H. apply andb_prop in H as [Ha Ht]. now rewrite (Hpq _ Ha), IH.
Qed.

Lemma noneof_slash_lacks cs w :
  oneof cs "/"%char = true ->
  Str.all (fun x => negb (cls_ok false (oneof cs) x)) w = true ->
  Str.lacks "/" w = true.
Proof.
  intros Hs. unfold Str.lacks. apply all_impl. intros x Hx.
  apply negb_true_iff in Hx. apply negb_true_iff.
  destruct (Ascii.eqb x "/") eqn:E; trivial.
  apply Ascii.eqb_eq in E. subst x. cbn [cls_ok] in Hx. congruence.
Qed.

(** The project name [project_re] captures. *)
Lemma project_re_search href m :
  search false project_re href = Some m -> name_ok (group 1 m).
Proof.
  intros H. apply search_from_sound in H as (pre & w & rest & _ & Hm & _).
  unfold project_re in Hm.
  inv_cat Hm Hlit R1. apply (matches_lit_exact "/project/") in Hlit as [-> _].
  inv_cat R1 Hg Hslash. inv_group Hg Hname. inv_chr Hslash.
  apply matches_plus_notcls in Hname as [-> [Hne Hall]].
  unfold group. match goal with Hc : _ = m_caps m |- _ => rewrite <- Hc end.
  cbn [lookup Nat.eqb]. split; [exact Hne|].
  now apply (noneof_slash_lacks "/").
Qed.

(** The project name [fallback_re] captures. *)
Lemma fallback_re_matches w c :
  Matches false fallback_re w [] c ->
  exists name text, c = [(2, text); (1, name)] /\ name_ok name.
Proof.
  unfold fallback_re. intros H.
  inv_cat H Hhref R1. apply (matches_lit_exact "href=") in Hhref as [-> _].
  inv_cat R1 Hq R2. inv_chr Hq.
  inv_cat R2 Hproj R3. apply (matches_lit_exact "/project/") in Hproj as [-> _].
  inv_cat R3 Hg R4. inv_group Hg Hname.
  apply matches_plus_notcls in Hname as [-> [Hne Hall]].
  inv_cat R4 Hslash R5. inv_chr Hslash.
  inv_cat R5 Hpath R6. apply matches_star_notcls in Hpath as [-> _].
  inv_cat R6 Hq R7. inv_chr Hq.
  inv_cat R7 Hattrs R8. apply matches_star_notcls in Hattrs as [-> _].
  inv_cat R8 Hgt R9. inv_chr Hgt.
  inv_cat R9 Hg Hclose. inv_group Hg Htext.
  apply matches_plus_notcls in Htext as [-> _].
  apply (matches_lit_exact "</a>") in Hclose as [-> _].
  do 2 eexists. split; [reflexivity|]. split; [exact Hne|].
  now apply (noneof_slash_lacks (String "/" quote)).
Qed.

Lemma finditer_from_in ic r m : forall fuel pos s,
  In m (finditer_from fuel ic r pos s) ->
  exists pos' s', search_from ic r pos' s' = Some m.
Proof.
  induction fuel as [|fuel IH]; intros pos s Hin; cbn [finditer_from] in Hin;
    [contradiction|].
  destruct (search_from ic r pos s) as [m0|] eqn:Es; [|contradiction].
  destruct Hin as [<-|Hin]; [eauto|].
  cbv zeta in Hin.
  match type of Hin with
  | In _ (if ?b then _ else _) => destruct b; [contradiction|]
  end.
  now apply IH in Hin.
Qed.

Lemma fallback_match_name html m :
  In m (finditer false fallback_re html) -> name_ok (group 1 m).
Proof.
  intros Hin. apply finditer_from_in in Hin as (pos & s & Hs).
  apply search_from_sound in Hs as (pre & w & rest & _ & Hm & _).
  apply fallback_re_matches in Hm as (name & text & Hc & Hok).
  unfold group. now rewrite Hc.
Qed.

(** ** The structured extractor *)

Lemma handle_starttag_package self tag attrs self' :
  handle_starttag self tag attrs = Ok self' ->
  current_package self' = current_package self \/
  exists href m,
    search false project_re href = Some m /\
    current_package self' = Some (MkPackage (group 1 m) href None None).
Proof.
  intros H. pose proof H as He. apply handle_starttag_effect in He as (_ & _ & He).
  destruct He as [[Hsame _]|(-> & _ & name & href & Hnew)]; [now left|].
  unfold handle_starttag in H.
  match type of H with
  | (if ?b then _ else _) = _ => destruct b eqn:Econt
  end.
  - match type of H with
    | bind ?x _ = _ => destruct x as [h|e]; cbn [bind] in H; [|discriminate H]
    end.
    destruct (search false project_re h) as [m|] eqn:Em; injection H as <-.
    + right. now exists h, m.
    + now left.
  - cbn [String.eqb Ascii.eqb Bool.eqb andb bind] in H.
    injection H as <-. now left.
Qed.

Lemma handle_starttag_names self tag attrs self' :
  names_ok self -> handle_starttag self tag attrs = Ok self' -> names_ok self'.
Proof.
  intros [Hres Hcur] H. pose proof H as He.
  apply handle_starttag_effect in He as (Hr & _ & _).
  split; [now rewrite Hr|].
  intros p Hp. apply handle_starttag_package in H as [Hsame|(href & m & Hm & Hnew)].
  - rewrite Hsame in Hp. auto.
  - rewrite Hnew in Hp. injection Hp as <-. cbn [p_name].
    eapply project_re_search; eassumption.
Qed.

Lemma handle_data_names self data :
  names_ok self -> names_ok (handle_data self data).
Proof.
  intros [Hres Hcur].
  destruct (handle_data_effect self data) as (Hr & _ & _ & Hp).
  split; [now rewrite Hr|].
  intros p Hp'.
  destruct Hp as [Hsame|[(m & q & _ & _ & Hq & Hnew)|(q & text & Hq & Hnew)]].
  - rewrite Hsame in Hp'. auto.
  - rewrite Hnew in Hp'. injection Hp' as <-. cbn [p_name]. auto.
  - rewrite Hnew in Hp'. injection Hp' as <-. cbn [p_name]. auto.
Qed.

Lemma handle_endtag_names self tag :
  names_ok self -> names_ok (handle_endtag self tag).
Proof.
  intros [Hres Hcur]. split.
  - rewrite handle_endtag_results.
    destruct (String.eqb tag "a" && in_package_section self); trivial.
    destruct (current_package self) as [p|] eqn:Ep; trivial.
    apply Forall_app. split; trivial. constructor; [|constructor].
    cbn [sr_name]. auto.
  - rewrite handle_endtag_package.
    destruct (String.eqb tag "a" && in_package_section self); [discriminate|exact Hcur].
Qed.

Lemma feed_names events : forall self self',
  names_ok self -> feed self events = Ok self' -> names_ok self'.
Proof.
  induction events as [|e rest IH]; intros self self' Hk H; cbn [feed] in H.
  - now injection H as <-.
  - destruct (handle self e) as [s1|err] eqn:E1; cbn [bind] in H; [|discriminate H].
    apply (IH s1); trivial.
    destruct e as [tag attrs|tag|data]; cbn [handle] in E1.
    + eapply handle_starttag_names; eassumption.
    + injection E1 as <-. now apply handle_endtag_names.
    + injection E1 as <-. now apply handle_data_names.
Qed.

Lemma new_parser_names : names_ok new_parser.
Proof. split; [constructor|discriminate]. Qed.

(** X8: The extractor only ever adds results: what it had found stays, in
    its order, and at most one result is added for each closing anchor
    tag among the events. *)
Theorem feed_only_appends events : forall self self',
  feed self events = Ok self' ->
  exists added,
    results self' = results self ++ added /\
    List.length added <= count_end_anchors events.
Proof.
  induction events as [|e rest IH]; intros self self' H; cbn [feed] in H.
  - injection H as <-. exists []. now rewrite app_nil_r.
  - destruct (handle self e) as [s1|err] eqn:E1; cbn [bind] in H; [|discriminate H].
    apply IH in H as (added & Hr & Hlen).
    destruct e as [tag attrs|tag|data]; cbn [handle] in E1;
      cbn [count_end_anchors].
    + apply handle_starttag_effect in E1 as (Hr1 & _). rewrite Hr1 in Hr. eauto.
    + injection E1 as <-. rewrite handle_endtag_results in Hr.
      destruct (String.eqb tag "a") eqn:Ea; cbn [andb] in Hr.
      * destruct (in_package_section self);
          [destruct (current_package self) as [p|]|].
        -- rewrite <- app_assoc in Hr. eexists. split; [exact Hr|].
           cbn [app List.length]. lia.
        -- exists added. split; [exact Hr|lia].
        -- exists added. split; [exact Hr|lia].
      * exists added. split; [exact Hr|lia].
    + injection E1 as <-.
      destruct (handle_data_effect self data) as (Hr1 & _). rewrite Hr1 in Hr. eauto.
Qed.

(** ** [search_packages] *)

Lemma search_packages_request html_events transport self query limit :
  search_packages html_events transport self query limit =
  match transport (search_request query) with
  | Responded status_code text _ =>
      let* _ := raise_for_status status_code in
      let* parser := feed new_parser (html_events text) in
      match slice_to limit (results parser) with
      | [] => Ok (_fallback_search_parse text limit)
      | found => Ok found
      end
  | Failed e =>
      Raise (RuntimeError ("Failed to search packages: " ++ e)%string
               (RequestError e))
  end.
Proof.
  unfold search_packages, search_request.
  destruct (transport _); [|reflexivity].
  destruct (raise_for_status status_code); cbn [bind]; [|reflexivity].
  destruct (feed new_parser (html_events text)); cbn [bind]; [|reflexivity].
  now destruct (slice_to limit (results a0)).
Qed.

Lemma search_packages_ok html_events transport self query limit found :
  search_packages html_events transport self query limit = Ok found ->
  exists status_code text body parser,
    transport (search_request query) = Responded status_code text body /\
    is_success status_code = true /\
    feed new_parser (html_events text) = Ok parser /\
    (found = slice_to limit (results parser) /\ found <> [] \/
     found = _fallback_search_parse text limit /\
     slice_to limit (results parser) = []).
Proof.
  rewrite search_packages_request. intros H.
  destruct (transport (search_request query)) as [status_code text body|e];
    [|discriminate H].
  destruct (is_success status_code) eqn:Es.
  - rewrite (raise_for_status_success _ Es) in H. cbn [bind] in H.
    destruct (feed new_parser (html_events text)) as [p|err] eqn:Ef;
      cbn [bind] in H; [|discriminate H].
    exists status_code, text, body, p. repeat split; trivial.
    destruct (slice_to limit (results p)) as [|r rs] eqn:El; injection H as <-.
    + right. auto.
    + left. split; [reflexivity|discriminate].
  - rewrite (raise_for_status_failure _ Es) in H. discriminate H.
Qed.

Lemma slice_to_length {X : Type} limit (l : list X) :
  (0 <= limit)%Z -> (Z.of_nat (List.length (slice_to limit l)) <= limit)%Z.
Proof.
  intros Hl. unfold slice_to.
  replace (limit <? 0)%Z with false by (symmetry; apply Z.ltb_ge; lia).
  pose proof (firstn_le_length (Z.to_nat limit) l). lia.
Qed.

(** X9: No search has an absent result: a status that is not a success,
    404 included, is raised as the [HTTPStatusError] of that status, and
    a network failure as a [RuntimeError] from the [RequestError]; on a
    success the only errors are those of the extractor. *)
Theorem search_packages_errors html_events transport self query limit :
  match transport (search_request query) with
  | Responded status_code text _ =>
      if is_success status_code then
        forall e,
          search_packages html_events transport self query limit = Raise e ->
          feed new_parser (html_events text) = Raise e
      else
        search_packages html_events transport self query limit
        = Raise (HTTPStatusError status_code)
  | Failed cause =>
      search_packages html_events transport self query limit
      = Raise (RuntimeError ("Failed to search packages: " ++ cause)%string
                 (RequestError cause))
  end.
Proof.
  rewrite search_packages_request.
  destruct (transport (search_request query)) as [status_code text body|cause];
    [|reflexivity].
  destruct (is_success status_code) eqn:Es.
  - rewrite (raise_for_status_success _ Es). cbn [bind]. intros e H.
    destruct (feed new_parser (html_events text)) as [p|err];
      cbn [bind] in H; [|now injection H as ->].
    destruct (slice_to limit (results p)); discriminate H.
  - now rewrite (raise_for_status_failure _ Es).
Qed.

(** X10: With a limit of at least 1, [search_packages] returns at most
    [limit] results, from either extractor. *)
Theorem search_results_bounded html_events transport self query limit found :
  (1 <= limit)%Z ->
  search_packages html_events transport self query limit = Ok found ->
  (Z.of_nat (List.length found) <= limit)%Z.
Proof.
  intros Hl H.
  apply search_packages_ok in H
    as (st & text & body & p & _ & _ & _ & [[-> _]|[-> _]]).
  - apply slice_to_length. lia.
  - unfold _fallback_search_parse. apply fallback_loop_length. cbn. lia.
Qed.

Lemma search_results_bounded_witness :
  search_packages (fun _ => links_events) links_transport (new_crawler None true) "foo" 1
    = Ok [MkSearchResult "foo" "1.2.3" None None] /\
  (Z.of_nat (List.length [MkSearchResult "foo" "1.2.3" None None]) <= 1)%Z.
Proof.
  assert (H : search_packages (fun _ => links_events) links_transport
                (new_crawler None true) "foo" 1
              = Ok [MkSearchResult "foo" "1.2.3" None None])
    by (vm_compute; reflexivity).
  split; [exact H|].
  exact (search_results_bounded (fun _ => links_events) links_transport
           (new_crawler None true) "foo" 1 _ ltac:(lia) H).
Defined.

(** X11: The fallback extractor returns each project once: the names of its
    results are pairwise distinct, whatever the page and the limit. *)
Theorem fallback_names_distinct html limit :
  NoDup (map sr_name (_fallback_search_parse html limit)).
Proof.
  unfold _fallback_search_parse. apply fallback_loop_nodup.
  - constructor.
  - intros n [].
Qed.

(** X12: Every result of [search_packages], from either extractor, has a name
    that is not empty and contains no slash. *)
Theorem search_names_well_formed html_events transport self query limit found :
  search_packages html_events transport self query limit = Ok found ->
  Forall (fun r => name_ok (sr_name r)) found.
Proof.
  intros H.
  apply search_packages_ok in H
    as (st & text & body & p & _ & _ & Hf & [[-> _]|[-> _]]).
  - destruct (feed_names _ _ _ new_parser_names Hf) as [Hall _].
    rewrite Forall_forall in *. intros r Hr. apply Hall.
    now apply slice_to_in in Hr.
  - rewrite Forall_forall. intros r Hr. unfold _fallback_search_parse in Hr.
    apply fallback_loop_from in Hr as [[]|(m & Hm & -> & _)].
    now apply (fallback_match_name text).
Qed.

Lemma search_names_well_formed_witness :
  search_packages (fun _ => links_events) links_transport (new_crawler None true) "foo" 5
    = Ok [MkSearchResult "foo" "1.2.3" None None;
          MkSearchResult "bar" "unknown" None None] /\
  Forall (fun r => name_ok (sr_name r))
    [MkSearchResult "foo" "1.2.3" None None;
     MkSearchResult "bar" "unknown" None None].
Proof.
  assert (H : search_packages (fun _ => links_events) links_transport
                (new_crawler None true) "foo" 5
              = Ok [MkSearchResult "foo" "1.2.3" None None;
                    MkSearchResult "bar" "unknown" None None])
    by (vm_compute; reflexivity).
  split; [exact H|].
  exact (search_names_well_formed (fun _ => links_events) links_transport
           (new_crawler None true) "foo" 5 _ H).
Defined.

(** X13: When the structured extractor finds nothing, the search falls back
    on the links of the page: it returns no result exactly when the page
    has no project link, and otherwise its first result is the project
    of the first link; this for every limit. *)
Theorem search_degrades_to_links html_events transport self query limit
    status_code text body parser :
  transport (search_request query) = Responded status_code text body ->
  is_success status_code = true ->
  feed new_parser (html_events text) = Ok parser ->
  results parser = [] ->
  (search_packages html_events transport self query limit = Ok [] <->
   finditer false fallback_re text = []) /\
  (forall m rest,
     finditer false fallback_re text = m :: rest ->
     exists r rs,
       search_packages html_events transport self query limit = Ok (r :: rs) /\
       sr_name r = group 1 m /\ sr_summary r = None).
Proof.
  intros Ht Hs Hf Hr.
  assert (H : search_packages html_events transport self query limit
              = Ok (_fallback_search_parse text limit)).
  { rewrite search_packages_request, Ht, (raise_for_status_success _ Hs).
    cbn [bind]. rewrite Hf. cbn [bind]. rewrite Hr.
    unfold slice_to. now destruct (limit <? 0)%Z; rewrite firstn_nil. }
  rewrite H. unfold _fallback_search_parse. split.
  - destruct (finditer false fallback_re text) as [|m rest].
    + now split.
    + destruct (fallback_loop_first text limit m rest) as (r & rs & -> & _).
      split; intros H0; [injection H0 as H0|]; discriminate H0.
  - intros m rest ->.
    destruct (fallback_loop_first text limit m rest) as (r & rs & Hl & Hn).
    exists r, rs. rewrite Hl. repeat split; trivial.
    assert (Hin : In r (fallback_loop text limit (m :: rest) [] []))
      by (rewrite Hl; now left).
    apply fallback_loop_from in Hin as [[]|(m0 & _ & _ & Hsum & _)]. exact Hsum.
Qed.

Lemma search_degrades_to_links_witness :
  feed new_parser links_events = Ok new_parser /\
  finditer false fallback_re links_page <> [] /\
  exists r rs,
    search_packages (fun _ => links_events) links_transport (new_crawler None true) "foo" 0
      = Ok (r :: rs) /\
    sr_name r = "foo" /\ sr_summary r = None.
Proof.
  split; [reflexivity|].
  assert (Hm : exists rest, finditer false fallback_re links_page
                            = links_first :: rest)
    by (vm_compute; eexists; reflexivity).
  destruct Hm as [rest Hm].
  split; [rewrite Hm; discriminate|].
  exact (proj2 (search_degrades_to_links (fun _ => links_events) links_transport
                  (new_crawler None true) "foo" 0 200%Z links_page None
                  new_parser eq_refl eq_refl eq_refl eq_refl)
           links_first rest Hm).
Defined.

Lemma feed_only_appends_witness :
  feed new_parser two_paragraphs = Ok two_paragraphs_parsed /\
  exists added,
    results two_paragraphs_parsed = results new_parser ++ added /\
    List.length added <= count_end_anchors two_paragraphs.
Proof.
  assert (H : feed new_parser two_paragraphs = Ok two_paragraphs_parsed)
    by (vm_compute; reflexivity).
  split; [exact H|].
  exact (feed_only_appends two_paragraphs new_parser two_paragraphs_parsed H).
Defined.

(** A text never replaces a summary. *)
Lemma handle_data_summary self data p s :
  current_package self = Some p ->
  p_summary p = Some s ->
  exists p', current_package (handle_data self data) = Some p' /\
             p_name p' = p_name p /\ p_summary p' = Some s.
Proof.
  intros Hp Hs. unfold handle_data.
  destruct (negb (in_package_section self)); [now exists p|].
  destruct (String.eqb (Str.strip data) ""); [now exists p|].
  destruct (tag_is (current_tag self) "span").
  - destruct (search false version_re (Str.strip data)) as [m|];
      rewrite Hp; [|now exists p].
    eexists. cbn. split; [reflexivity|]. auto.
  - destruct (tag_is (current_tag self) "p"); [|now exists p].
    rewrite Hp, Hs. now exists p.
Qed.

(** Inside a container whose package has a summary, events other than
    anchor tags leave the results, the name and the summary alone. *)
Lemma summary_kept mid : forall self self' p s,
  feed self mid = Ok self' ->
  no_anchor mid = true ->
  in_package_section self = true ->
  current_package self = Some p ->
  p_summary p = Some s ->
  results self' = results self /\
  in_package_section self' = true /\
  exists p', current_package self' = Some p' /\
             p_name p' = p_name p /\ p_summary p' = Some s.
Proof.
  induction mid as [|e rest IH]; intros self self' p s H Hno Hsec Hp Hs.
  - injection H as <-. repeat split; trivial. now exists p.
  - cbn [feed] in H.
    destruct (handle self e) as [s1|err] eqn:E1; cbn [bind] in H; [|discriminate H].
    destruct e as [tag attrs|tag|data]; cbn [handle] in E1; cbn [no_anchor] in Hno.
    + apply andb_prop in Hno as [Hhere Hrest]. apply negb_true_iff in Hhere.
      assert (Hne : tag <> "a") by (intros ->; discriminate Hhere).
      apply handle_starttag_effect in E1 as (Hr & _ & Hc).
      destruct Hc as [[Hc Hsame]|(Ha & _)]; [|contradiction].
      destruct (IH s1 self' p s H Hrest) as (Hr' & Hs' & Hp').
      * rewrite (Hsame Hne). exact Hsec.
      * now rewrite Hc.
      * exact Hs.
      * rewrite Hr in Hr'. auto.
    + apply andb_prop in Hno as [Hhere Hrest]. apply negb_true_iff in Hhere.
      injection E1 as <-.
      destruct (IH _ self' p s H Hrest) as (Hr' & Hs' & Hp').
      * rewrite handle_endtag_section, Hhere. exact Hsec.
      * rewrite handle_endtag_package, Hhere. exact Hp.
      * exact Hs.
      * rewrite handle_endtag_results, Hhere in Hr'. auto.
    + injection E1 as <-.
      destruct (handle_data_effect self data) as (Hr & Hsc & _ & _).
      destruct (handle_data_summary self data p s Hp Hs) as (q & Hq & Hn & Hsum).
      destruct (IH _ self' q s H Hno) as (Hr' & Hs' & Hp'); try congruence.
      repeat split; trivial; [congruence|].
      destruct Hp' as (p' & Hp' & Hn' & Hs''). exists p'.
      repeat split; trivial. congruence.
Qed.

(** X14: The summary of a result is the first one read: once the package of
    a container has a summary, no later text replaces it, and the
    result emitted when the anchor closes carries it. *)
Theorem summary_first_wins self mid self' p s :
  in_package_section self = true ->
  current_package self = Some p ->
  p_summary p = Some s ->
  no_anchor mid = true ->
  feed self (mid ++ [EndTag "a"]) = Ok self' ->
  exists v,
    results self' = results self ++ [MkSearchResult (p_name p) v (Some s) None].
Proof.
  intros Hsec Hp Hs Hno H. rewrite feed_app in H.
  destruct (feed self mid) as [s2|err] eqn:E2; cbn [bind] in H; [|discriminate H].
  destruct (summary_kept mid self s2 p s E2 Hno Hsec Hp Hs)
    as (Hr & Hs2 & p' & Hp' & Hn & Hsum).
  cbn [feed handle bind] in H. injection H as <-.
  exists (or_empty (p_version p')).
  rewrite handle_endtag_results, Hs2, Hp', Hr, Hn, Hsum. reflexivity.
Qed.

Lemma summary_first_wins_witness :
  feed after_first_paragraph
    ([EndTag "p"; StartTag "p" []; Data "second"; EndTag "p"] ++ [EndTag "a"])
    = Ok two_paragraphs_parsed /\
  exists v,
    results two_paragraphs_parsed
    = results after_first_paragraph ++ [MkSearchResult "foo" v (Some "first") None].
Proof.
  assert (H : feed after_first_paragraph
                ([EndTag "p"; StartTag "p" []; Data "second"; EndTag "p"]
                 ++ [EndTag "a"]) = Ok two_paragraphs_parsed)
    by (vm_compute; reflexivity).
  split; [exact H|].
  exact (summary_first_wins after_first_paragraph
           [EndTag "p"; StartTag "p" []; Data "second"; EndTag "p"]
           two_paragraphs_parsed
           (MkPackage "foo" "/project/foo/" (Some "1.0") (Some "first")) "first"
           eq_refl eq_refl eq_refl eq_refl H).
Defined.

(** ** The errors of the structured extractor *)

Lemma dict_get_in {V : Type} (m : list (string * V)) k v :
  dict_get m k = Some v -> In (k, v) m.
Proof.
  induction m as [|[k' v'] t IH]; cbn [dict_get]; [discriminate|].
  destruct (String.eqb k' k) eqn:E.
  - apply String.eqb_eq in E. subst k'. intros H. injection H as ->. now left.
  - intros H. right. now apply IH.
Qed.

Lemma attr_valued attrs k :
  forallb (fun kv => is_some (snd kv)) attrs = true ->
  attr attrs k <> Some None.
Proof.
  intros Hall H. unfold attr in H. apply dict_get_in in H.
  apply in_rev in H. rewrite forallb_forall in Hall.
  apply Hall in H. discriminate H.
Qed.

Lemma classes_of_valued attrs :
  forallb (fun kv => is_some (snd kv)) attrs = true ->
  exists classes, classes_of attrs = Ok classes.
Proof.
  intros Hall. unfold classes_of.
  pose proof (attr_valued attrs "class" Hall) as Hc.
  destruct (attr attrs "class") as [[v|]|]; eauto. congruence.
Qed.

Lemma handle_starttag_valued self tag attrs :
  forallb (fun kv => is_some (snd kv)) attrs = true ->
  exists self', handle_starttag self tag attrs = Ok self'.
Proof.
  intros Hall. unfold handle_starttag. cbv zeta.
  destruct (classes_of_valued attrs Hall) as [classes Hc].
  pose proof (attr_valued attrs "href" Hall) as Hh.
  match goal with
  | |- context [if ?b then bind _ _ else _] => destruct b
  end.
  - destruct (attr attrs "href") as [[v|]|]; [| congruence |]; cbn [bind];
      match goal with
      | |- context [search ?ic ?r ?s] => destruct (search ic r s)
      end; eauto.
  - cbn [current_tag in_package_section].
    destruct (String.eqb tag "span" && in_package_section self);
      rewrite ?Hc; cbn [bind];
      repeat match goal with
      | |- context [if ?b then _ else _] => destruct b; cbn [bind]
      end;
      cbn [in_package_section]; rewrite ?Hc; cbn [bind];
      repeat match goal with
      | |- context [if ?b then _ else _] => destruct b; cbn [bind]
      end; eauto.
Qed.

(** X15: The handlers of the structured extractor raise nothing on
    events whose start tags give every attribute a value: from any
    state of the parser, handling such events one after the other ends
    in a state of the parser. *)
Theorem handlers_total_on_valued_events events : forall self,
  all_valued events = true -> exists p, feed self events = Ok p.
Proof.
  induction events as [|e rest IH]; intros self Hall; cbn [feed]; [eauto|].
  unfold all_valued in Hall. cbn [forallb] in Hall.
  apply andb_prop in Hall as [He Hrest].
  destruct e as [tag attrs|tag|data]; cbn [handle bind].
  - destruct (handle_starttag_valued self tag attrs He) as [s1 ->].
    cbn [bind]. now apply IH.
  - now apply IH.
  - now apply IH.
Qed.

Lemma handlers_total_on_valued_events_witness :
  all_valued two_paragraphs = true /\
  exists p, feed new_parser two_paragraphs = Ok p.
Proof.
  split; [reflexivity|].
  exact (handlers_total_on_valued_events two_paragraphs new_parser eq_refl).
Defined.

(** X16: A version or description element with a class attribute that has no
    value, met inside a container, stops the search: it raises the
    [AttributeError] of calling [split] on [None], and the link
    fallback is not tried.  Outside a container the same element is
    read without error. *)
Theorem valueless_class_stops_search html_events transport self query limit
    status_code text body before tag attrs rest p :
  transport (search_request query) = Responded status_code text body ->
  is_success status_code = true ->
  html_events text = before ++ StartTag tag attrs :: rest ->
  feed new_parser before = Ok p ->
  tag = "span" \/ tag = "p" ->
  attr attrs "class" = Some None ->
  if in_package_section p
  then search_packages html_events transport self query limit
       = Raise (AttributeError "NoneType" "split")
  else exists p', handle_starttag p tag attrs = Ok p'.
Proof.
  intros Ht Hs He Hf Htag Hc.
  assert (Hh : handle_starttag p tag attrs =
               if in_package_section p
               then Raise (AttributeError "NoneType" "split")
               else Ok (MkParser (results p) (current_package p) false
                          (Some tag) (current_data p))).
  { unfold handle_starttag, classes_of. cbv zeta.
    cbn [in_package_section current_tag results current_package current_data].
    rewrite Hc.
    destruct Htag as [-> | ->]; cbn [String.eqb Ascii.eqb Bool.eqb andb];
      destruct (in_package_section p); reflexivity. }
  destruct (in_package_section p) eqn:Esec.
  - rewrite search_packages_request, Ht, (raise_for_status_success _ Hs).
    cbn [bind]. rewrite He, feed_app, Hf. cbn [bind feed handle].
    rewrite Hh. reflexivity.
  - rewrite Hh. eauto.
Qed.

Lemma valueless_class_stops_search_witness :
  feed new_parser [StartTag "a" snippet_attrs] = Ok inside_snippet /\
  search_packages (fun _ => valueless_page) blank_transport
    (new_crawler None true) "foo" 5
  = Raise (AttributeError "NoneType" "split").
Proof.
  assert (H : feed new_parser [StartTag "a" snippet_attrs] = Ok inside_snippet)
    by (vm_compute; reflexivity).
  split; [exact H|].
  exact (valueless_class_stops_search (fun _ => valueless_page) blank_transport
           (new_crawler None true) "foo" 5 200%Z "" None
           [StartTag "a" snippet_attrs] "span" [("class", None)]
           [Data "1.0"; EndTag "span"; EndTag "a"] inside_snippet
           eq_refl eq_refl eq_refl H (or_introl eq_refl) eq_refl).
Defined.

(* ================================================================== *)
(** * The file index *)
(* ================================================================== *)

(** ** Suffixes *)

Lemma drop_append (a b : string) : Str.drop (String.length a) (a ++ b) = b.
Proof. induction a as [|x a IH]; simpl; [now destruct b|exact IH]. Qed.

Lemma endswith_append (stem suffix : string) :
  Str.endswith (stem ++ suffix) suffix = true.
Proof.
  unfold Str.endswith. rewrite length_append.
  replace (String.length stem + String.length suffix - String.length suffix)
    with (String.length stem) by lia.
  rewrite drop_append, String.eqb_refl.
  replace (String.length suffix <=? String.length stem + String.length suffix)
    with true by (symmetry; apply Nat.leb_le; lia).
  reflexivity.
Qed.

Lemma last_char_append (a : string) c t :
  last_char (a ++ String c t) = last_char (String c t).
Proof.
  induction a as [|x a IH]; [reflexivity|].
  change (String x a ++ String c t)%string with (String x (a ++ String c t)).
  cbn [last_char]. rewrite IH.
  destruct (a ++ String c t)%string eqn:E; trivial.
  destruct a; discriminate E.
Qed.

Lemma last_char_drop n : forall s,
  n < String.length s -> last_char (Str.drop n s) = last_char s.
Proof.
  induction n as [|n IH]; intros [|a t] Hn; simpl in *; trivial; try lia.
  rewrite IH by lia. destruct t; [simpl in Hn; lia|reflexivity].
Qed.

Lemma endswith_last s c t :
  Str.endswith s (String c t) = true -> last_char s = last_char (String c t).
Proof.
  unfold Str.endswith. intros H. apply andb_prop in H as [Hlen Heq].
  apply Nat.leb_le in Hlen. apply String.eqb_eq in Heq.
  rewrite <- Heq. symmetry. apply last_char_drop.
  simpl in *. lia.
Qed.

Lemma endswith_other_last stem c t suffix :
  last_char (String c t) <> last_char suffix ->
  suffix <> "" ->
  Str.endswith (stem ++ String c t) suffix = false.
Proof.
  intros Hne Hs. destruct (Str.endswith (stem ++ String c t) suffix) eqn:E; trivial.
  destruct suffix as [|c' t']; [congruence|].
  apply endswith_last in E. rewrite last_char_append in E. congruence.
Qed.

(** X17: [_guess_packagetype] reads the suffix of the file name only: a name
    that ends in .whl is a wheel, one that ends in .tar.gz or .zip a
    source distribution, one that ends in .egg an egg, whatever comes
    before the suffix. *)
Theorem packagetype_of_suffix stem :
  _guess_packagetype (JStr (stem ++ ".whl")) = Ok "bdist_wheel" /\
  _guess_packagetype (JStr (stem ++ ".tar.gz")) = Ok "sdist" /\
  _guess_packagetype (JStr (stem ++ ".zip")) = Ok "sdist" /\
  _guess_packagetype (JStr (stem ++ ".egg")) = Ok "bdist_egg".
Proof.
  unfold _guess_packagetype. repeat split.
  - now rewrite endswith_append.
  - rewrite (endswith_other_last stem "." "tar.gz" ".whl") by (cbn; congruence).
    now rewrite endswith_append.
  - rewrite (endswith_other_last stem "." "zip" ".whl") by (cbn; congruence).
    rewrite (endswith_append stem ".zip"). now rewrite orb_true_r.
  - rewrite (endswith_other_last stem "." "egg" ".whl") by (cbn; congruence).
    rewrite (endswith_other_last stem "." "egg" ".tar.gz") by (cbn; congruence).
    rewrite (endswith_other_last stem "." "egg" ".zip") by (cbn; congruence).
    now rewrite endswith_append.
Qed.

(** ** The file index *)

Lemma before_has_no_sep a s : Str.lacks a (Str.before a s) = true.
Proof.
  unfold Str.lacks. induction s as [|x t IH]; simpl; trivial.
  destruct (Ascii.eqb x a) eqn:E; simpl; trivial. now rewrite E, IH.
Qed.

Lemma html_distribution_shape m :
  exists d packagetype,
    html_distribution m = Ok d /\
    d = MkDistributionFile (JStr (Str.strip (group 2 m)))
          (JStr (Str.before "#" (group 1 m))) packagetype (JNum 0) JNull
          (df_requires_python d) (JObj (hashes_of_url (group 1 m)))
          (JBool false) JNull /\
    _guess_packagetype (JStr (Str.strip (group 2 m))) = Ok packagetype.
Proof.
  unfold html_distribution, hashes_of_url.
  destruct (_guess_packagetype (JStr (Str.strip (group 2 m)))) as [pt|e] eqn:E;
    [|discriminate E].
  cbn [bind]. do 2 eexists. split; [reflexivity|]. split; reflexivity.
Qed.

Lemma parse_html_total html :
  exists files, _parse_html_distributions html = Ok files.
Proof.
  unfold _parse_html_distributions. apply mapM_total.
  intros m _. destruct (html_distribution_shape m) as (d & _ & Hd & _). eauto.
Qed.

Lemma guess_packagetype_raise v e :
  _guess_packagetype v = Raise e -> read_error e.
Proof.
  destruct v; simpl; intros H; try discriminate H;
    injection H as <-; left; eauto.
Qed.

Lemma json_distribution_raise file_info e :
  json_distribution file_info = Raise e -> read_error e.
Proof.
  unfold json_distribution. intros H.
  repeat (apply bind_raise in H as [H|(? & _ & H)];
          [first [now apply py_get_raise in H
                 |now apply guess_packagetype_raise in H]|]).
  discriminate H.
Qed.

Lemma mapM_raise {X Y : Type} (f : X -> result Y) l e :
  mapM f l = Raise e -> exists x, In x l /\ f x = Raise e.
Proof.
  induction l as [|x t IH]; cbn [mapM]; intros H; [discriminate H|].
  apply bind_raise in H as [H|(y & _ & H)]; [exists x; split; [now left|exact H]|].
  apply bind_raise in H as [H|(ys & _ & H)]; [|discriminate H].
  destruct (IH H) as (x' & Hin & Hx). exists x'. split; [now right|exact Hx].
Qed.

(** What the branches of [get_package_distributions] do with a response
    whose status is a success: they return a list or raise an error of
    reading, never [None] and never an [HTTPStatusError]. *)
Lemma distributions_of_body (use_json : bool) (text : string)
    (body : option json) :
  let r : result (option (list DistributionFile)) :=
    if use_json then
      let* data := response_json body in
      let* files := py_get data "files" (JArr []) in
      let* entries := py_iter files in
      let* files := mapM json_distribution entries in
      Ok (Some files)
    else
      let* files := _parse_html_distributions text in
      Ok (Some files) in
  (exists files, r = Ok (Some files)) \/
  (exists e, r = Raise e /\ (read_error e \/ e = JSONDecodeError)).
Proof.
  cbv zeta. destruct use_json.
  - destruct body as [data|]; cbn [response_json bind];
      [|right; eexists; split; [reflexivity|now right]].
    destruct (py_get data "files" (JArr [])) as [listing|e] eqn:El; cbn [bind];
      [|right; exists e; split; [reflexivity|left; eapply py_get_raise; eassumption]].
    destruct (py_iter listing) as [entries|e] eqn:Ee; cbn [bind];
      [|right; exists e; split; [reflexivity|left; eapply py_iter_raise; eassumption]].
    destruct (mapM json_distribution entries) as [files|e] eqn:Em; cbn [bind];
      [left; eauto|].
    right. exists e. split; [reflexivity|left].
    apply mapM_raise in Em as (x & _ & Hx). eapply json_distribution_raise; eassumption.
  - destruct (parse_html_total text) as [files ->]. cbn [bind]. left. eauto.
Qed.

Lemma on_status_error_read {X : Type} (absent : X) e :
  read_error e \/ e = JSONDecodeError ->
  on_status_error absent (Raise e) = Raise e.
Proof.
  intros [[(ty & attr & ->)|(v & ->)]| ->]; reflexivity.
Qed.

Lemma on_status_error_none {X : Type} (r : result (option X)) :
  on_status_error None r = Ok None ->
  r = Ok None \/ r = Raise (HTTPStatusError 404).
Proof.
  unfold on_status_error. destruct r as [a|e]; [now left|].
  destruct e; try discriminate. destruct status as [|q|q]; try discriminate.
  do 9 (destruct q as [q|q|]; try discriminate). now right.
Qed.

Lemma status_404_not_success : is_success 404 = false.
Proof. reflexivity. Qed.

(** X18: [get_package_distributions] returns [None] exactly when the
    registry answers 404, on both paths; any other status that is not a
    success is raised as its [HTTPStatusError], a network failure as a
    [RuntimeError] from the [RequestError] whose message names the
    package; and on a success the HTML path always returns a list,
    whatever the page. *)
Theorem get_package_distributions_classifies transport self package_name
    use_json :
  (get_package_distributions transport self package_name use_json = Ok None <->
   exists text body,
     transport (simple_request package_name use_json)
     = Responded 404 text body) /\
  match transport (simple_request package_name use_json) with
  | Responded status_code text body =>
      if is_success status_code then
        use_json = false ->
        exists files,
          get_package_distributions transport self package_name use_json
          = Ok (Some files)
      else
        status_code <> 404%Z ->
        get_package_distributions transport self package_name use_json
        = Raise (HTTPStatusError status_code)
  | Failed cause =>
      exists msg,
        get_package_distributions transport self package_name use_json
        = Raise (RuntimeError msg (RequestError cause)) /\
        contains msg package_name
  end.
Proof.
  rewrite get_package_distributions_request.
  destruct (transport (simple_request package_name use_json))
    as [status_code text body|cause].
  - destruct (is_success status_code) eqn:Es.
    + rewrite (raise_for_status_success _ Es). cbn [bind].
      pose proof (distributions_of_body use_json text body) as Hb. cbv zeta in Hb.
      split.
      * split.
        -- intros H. exfalso.
           destruct Hb as [(files & Hf)|(e & He & Hk)]; rewrite ?Hf, ?He in H.
           ++ discriminate H.
           ++ rewrite (on_status_error_read _ _ Hk) in H. discriminate H.
        -- intros (t & b & H). injection H as -> _ _. discriminate Es.
      * intros ->. destruct Hb as [(files & ->)|(e & He & _)];
          [eexists; reflexivity|].
        destruct (parse_html_total text) as [fs Hf]. rewrite Hf in He.
        discriminate He.
    + rewrite (raise_for_status_failure _ Es). cbn [bind]. split.
      * split.
        -- intros H. destruct (Z.eq_dec status_code 404) as [->|Hne]; [eauto|].
           rewrite on_status_error_other in H by exact Hne. discriminate H.
        -- intros (t & b & H). now injection H as -> _ _.
      * intros Hne. now apply on_status_error_other.
  - split.
    + split; [discriminate|]. intros (t & b & H). discriminate H.
    + eexists. split; [reflexivity|].
      exists "Failed to fetch distributions for "%string, (": " ++ cause)%string.
      reflexivity.
Qed.

Lemma html_path_files transport self package_name files :
  get_package_distributions transport self package_name false = Ok (Some files) ->
  exists status_code text body,
    transport (simple_request package_name false)
    = Responded status_code text body /\
    _parse_html_distributions text = Ok files.
Proof.
  rewrite get_package_distributions_request. intros H.
  destruct (transport (simple_request package_name false))
    as [status_code text body|e]; [|discriminate H].
  apply on_status_error_some in H.
  destruct (raise_for_status status_code); cbn [bind] in H; [|discriminate H].
  destruct (_parse_html_distributions text) as [fs|e] eqn:Ef;
    cbn [bind] in H; [|discriminate H].
  injection H as <-. eauto.
Qed.

(** X19: Every file of the HTML path is normalized: its name and its url are
    texts, the url has no fragment left (no # at all), its size is 0,
    it has no upload time, it is not yanked, and its package type is
    the one of its name. *)
Theorem html_files_normalized transport self package_name files d :
  get_package_distributions transport self package_name false = Ok (Some files) ->
  In d files ->
  exists name link,
    filename d = JStr name /\
    url d = JStr link /\ Str.lacks "#" link = true /\
    size d = JNum 0 /\ upload_time d = JNull /\
    yanked d = JBool false /\ yanked_reason d = JNull /\
    _guess_packagetype (JStr name) = Ok (packagetype d).
Proof.
  intros H Hin. apply html_path_files in H as (st & text & body & _ & Hf).
  unfold _parse_html_distributions in Hf. apply mapM_forall2 in Hf.
  destruct (forall2_in_r _ _ _ _ _ _ Hf Hin) as (m & _ & Hm).
  destruct (html_distribution_shape m) as (d' & pt & Hd' & Hshape & Hpt).
  rewrite Hm in Hd'. injection Hd' as <-.
  exists (Str.strip (group 2 m)), (Str.before "#" (group 1 m)).
  rewrite Hshape. cbn. repeat split; trivial. apply before_has_no_sep.
Qed.

Lemma html_files_normalized_witness :
  get_package_distributions sha_transport (new_crawler None true) "f" false
    = Ok (Some [sha_file]) /\
  exists name link,
    filename sha_file = JStr name /\
    url sha_file = JStr link /\ Str.lacks "#" link = true /\
    size sha_file = JNum 0 /\ upload_time sha_file = JNull /\
    yanked sha_file = JBool false /\ yanked_reason sha_file = JNull /\
    _guess_packagetype (JStr name) = Ok (packagetype sha_file).
Proof.
  assert (H : get_package_distributions sha_transport (new_crawler None true)
                "f" false = Ok (Some [sha_file])) by (vm_compute; reflexivity).
  split; [exact H|].
  exact (html_files_normalized sha_transport (new_crawler None true) "f"
           [sha_file] sha_file H (or_introl eq_refl)).
Defined.

Lemma json_distribution_ok_iff file_info :
  (exists d, json_distribution file_info = Ok d) <-> entry_ok file_info = true.
Proof.
  unfold json_distribution, entry_ok.
  destruct file_info as [| | | | |m];
    try (split; [intros [d H]; discriminate H|discriminate]).
  rewrite !py_get_obj. cbn [bind].
  destruct (get_default m "filename" (JStr "")) as [| | |f| |];
    cbn [_guess_packagetype bind];
    try (split; [intros [d H]; discriminate H|discriminate]).
  split; [reflexivity|]. intros _. eexists. reflexivity.
Qed.

Lemma json_distribution_fields file_info d :
  json_distribution file_info = Ok d ->
  exists m,
    file_info = JObj m /\
    filename d = get_default m "filename" (JStr "") /\
    url d = get_default m "url" (JStr "") /\
    size d = get_default m "size" (JNum 0) /\
    upload_time d = get_default m "upload-time" JNull /\
    df_requires_python d = get_default m "requires-python" JNull /\
    yanked d = get_default m "yanked" (JBool false) /\
    _guess_packagetype (filename d) = Ok (packagetype d).
Proof.
  unfold json_distribution. intros H.
  destruct file_info as [| | | | |m]; try discriminate H.
  exists m. split; [reflexivity|]. rewrite !py_get_obj in H. cbn [bind] in H.
  destruct (_guess_packagetype (get_default m "filename" (JStr ""))) as [pt|e] eqn:E;
    cbn [bind] in H; [|discriminate H].
  injection H as <-. cbn. auto 10.
Qed.

Lemma mapM_ok_iff {X Y : Type} (f : X -> result Y) l :
  (exists ys, mapM f l = Ok ys) <-> Forall (fun x => exists y, f x = Ok y) l.
Proof.
  split.
  - intros [ys H]. apply mapM_forall2 in H.
    induction H as [|x y l ys Hxy _ IH]; constructor; eauto.
  - intros H. apply mapM_total. intros x Hx.
    rewrite Forall_forall in H. auto.
Qed.

(** X20: The JSON path reads the file index all or nothing: it returns a list
    exactly when every entry is a dictionary whose filename is a text
    (or missing), and raises otherwise; the list then has one file for
    each entry, in the order of the entries, with the name, url, size,
    upload time and yanked flag of the entry (the empty text, 0 and
    False when missing) and the package type of the name. *)
Theorem json_files_all_or_nothing transport self package_name status_code text
    data entries :
  transport (simple_request package_name true)
    = Responded status_code text (Some (JObj data)) ->
  is_success status_code = true ->
  get_default data "files" (JArr []) = JArr entries ->
  ((exists files,
      get_package_distributions transport self package_name true
      = Ok (Some files)) <->
   forallb entry_ok entries = true) /\
  (forall files,
     get_package_distributions transport self package_name true
       = Ok (Some files) ->
     Forall2
       (fun file_info d =>
          exists m,
            file_info = JObj m /\
            filename d = get_default m "filename" (JStr "") /\
            url d = get_default m "url" (JStr "") /\
            size d = get_default m "size" (JNum 0) /\
            upload_time d = get_default m "upload-time" JNull /\
            df_requires_python d = get_default m "requires-python" JNull /\
            yanked d = get_default m "yanked" (JBool false) /\
            _guess_packagetype (filename d) = Ok (packagetype d))
       entries files).
Proof.
  intros Ht Hs He.
  assert (H : get_package_distributions transport self package_name true
              = let* files := mapM json_distribution entries in Ok (Some files)).
  { rewrite get_package_distributions_request, Ht,
      (raise_for_status_success _ Hs).
    cbn [bind response_json]. rewrite py_get_obj, He. cbn [bind py_iter].
    destruct (mapM json_distribution entries) as [fs|e] eqn:Em; cbn [bind];
      [reflexivity|].
    apply on_status_error_read. left.
    apply mapM_raise in Em as (x & _ & Hx).
    eapply json_distribution_raise; eassumption. }
  rewrite H. split.
  - rewrite forallb_forall, <- Forall_forall.
    split.
    + intros [files Hf].
      assert (Hm : exists ys, mapM json_distribution entries = Ok ys)
        by (destruct (mapM json_distribution entries) as [fs|e];
            [eauto|discriminate Hf]).
      apply mapM_ok_iff in Hm. eapply Forall_impl; [|exact Hm].
      intros x. apply json_distribution_ok_iff.
    + intros HF.
      assert (Hm : exists ys, mapM json_distribution entries = Ok ys).
      { apply mapM_ok_iff. eapply Forall_impl; [|exact HF].
        intros x. apply json_distribution_ok_iff. }
      destruct Hm as [fs ->]. cbn [bind]. eauto.
  - intros files Hf.
    destruct (mapM json_distribution entries) as [fs|e] eqn:Em;
      cbn [bind] in Hf; [|discriminate Hf].
    injection Hf as <-. apply mapM_forall2 in Em.
    eapply Forall2_impl; [|exact Em].
    intros fi d Hd. now apply json_distribution_fields.
Qed.

Lemma json_files_all_or_nothing_witness :
  forallb entry_ok two_files = true /\
  get_package_distributions two_files_transport (new_crawler None true) "demo"
    true = Ok (Some two_files_parsed) /\
  List.length two_files_parsed = List.length two_files.
Proof.
  destruct (json_files_all_or_nothing two_files_transport
              (new_crawler None true) "demo" 200%Z ""
              [("files", JArr two_files)] two_files eq_refl eq_refl eq_refl)
    as [Hiff Hall].
  assert (H : get_package_distributions two_files_transport
                (new_crawler None true) "demo" true
              = Ok (Some two_files_parsed)) by reflexivity.
  split; [apply Hiff; eauto|]. split; [exact H|].
  symmetry. exact (Forall2_length (Hall _ H)).
Defined.

Lemma get_package_distributions_classifies_witness :
  get_package_distributions absent_transport (new_crawler None true) "nope" true
    = Ok None /\
  exists files,
    get_package_distributions sha_transport (new_crawler None true) "f" false
    = Ok (Some files).
Proof.
  split.
  - apply (proj1 (get_package_distributions_classifies absent_transport
                    (new_crawler None true) "nope" true)).
    now exists ""%string, None.
  - exact (proj2 (get_package_distributions_classifies sha_transport
                    (new_crawler None true) "f" false) eq_refl).
Defined.

(* ================================================================== *)
(** * The life of the HTTP client *)
(* ================================================================== *)

Lemma accounted_new : accounted new_session.
Proof.
  repeat split; cbn; try discriminate; try contradiction. constructor.
Qed.

Lemma accounted_enter s : accounted s -> accounted (__enter__ s).
Proof.
  intros (Hheld & Hclosed & Hnd). repeat split; cbn; trivial.
  - injection H as <-. lia.
  - injection H as <-. intros Hin. apply Hclosed in Hin. lia.
  - intros c Hc. apply Hclosed in Hc. lia.
Qed.

Lemma accounted_exit s : accounted s -> accounted (__exit__ s).
Proof.
  intros Hacc. unfold __exit__.
  destruct (_client s) as [c|] eqn:Ec; [|exact Hacc].
  destruct Hacc as (Hheld & Hclosed & Hnd).
  destruct (Hheld c Ec) as [Hlt Hnot].
  repeat split; cbn; try discriminate.
  - intros c' [<-|Hc']; [exact Hlt|now apply Hclosed].
  - now constructor.
Qed.

Lemma accounted_get s :
  accounted s ->
  accounted (snd (_get_client s)) /\
  _client (snd (_get_client s)) = Some (fst (_get_client s)) /\
  closed (snd (_get_client s)) = closed s.
Proof.
  intros Hacc. unfold _get_client.
  destruct (_client s) as [c|] eqn:Ec; cbn [fst snd].
  - split; [exact Hacc|]. split; [exact Ec|reflexivity].
  - destruct Hacc as (Hheld & Hclosed & Hnd). repeat split; cbn; trivial.
    + injection H as <-. lia.
    + injection H as <-. intros Hin. apply Hclosed in Hin. lia.
    + intros c Hc. apply Hclosed in Hc. lia.
Qed.

Lemma run_accounted actions : forall s,
  accounted s -> accounted (fst (run s actions)).
Proof.
  induction actions as [|a rest IH]; intros s Hs; cbn [run]; [exact Hs|].
  destruct a.
  - apply IH, accounted_enter, Hs.
  - apply IH, accounted_exit, Hs.
  - destruct (accounted_get s Hs) as (Hacc' & _).
    destruct (_get_client s) as [c0 s']. cbn [snd] in Hacc'.
    specialize (IH s' Hacc'). now destruct (run s' rest).
Qed.

(** X21: Whatever has been done with a crawler since its construction, the
    client the next request gets has not been closed, and no client has
    been closed twice. *)
Theorem requests_use_open_clients actions :
  let s := fst (run new_session actions) in
  ~ In (fst (_get_client s)) (closed s) /\ NoDup (closed s).
Proof.
  cbv zeta.
  pose proof (run_accounted actions new_session accounted_new) as Hacc.
  destruct (accounted_get _ Hacc) as ((Hheld & _) & Hc & Hcl).
  split; [|apply Hacc].
  rewrite <- Hcl. exact (proj2 (Hheld _ Hc)).
Qed.

Lemma run_requests n : forall c o cl,
  run (MkSession (Some c) o cl) (repeat Request n)
  = (MkSession (Some c) o cl, repeat c n).
Proof.
  induction n as [|n IH]; intros c o cl; [reflexivity|].
  cbn [repeat run _get_client _client]. now rewrite IH.
Qed.

Lemma run_app a1 : forall a2 s,
  run s (a1 ++ a2)
  = (fst (run (fst (run s a1)) a2),
     snd (run s a1) ++ snd (run (fst (run s a1)) a2)).
Proof.
  induction a1 as [|a rest IH]; intros a2 s; cbn [app run].
  - cbn [fst snd app]. now destruct (run s a2).
  - destruct a; try apply IH.
    destruct (_get_client s) as [c s']. rewrite IH.
    destruct (run s' rest) as [s'' used]. reflexivity.
Qed.

(** X22: A crawler used in a [with] block, as the command line does:
    entering constructs one client, every request inside uses it, and
    leaving closes it; no client is left open and the crawler holds
    none. *)
Theorem with_block_closes_its_client n :
  run new_session (Enter :: repeat Request n ++ [Leave])
  = (MkSession None 1 [0], repeat 0 n).
Proof.
  cbn [run]. rewrite run_app. unfold __enter__, new_session.
  cbn [opened closed]. rewrite run_requests. cbn. now rewrite app_nil_r.
Qed.

(** X23: A client constructed by a request made before the [with] block is
    entered is never closed, whatever is done afterwards: entering
    replaces it without closing it. *)
Theorem lazy_client_leaks_on_enter actions :
  ~ In 0 (closed (fst (run new_session (Request :: Enter :: actions)))).
Proof.
  cbn [run _get_client new_session _client opened closed].
  destruct (run (__enter__ (MkSession (Some 0) 1 [])) actions) as [s used] eqn:Er.
  cbn [fst].
  assert (H : forall acts s0,
            (forall c, _client s0 = Some c -> c <> 0) ->
            0 < opened s0 -> ~ In 0 (closed s0) ->
            ~ In 0 (closed (fst (run s0 acts)))).
  { induction acts as [|a rest IH]; intros s0 Hh Ho Hc; cbn [run]; trivial.
    destruct a.
    - apply IH; cbn; trivial; [|lia]. intros c Hc0. injection Hc0 as <-. lia.
    - assert (He : (forall c, _client (__exit__ s0) = Some c -> c <> 0) /\
                   0 < opened (__exit__ s0) /\ ~ In 0 (closed (__exit__ s0))).
      { unfold __exit__. destruct (_client s0) as [c|] eqn:Ec; cbn.
        - repeat split; [discriminate|exact Ho|].
          intros [->|Hin]; [now apply (Hh 0)|now apply Hc].
        - repeat split; trivial. intros c. rewrite Ec. discriminate. }
      destruct He as (H1 & H2 & H3). now apply IH.
    - assert (Hg : (forall c, _client (snd (_get_client s0)) = Some c -> c <> 0) /\
                   0 < opened (snd (_get_client s0)) /\
                   ~ In 0 (closed (snd (_get_client s0)))).
      { unfold _get_client. destruct (_client s0) as [c|] eqn:Ec; cbn.
        - repeat split; trivial. intros c'. rewrite Ec. intros Hc'.
          injection Hc' as <-. now apply Hh.
        - repeat split; trivial; [|lia]. intros c Hc0. injection Hc0 as <-. lia. }
      destruct (_get_client s0) as [c0 s'] eqn:Eg. cbn [snd] in Hg.
      destruct Hg as (H1 & H2 & H3).
      specialize (IH s' H1 H2 H3). destruct (run s' rest) as [s'' u].
      exact IH. }
  replace s with (fst (run (__enter__ (MkSession (Some 0) 1 [])) actions))
    by now rewrite Er.
  apply H; cbn; [intros c Hc; injection Hc as <-; lia|lia|tauto].
Qed.

(* ================================================================== *)
(** * The command [av venv] *)
(* ================================================================== *)

Lemma runs_app a b : runs (a ++ b) = runs a ++ runs b.
Proof.
  induction a as [|e a IH]; [reflexivity|]. destruct e; cbn; now rewrite ?IH.
Qed.

Lemma questions_app a b : questions (a ++ b) = questions a ++ questions b.
Proof.
  induction a as [|e a IH]; [reflexivity|]. destruct e; cbn; now rewrite ?IH.
Qed.

Lemma plans_app a b : plans (a ++ b) = plans a + plans b.
Proof.
  induction a as [|e a IH]; [reflexivity|]. destruct e; cbn; now rewrite ?IH.
Qed.

Ltac venv_step :=
  match goal with
  | |- context [exists_ ?w ?p] => destruct (exists_ w p) eqn:?
  | |- context [is_dir ?w ?p] => destruct (is_dir w p) eqn:?
  | |- context [confirm_clear ?w] => destruct (confirm_clear w) eqn:?
  | |- context [Z.eqb (venv_code ?w) 0] =>
      destruct (Z.eqb (venv_code w) 0) eqn:?
  | |- context [plan ?w] => destruct (plan w) as [[|? ?] ?] eqn:?
  | |- context [confirm_install ?w] => destruct (confirm_install w) eqn:?
  | |- context [Z.eqb (install_code ?w) 0] =>
      destruct (Z.eqb (install_code w) 0) eqn:?
  end;
  cbn [fst snd negb andb orb].

Ltac venv_cases :=
  unfold venv, show_plan; cbv zeta; cbn [fst snd negb andb orb];
  repeat venv_step;
  rewrite ?runs_app, ?questions_app, ?plans_app;
  cbn [fst snd negb andb orb app runs questions plans].

(** X24: In a dry run [venv] asks no question and calls [run_command]
    at most once: when the project directory is valid and the
    environment does not exist yet, with the three words uv, venv and
    the path of the environment as it was given; otherwise not at all.
    It adds no [--clear] of its own and does not call the installation
    command. *)
Theorem dry_run_only_creates w venv_path project_path yes :
  let trace := fst (venv w venv_path project_path yes true) in
  questions trace = [] /\
  runs trace =
    if exists_ w (project_dir w project_path)
       && is_dir w (project_dir w project_path)
       && negb (exists_ w (venv_abs_path w venv_path project_path))
    then [["uv"; "venv"; given_venv_path venv_path]]
    else [].
Proof.
  cbv zeta. unfold venv_abs_path, project_dir, given_venv_path.
  destruct yes; venv_cases; split; reflexivity.
Qed.

Ltac in_cases :=
  unfold uv_venv; cbn [In app fst snd];
  repeat match goal with
  | |- _ \/ _ -> _ => intros [?|?]
  | |- False -> _ => intros []
  | |- _ = _ -> _ => intros ?
  | |- In _ _ -> _ => intros ?
  | H : _ \/ _ |- _ => destruct H as [H|H]
  | H : False |- _ => destruct H
  | H : In _ [] |- _ => destruct H
  end.

(** X25: [venv] adds [--clear] to the creation command, which is then
    the four words uv, venv, the path as given and [--clear], exactly
    when the project directory is valid, the environment exists, the
    run is not a dry run, and [--yes] was given or the user answered
    yes to the question about clearing. *)
Theorem clear_needs_consent w venv_path project_path yes dry_run path :
  In (uv_venv path true)
     (runs (fst (venv w venv_path project_path yes dry_run))) <->
  path = given_venv_path venv_path /\
  exists_ w (project_dir w project_path) = true /\
  is_dir w (project_dir w project_path) = true /\
  exists_ w (venv_abs_path w venv_path project_path) = true /\
  dry_run = false /\ (yes = true \/ confirm_clear w = true).
Proof.
  unfold venv_abs_path, project_dir, given_venv_path.
  destruct yes, dry_run; venv_cases; unfold uv_venv; cbn [In app];
    (split;
     [ intros H;
       repeat match goal with
       | H : _ \/ _ |- _ => destruct H as [H|H]
       | H : False |- _ => destruct H
       end;
       try discriminate;
       match goal with
       | H : _ = _ |- _ => injection H as <-
       end; auto 10
     | intros (Hp & H1 & H2 & H3 & H4 & H5);
       try discriminate;
       try (destruct H5; discriminate);
       subst path; auto ]).
Qed.

Lemma clear_needs_consent_witness :
  In (uv_venv ".venv" true)
     (runs (fst (venv sample_world None (Some "/work") true false))).
Proof.
  apply (proj2 (clear_needs_consent sample_world None (Some "/work") true false
                  ".venv")).
  repeat (split; [reflexivity|]). left. reflexivity.
Defined.

(** X26: Every call of [run_command] by [venv] is the creation command
    (uv, venv and the path as given, with or without [--clear]) or the
    installation command (uv pip install --python, an interpreter, then
    exactly the packages of the plan); and the installation command is
    called only outside a dry run, for a plan that is not empty, when
    [--yes] was given or the user answered yes to the question about
    installing. *)
Theorem install_needs_plan_and_consent w venv_path project_path yes dry_run
    command :
  In command (runs (fst (venv w venv_path project_path yes dry_run))) ->
  (exists clear, command = uv_venv (given_venv_path venv_path) clear) \/
  (exists python_exe,
     command = ["uv"; "pip"; "install"; "--python"; python_exe] ++ fst (plan w) /\
     fst (plan w) <> [] /\
     dry_run = false /\ (yes = true \/ confirm_install w = true)).
Proof.
  unfold given_venv_path.
  destruct yes, dry_run; venv_cases; in_cases; subst;
    first [ left; exists true; reflexivity
          | left; exists false; reflexivity
          | right; eexists; repeat split; try reflexivity; try discriminate; auto ].
Qed.

Lemma install_needs_plan_and_consent_witness :
  In ["uv"; "pip"; "install"; "--python"; "/work/.venv/bin/python"; "httpx"; "rich"]
     (runs (fst (venv sample_world None (Some "/work") true false))) /\
  fst (plan sample_world) <> [].
Proof.
  assert (H : In ["uv"; "pip"; "install"; "--python"; "/work/.venv/bin/python";
                  "httpx"; "rich"]
                (runs (fst (venv sample_world None (Some "/work") true false))))
    by (right; left; reflexivity).
  split; [exact H|].
  destruct (install_needs_plan_and_consent sample_world None (Some "/work")
              true false _ H) as [(clear & Hc)|(exe & _ & Hne & _)].
  - destruct clear; discriminate Hc.
  - exact Hne.
Defined.

(** X27: A project path that does not exist or is not a directory ends the
    command with the exit code 1 after one message: nothing is asked,
    run or planned. *)
Theorem invalid_project_does_nothing w venv_path project_path yes dry_run :
  let project :=
    match project_path with None => cwd w | Some p => resolve w p end in
  exists_ w project && is_dir w project = false ->
  snd (venv w venv_path project_path yes dry_run) = Exit 1 /\
  exists message,
    fst (venv w venv_path project_path yes dry_run) = [Print message].
Proof.
  cbv zeta. unfold venv. cbv zeta.
  destruct (exists_ w _); cbn [negb andb fst snd].
  - destruct (is_dir w _); cbn [negb fst snd]; [discriminate|].
    intros _. split; [reflexivity|eexists; reflexivity].
  - intros _. split; [reflexivity|eexists; reflexivity].
Qed.

Lemma invalid_project_does_nothing_witness :
  snd (venv empty_world None None false false) = Exit 1.
Proof.
  exact (proj1 (invalid_project_does_nothing empty_world None None false false
                  eq_refl)).
Defined.

(** X28: When the creation of the environment fails the command stops there:
    it ends with the exit code of [uv venv], the creation is the only
    command run, and the planner is not called. *)
Theorem failed_creation_stops w venv_path project_path yes dry_run path clear :
  In (uv_venv path clear)
     (runs (fst (venv w venv_path project_path yes dry_run))) ->
  venv_code w <> 0%Z ->
  snd (venv w venv_path project_path yes dry_run) = Exit (venv_code w) /\
  runs (fst (venv w venv_path project_path yes dry_run)) = [uv_venv path clear] /\
  plans (fst (venv w venv_path project_path yes dry_run)) = 0.
Proof.
  intros Hin Hne. revert Hin.
  destruct (Z.eqb (venv_code w) 0) eqn:E;
    [apply Z.eqb_eq in E; contradiction|].
  unfold venv, show_plan; cbv zeta. rewrite E.
  destruct yes, dry_run; cbn [fst snd negb andb orb];
    repeat venv_step;
    rewrite ?runs_app, ?questions_app, ?plans_app;
    cbn [fst snd negb andb orb app runs questions plans];
    in_cases; try discriminate;
    match goal with H : _ = _ |- _ => rewrite <- H end; auto.
Qed.

Lemma failed_creation_stops_witness :
  snd (venv failing_world None None true false) = Exit 2 /\
  plans (fst (venv failing_world None None true false)) = 0.
Proof.
  assert (Hin : In (uv_venv ".venv" true)
                  (runs (fst (venv failing_world None None true false))))
    by (left; reflexivity).
  assert (Hne : venv_code failing_world <> 0%Z) by discriminate.
  destruct (failed_creation_stops failing_world None None true false
              ".venv" true Hin Hne) as (H1 & _ & H3).
  split; [exact H1|exact H3].
Defined.

(** X29: [venv] returns normally exactly when it called [run_command]
    with the installation command and that call returned the exit code
    0.  With an empty plan, in a dry run, after a refusal or after a
    command that failed it does not return normally. *)
Theorem returns_only_after_install w venv_path project_path yes dry_run :
  snd (venv w venv_path project_path yes dry_run) = Returned <->
  install_code w = 0%Z /\
  exists python_exe,
    In (uv_pip_install python_exe (fst (plan w)))
       (runs (fst (venv w venv_path project_path yes dry_run))).
Proof.
  unfold uv_pip_install.
  destruct (Z.eqb (install_code w) 0) eqn:E.
  - apply Z.eqb_eq in E. rewrite E.
    unfold venv, show_plan; cbv zeta. rewrite E.
    replace (0 =? 0)%Z with true by reflexivity.
    destruct yes, dry_run; cbn [fst snd negb andb orb];
      repeat venv_step;
      rewrite ?runs_app, ?questions_app, ?plans_app;
      cbn [fst snd negb andb orb app runs questions plans];
      (split;
       [ intros H;
         first [ discriminate H
               | split; [reflexivity|]; eexists; cbn [In]; auto ]
       | intros [_ [exe H]]; revert H; in_cases; try discriminate;
         reflexivity ]).
  - assert (Hne : install_code w <> 0%Z) by (now apply Z.eqb_neq).
    split; [|now intros [H _]].
    unfold venv, show_plan; cbv zeta. rewrite E.
    destruct yes, dry_run; cbn [fst snd negb andb orb];
      repeat venv_step; discriminate.
Qed.
